(** * donkeylabs_job.py: the external-job client link

    A shallow embedding of
    [packages/server/examples/external-jobs/python/donkeylabs_job.py]:
    the [DonkeylabsJob] class (connect, send, reconnect, heartbeat, the
    handler-facing event calls), the [run_job] driver and the example
    handler.

    Python objects are modelled as follows.
    - Values of type [Any] are [pyval]s; a dictionary is an association
      list in insertion order, which is the order [json.dumps] writes.
    - A method of [DonkeylabsJob] is a computation in the monad [M]: it
      threads the attributes of [self] and the state of the world, and it
      either returns a value or raises an exception.
    - The operating system, the clock and the library parser are an
      environment [Env] the definitions are parametrised by; what the
      program did to the world is recorded in a trace of [effect]s.
    - Threads: the sequential model records a [ThreadStart]; the
      interleaving of sender and reconnect threads is the subject of the
      module [Interleaving].
    - Writing a line to stderr and starting a thread are taken to
      succeed.
    - [time.sleep] is taken to accept every length that is not
      negative; where a property depends on it, the length is assumed
      to be at most [sleep_limit], within the timer's range.

    The file has three parts: the model, the vocabulary of the
    properties, and the properties. *)

From Stdlib Require Import ZArith QArith Qround String Ascii List Bool Lia DecimalString.
Import ListNotations.

Local Close Scope Q_scope.
Local Open Scope list_scope.
Local Open Scope string_scope.

Set Implicit Arguments.
Set Warnings "-register-all".

(* ================================================================== *)
(** ** Exceptions *)
(* ================================================================== *)

(** The part of Python's exception hierarchy the module meets. *)
Inductive exc_class : Type :=
  | BaseException | SystemExit | KeyboardInterrupt | Exception
  | OSError | ConnectionError | BrokenPipeError | ConnectionResetError
  | ConnectionRefusedError | FileNotFoundError | TimeoutError
  | gaierror
  | ValueError | JSONDecodeError | TypeError | AttributeError
  | OverflowError.

Definition exc_class_eqb (a b : exc_class) : bool :=
  match a, b with
  | BaseException, BaseException | SystemExit, SystemExit
  | KeyboardInterrupt, KeyboardInterrupt | Exception, Exception
  | OSError, OSError | ConnectionError, ConnectionError
  | BrokenPipeError, BrokenPipeError
  | ConnectionResetError, ConnectionResetError
  | ConnectionRefusedError, ConnectionRefusedError
  | FileNotFoundError, FileNotFoundError | TimeoutError, TimeoutError
  | gaierror, gaierror
  | ValueError, ValueError | JSONDecodeError, JSONDecodeError
  | TypeError, TypeError | AttributeError, AttributeError
  | OverflowError, OverflowError => true
  | _, _ => false
  end.

(** The direct base class. *)
Definition base (c : exc_class) : option exc_class :=
  match c with
  | BaseException => None
  | SystemExit | KeyboardInterrupt | Exception => Some BaseException
  | OSError | ValueError | TypeError | AttributeError => Some Exception
  | OverflowError => Some Exception   (* through ArithmeticError *)
  | ConnectionError | FileNotFoundError | TimeoutError => Some OSError
  | gaierror => Some OSError     (* socket.gaierror *)
  | BrokenPipeError | ConnectionResetError | ConnectionRefusedError =>
      Some ConnectionError
  | JSONDecodeError => Some ValueError
  end.

Fixpoint issubclass_upto (fuel : nat) (c d : exc_class) : bool :=
  exc_class_eqb c d ||
  match fuel with
  | O => false
  | S fuel' =>
      match base c with
      | Some b => issubclass_upto fuel' b d
      | None => false
      end
  end.

(** No class of the hierarchy above is more than four steps from
    [BaseException]. *)
Definition issubclass (c d : exc_class) : bool := issubclass_upto 4 c d.

(** A raised exception: an instance of a class with its message, or the
    [SystemExit] that [sys.exit(code)] raises. *)
Inductive exn : Type :=
  | Exn (c : exc_class) (msg : string)
  | Exit (code : Z).

Definition class_of (e : exn) : exc_class :=
  match e with
  | Exn c _ => c
  | Exit _ => SystemExit
  end.

(** [str(e)] *)
Definition str_exn (e : exn) : string :=
  match e with
  | Exn _ msg => msg
  | Exit code => NilZero.string_of_int (Z.to_int code)
  end.

(** [isinstance(e, (c1, ..., cn))], the test of an [except] clause. *)
Definition isinstance (e : exn) (cs : list exc_class) : bool :=
  existsb (issubclass (class_of e)) cs.

(** The result of running a piece of Python. *)
Inductive Outcome (A : Type) : Type :=
  | Ret (a : A)
  | Raise (e : exn).
Arguments Ret {A} a.
Arguments Raise {A} e.

(** Failures of the socket layer, by errno, and the two failures of
    the lookup of a host name. Each one surfaces as an instance of a
    subclass of [OSError]. *)
Inductive os_error : Type :=
  | EPIPE | ECONNRESET | ECONNREFUSED | ENOENT | ETIMEDOUT | EBADF
  | ENOTCONN | EMFILE | EIO
  | EAI_NONAME | EAI_AGAIN.

Definition class_of_errno (e : os_error) : exc_class :=
  match e with
  | EPIPE => BrokenPipeError
  | ECONNRESET => ConnectionResetError
  | ECONNREFUSED => ConnectionRefusedError
  | ENOENT => FileNotFoundError
  | ETIMEDOUT => TimeoutError
  | EBADF | ENOTCONN | EMFILE | EIO => OSError
  | EAI_NONAME | EAI_AGAIN => gaierror
  end.

Definition strerror (e : os_error) : string :=
  match e with
  | EPIPE => "[Errno 32] Broken pipe"
  | ECONNRESET => "[Errno 104] Connection reset by peer"
  | ECONNREFUSED => "[Errno 111] Connection refused"
  | ENOENT => "[Errno 2] No such file or directory"
  | ETIMEDOUT => "[Errno 110] Connection timed out"
  | EBADF => "[Errno 9] Bad file descriptor"
  | ENOTCONN => "[Errno 107] Transport endpoint is not connected"
  | EMFILE => "[Errno 24] Too many open files"
  | EIO => "[Errno 5] Input/output error"
  | EAI_NONAME => "[Errno -2] Name or service not known"
  | EAI_AGAIN => "[Errno -3] Temporary failure in name resolution"
  end.

Definition exn_of_errno (e : os_error) : exn :=
  Exn (class_of_errno e) (strerror e).

(* ================================================================== *)
(** ** Python values *)
(* ================================================================== *)

(** Values of type [Any]. A [float] is carried as the text [json.dumps]
    writes for it. [PyCycle] is a reference from inside a container back
    to a container that encloses it; [PyObject] is an instance of a class
    the JSON encoder has no rule for. *)
Inductive pyval : Type :=
  | PyNone
  | PyBool (b : bool)
  | PyInt (z : Z)
  | PyFloat (text : string)
  | PyStr (s : string)
  | PyList (items : list pyval)
  | PyDict (entries : list (string * pyval))
  | PyCycle
  | PyObject.

Definition dict : Type := list (string * pyval).

(** [d.get(k)] on a dictionary; [None] of the option is Python's
    [None] of [dict.get]. *)
Fixpoint dict_get (d : dict) (k : string) : option pyval :=
  match d with
  | [] => None
  | (k', v) :: rest => if String.eqb k' k then Some v else dict_get rest k
  end.

(** [d[k] = v]: an existing key keeps its position, a new one goes last. *)
Fixpoint dict_set (d : dict) (k : string) (v : pyval) : dict :=
  match d with
  | [] => [(k, v)]
  | (k', v') :: rest =>
      if String.eqb k' k then (k, v) :: rest
      else (k', v') :: dict_set rest k v
  end.

(** [k in d] *)
Definition dict_has (d : dict) (k : string) : bool :=
  match dict_get d k with Some _ => true | None => false end.

(** Truth value of an object in a condition. *)
Definition truthy (v : pyval) : bool :=
  match v with
  | PyNone => false
  | PyBool b => b
  | PyInt z => negb (Z.eqb z 0)
  | PyFloat text => negb (String.eqb text "0.0" || String.eqb text "-0.0")
  | PyStr s => negb (String.eqb s "")
  | PyList items => match items with [] => false | _ => true end
  | PyDict entries => match entries with [] => false | _ => true end
  | PyCycle => true
  | PyObject => true
  end.

(** An [Optional[str]] argument as a value. *)
Definition of_optional (o : option string) : pyval :=
  match o with
  | Some s => PyStr s
  | None => PyNone
  end.

(** Absence of [PyCycle] and [PyObject]: what [json.dumps] can encode. *)
Fixpoint encodable (v : pyval) : bool :=
  match v with
  | PyCycle | PyObject => false
  | PyList items => forallb encodable items
  | PyDict entries => forallb (fun kv => encodable (snd kv)) entries
  | _ => true
  end.

(** Induction on values: the scheme Rocq derives says nothing about
    the values inside a list or a dictionary. *)

Section PyvalInd.
Variable P : pyval -> Prop.
Hypothesis HNone : P PyNone.
Hypothesis HBool : forall b, P (PyBool b).
Hypothesis HInt : forall z, P (PyInt z).
Hypothesis HFloat : forall text, P (PyFloat text).
Hypothesis HStr : forall s, P (PyStr s).
Hypothesis HList : forall items, Forall P items -> P (PyList items).
Hypothesis HDict :
  forall entries, Forall (fun kv => P (snd kv)) entries -> P (PyDict entries).
Hypothesis HCycle : P PyCycle.
Hypothesis HObject : P PyObject.

Fixpoint pyval_nested_ind (v : pyval) : P v :=
  match v with
  | PyNone => HNone
  | PyBool b => HBool b
  | PyInt z => HInt z
  | PyFloat text => HFloat text
  | PyStr s => HStr s
  | PyList items =>
      HList
        ((fix all (l : list pyval) : Forall P l :=
            match l with
            | [] => Forall_nil P
            | x :: rest => Forall_cons x (pyval_nested_ind x) (all rest)
            end) items)
  | PyDict entries =>
      HDict
        ((fix all (l : list (string * pyval))
            : Forall (fun kv => P (snd kv)) l :=
            match l with
            | [] => Forall_nil _
            | kv :: rest =>
                Forall_cons kv (pyval_nested_ind (snd kv)) (all rest)
            end) entries)
  | PyCycle => HCycle
  | PyObject => HObject
  end.
End PyvalInd.

(* ================================================================== *)
(** ** [json.dumps] *)
(* ================================================================== *)

(** The double quote, as a character and as a one-character string. *)
Definition dquote_char : ascii := ascii_of_nat 34.
Definition dquote : string := String dquote_char "".

Definition hex_digit (n : nat) : ascii :=
  match n with
  | 0 => "0" | 1 => "1" | 2 => "2" | 3 => "3" | 4 => "4" | 5 => "5"
  | 6 => "6" | 7 => "7" | 8 => "8" | 9 => "9" | 10 => "a" | 11 => "b"
  | 12 => "c" | 13 => "d" | 14 => "e" | _ => "f"
  end%char.

(** One character of a string literal under [ensure_ascii=True]; a
    character of the string is a code point below 256. *)
Definition escape_char (c : ascii) : string :=
  let n := nat_of_ascii c in
  if Nat.eqb n 34 then "\" ++ dquote
  else if Nat.eqb n 92 then "\\"
  else if Nat.eqb n 10 then "\n"
  else if Nat.eqb n 13 then "\r"
  else if Nat.eqb n 9 then "\t"
  else if Nat.eqb n 8 then "\b"
  else if Nat.eqb n 12 then "\f"
  else if (Nat.ltb n 32 || Nat.ltb 126 n)%bool then
    "\u00" ++ String (hex_digit (n / 16)) (String (hex_digit (n mod 16)) "")
  else String c "".

Fixpoint escape (s : string) : string :=
  match s with
  | EmptyString => ""
  | String c rest => escape_char c ++ escape rest
  end.

Definition quote (s : string) : string := dquote ++ escape s ++ dquote.

(** [json.dumps(v)] with the default options: separators [", "] and
    [": "], circular references checked. It raises at the first value,
    in document order, that it cannot encode. *)
Fixpoint json_dumps (v : pyval) : Outcome string :=
  match v with
  | PyNone => Ret "null"
  | PyBool true => Ret "true"
  | PyBool false => Ret "false"
  | PyInt z => Ret (NilZero.string_of_int (Z.to_int z))
  | PyFloat text => Ret text
  | PyStr s => Ret (quote s)
  | PyList items =>
      let fix go (l : list pyval) : Outcome (list string) :=
        match l with
        | [] => Ret []
        | x :: rest =>
            match json_dumps x with
            | Raise e => Raise e
            | Ret sx =>
                match go rest with
                | Raise e => Raise e
                | Ret srest => Ret (sx :: srest)
                end
            end
        end in
      match go items with
      | Raise e => Raise e
      | Ret parts => Ret ("[" ++ String.concat ", " parts ++ "]")
      end
  | PyDict entries =>
      let fix go (l : list (string * pyval)) : Outcome (list string) :=
        match l with
        | [] => Ret []
        | (k, x) :: rest =>
            match json_dumps x with
            | Raise e => Raise e
            | Ret sx =>
                match go rest with
                | Raise e => Raise e
                | Ret srest => Ret ((quote k ++ ": " ++ sx) :: srest)
                end
            end
        end in
      match go entries with
      | Raise e => Raise e
      | Ret parts => Ret ("{" ++ String.concat ", " parts ++ "}")
      end
  | PyCycle => Raise (Exn ValueError "Circular reference detected")
  | PyObject => Raise (Exn TypeError "Object is not JSON serializable")
  end.

(* ================================================================== *)
(** ** Strings: what [_do_connect] does to the connection string *)
(* ================================================================== *)

(** [s[n:]] *)
Definition drop_prefix (n : nat) (s : string) : string :=
  substring n (String.length s - n) s.

(** [s.rsplit(":", 1)] where it has two parts: the text before the last
    colon and the text after it. Without a colon the split has one part
    and [None] is returned. *)
Fixpoint rsplit_colon (s : string) : option (string * string) :=
  match s with
  | EmptyString => None
  | String c rest =>
      match rsplit_colon rest with
      | Some (h, p) => Some (String c h, p)
      | None => if Ascii.eqb c ":" then Some ("", rest) else None
      end
  end.

(** White space as [int()] strips it, among code points below 256:
    tab to carriage return and the space, and the two spaces of
    Latin-1 (next line, no-break space). The separators 28 to 31 are
    white space for [str.strip] but not for [int]. *)
Definition is_space (c : ascii) : bool :=
  let n := nat_of_ascii c in
  ((Nat.leb 9 n && Nat.leb n 13) || Nat.eqb n 32
   || Nat.eqb n 133 || Nat.eqb n 160)%bool.

Fixpoint lstrip (s : string) : string :=
  match s with
  | EmptyString => ""
  | String c rest => if is_space c then lstrip rest else s
  end.

Fixpoint rstrip (s : string) : string :=
  match s with
  | EmptyString => ""
  | String c rest =>
      match rstrip rest with
      | EmptyString => if is_space c then "" else String c ""
      | r => String c r
      end
  end.

Definition digit_value (c : ascii) : option Z :=
  let n := nat_of_ascii c in
  if (Nat.leb 48 n && Nat.leb n 57)%bool then Some (Z.of_nat (n - 48))
  else None.

(** Decimal digits, single underscores allowed between two digits. *)
Fixpoint digits_value (s : string) (acc : Z) (after_digit : bool) : option Z :=
  match s with
  | EmptyString => if after_digit then Some acc else None
  | String c rest =>
      match digit_value c with
      | Some d => digits_value rest (acc * 10 + d)%Z true
      | None =>
          if (Ascii.eqb c "_" && after_digit)%bool
          then digits_value rest acc false
          else None
      end
  end.

(** The number of decimal digits in a literal. *)
Fixpoint digit_count (s : string) : nat :=
  match s with
  | EmptyString => 0
  | String c rest =>
      match digit_value c with
      | Some _ => S (digit_count rest)
      | None => digit_count rest
      end
  end.

(** [sys.get_int_max_str_digits()], as the interpreter starts. *)
Definition int_max_str_digits : nat := 4300.

(** [int(s)] for a string, base 10; [None] is [ValueError], also for
    a literal of more digits than the interpreter's limit. *)
Definition int_of_str (s : string) : option Z :=
  let literal := rstrip (lstrip s) in
  if Nat.ltb int_max_str_digits (digit_count literal) then None
  else
    match literal with
    | String "-" ds => option_map Z.opp (digits_value ds 0%Z false)
    | String "+" ds => digits_value ds 0%Z false
    | ds => digits_value ds 0%Z false
    end.

(** [int(x)] for a number: truncation towards zero. *)
Definition int_of_Q (x : Q) : Z := Z.quot (Qnum x) (Zpos (Qden x)).

(** The integers a C [int] and a C [long] hold. *)
Definition fits_c_int (n : Z) : bool :=
  (Z.leb (- 2 ^ 31) n && Z.ltb n (2 ^ 31))%bool.

Definition fits_c_long (n : Z) : bool :=
  (Z.leb (- 2 ^ 63) n && Z.ltb n (2 ^ 63))%bool.

(* ================================================================== *)
(** ** The object, the world and the environment *)
(* ================================================================== *)

Inductive family : Type := AF_INET | AF_UNIX.

Inductive endpoint : Type :=
  | TcpAddress (host : string) (port : Z)
  | UnixPath (path : string).

Inductive sock_state : Type := SockNew | SockConnected | SockClosed.

(** A [socket.socket] object. *)
Record socket : Type := Socket {
  fileno : nat;
  sock_family : family;
  state : sock_state;
}.

(** The two functions the module runs on threads of their own. *)
Inductive target : Type := heartbeat_loop_target | _reconnect_loop_target.

(** What the program does to the world, in order. The clock is in
    seconds; it and the intervals are rationals here, floats in Python. *)
Inductive effect : Type :=
  | Stderr (line : string)
  | SocketCreate (fd : nat) (f : family) (result : option os_error)
  | SocketConnect (fd : nat) (to : endpoint) (result : option os_error)
  | SocketSendall (fd : nat) (bytes : string) (result : option os_error)
  | SocketClose (fd : nat)
  | Sleep (seconds : Q)
  | ThreadStart (t : target)
  | ThreadJoin (t : target) (timeout : Q).

(** The attributes of a [DonkeylabsJob]. *)
Record Job : Type := mkJob {
  job_id : pyval;
  name : pyval;
  data : pyval;
  _socket_path : pyval;
  _heartbeat_interval : Q;
  _reconnect_interval : Q;
  _max_reconnect_attempts : Z;
  _socket : option socket;
  _heartbeat_thread : option target;
  _reconnect_thread : option target;
  _running : bool;
  _connected : bool;
}.

(** The world: the trace so far and how often each part of the
    environment has been asked. *)
Record World : Type := mkWorld {
  trace : list effect;
  clock_reads : nat;
  sockets_made : nat;
  connects : nat;
  sends : nat;
}.

Definition World0 : World := mkWorld [] 0 0 0 0.

Record State : Type := mkState { self : Job; world : World }.

(** The environment: the answers of the operating system and of the
    library calls whose code is not part of the module, each indexed by
    how many times it has been asked before. *)
Record Env : Type := mkEnv {
  (** [time.time()] *)
  time_time : nat -> Q;
  (** [socket.socket(...)]: the error, if creation fails *)
  socket_socket : nat -> option os_error;
  (** [sock.connect(address)] *)
  socket_connect : nat -> endpoint -> option os_error;
  (** [sock.sendall(bytes)] on a connected socket, indexed by the number
      of [sendall] calls before it: [None] when all the bytes were
      accepted *)
  socket_sendall : nat -> string -> option os_error;
  (** [traceback.format_exc()] while the exception is handled *)
  traceback_format_exc : exn -> string;
  (** [json.loads(line)]: [None] is [JSONDecodeError] *)
  json_loads : string -> option pyval;
  (** [os.environ.get(name)] *)
  os_environ_get : string -> option string;
  (** [sys.stdin.readline()]: the empty string at end of input *)
  sys_stdin_readline : string;
}.

(** Attribute assignments [self.x = v]. *)
Definition set__socket (v : option socket) (j : Job) : Job :=
  mkJob (job_id j) (name j) (data j) (_socket_path j) (_heartbeat_interval j)
        (_reconnect_interval j) (_max_reconnect_attempts j)
        v (_heartbeat_thread j) (_reconnect_thread j) (_running j) (_connected j).
Definition set__heartbeat_thread (v : option target) (j : Job) : Job :=
  mkJob (job_id j) (name j) (data j) (_socket_path j) (_heartbeat_interval j)
        (_reconnect_interval j) (_max_reconnect_attempts j)
        (_socket j) v (_reconnect_thread j) (_running j) (_connected j).
Definition set__reconnect_thread (v : option target) (j : Job) : Job :=
  mkJob (job_id j) (name j) (data j) (_socket_path j) (_heartbeat_interval j)
        (_reconnect_interval j) (_max_reconnect_attempts j)
        (_socket j) (_heartbeat_thread j) v (_running j) (_connected j).
Definition set__running (v : bool) (j : Job) : Job :=
  mkJob (job_id j) (name j) (data j) (_socket_path j) (_heartbeat_interval j)
        (_reconnect_interval j) (_max_reconnect_attempts j)
        (_socket j) (_heartbeat_thread j) (_reconnect_thread j) v (_connected j).
Definition set__connected (v : bool) (j : Job) : Job :=
  mkJob (job_id j) (name j) (data j) (_socket_path j) (_heartbeat_interval j)
        (_reconnect_interval j) (_max_reconnect_attempts j)
        (_socket j) (_heartbeat_thread j) (_reconnect_thread j) (_running j) v.

(** [DonkeylabsJob.__init__]; an argument left out takes its default. *)
Definition __init__ (job_id name data socket_path : pyval)
    (heartbeat_interval reconnect_interval : option Q)
    (max_reconnect_attempts : option Z) : Job :=
  {| job_id := job_id;
     name := name;
     data := data;
     _socket_path := socket_path;
     _heartbeat_interval :=
       match heartbeat_interval with Some x => x | None => 5 # 1 end;
     _reconnect_interval :=
       match reconnect_interval with Some x => x | None => 2 # 1 end;
     _max_reconnect_attempts :=
       match max_reconnect_attempts with Some n => n | None => 30%Z end;
     _socket := None;
     _heartbeat_thread := None;
     _reconnect_thread := None;
     _running := false;
     _connected := false |}.

(* ================================================================== *)
(** ** The monad of methods *)
(* ================================================================== *)

Definition M (A : Type) : Type := State -> Outcome A * State.

Definition ret {A} (a : A) : M A := fun st => (Ret a, st).

Definition raise {A} (e : exn) : M A := fun st => (Raise e, st).

Definition bind {A B} (m : M A) (k : A -> M B) : M B :=
  fun st =>
    match m st with
    | (Ret a, st') => k a st'
    | (Raise e, st') => (Raise e, st')
    end.

Notation "x <- m ;; k" := (bind m (fun x => k))
  (at level 61, m at next level, right associativity).
Notation "m ;; k" := (bind m (fun _ => k))
  (at level 61, right associativity).

(** [try: body  except ... as e: handler e]. The handler decides by
    [isinstance] which clause takes [e], and re-raises when none does. *)
Definition try_except {A} (body : M A) (handler : exn -> M A) : M A :=
  fun st =>
    match body st with
    | (Ret a, st') => (Ret a, st')
    | (Raise e, st') => handler e st'
    end.

(** [try: body  finally: final] *)
Definition try_finally {A} (body : M A) (final : M unit) : M A :=
  fun st =>
    match body st with
    | (r, st') =>
        match final st' with
        | (Ret _, st'') => (r, st'')
        | (Raise e, st'') => (Raise e, st'')
        end
    end.

Definition get_self : M Job := fun st => (Ret (self st), st).

Definition update_self (f : Job -> Job) : M unit :=
  fun st => (Ret tt, mkState (f (self st)) (world st)).

Definition emit (e : effect) (w : World) : World :=
  mkWorld (trace w ++ [e])%list (clock_reads w) (sockets_made w)
          (connects w) (sends w).

Definition do_effect (e : effect) : M unit :=
  fun st => (Ret tt, mkState (self st) (emit e (world st))).

(** [print(line, file=sys.stderr)] *)
Definition print_stderr (line : string) : M unit := do_effect (Stderr line).

(** [time.sleep(seconds)]. A length beyond what the platform's timer
    takes, for which [time.sleep] raises [OverflowError], is treated as
    any other length: the properties that depend on it are stated for
    lengths of at most [sleep_limit], defined with the vocabulary. *)
Definition time_sleep (seconds : Q) : M unit :=
  if Qle_bool 0 seconds then do_effect (Sleep seconds)
  else raise (Exn ValueError "sleep length must be non-negative").

Definition str_of_nat (n : nat) : string := NilZero.string_of_uint (Nat.to_uint n).
Definition str_of_Z (z : Z) : string := NilZero.string_of_int (Z.to_int z).

Section WithEnv.

Variable env : Env.

(** [time.time()] *)
Definition now : M Q :=
  fun st =>
    let w := world st in
    (Ret (time_time env (clock_reads w)),
     mkState (self st)
       (mkWorld (trace w) (S (clock_reads w)) (sockets_made w) (connects w) (sends w))).

(** [socket.socket(family, socket.SOCK_STREAM)] *)
Definition new_socket (f : family) : M socket :=
  fun st =>
    let w := world st in
    let fd := sockets_made w in
    let r := socket_socket env fd in
    let w' := mkWorld (trace w ++ [SocketCreate fd f r])%list (clock_reads w)
                      (S fd) (connects w) (sends w) in
    match r with
    | None => (Ret (Socket fd f SockNew), mkState (self st) w')
    | Some err => (Raise (exn_of_errno err), mkState (self st) w')
    end.

(** What the [k]-th request for a connection to [to] meets before the
    socket is asked: for a host and a port, whether the lookup of the
    host fails. *)
Definition lookup_error (to : endpoint) (k : nat) : option os_error :=
  match to with
  | TcpAddress _ _ =>
      match socket_connect env k to with
      | Some EAI_NONAME => Some EAI_NONAME
      | Some EAI_AGAIN => Some EAI_AGAIN
      | _ => None
      end
  | UnixPath _ => None
  end.

(** [self._socket.connect(address)]. The address is converted before
    the socket is asked, in this order: the port to a C [int], the host
    to an address (by a lookup when it is a name), and then the port is
    checked to be one of 0..65535. *)
Definition socket_connect_self (to : endpoint) : M unit :=
  fun st =>
    match _socket (self st) with
    | None => (Raise (Exn AttributeError "'NoneType' object has no attribute 'connect'"), st)
    | Some sock =>
        let w := world st in
        let asked r :=
          mkWorld (trace w ++ [SocketConnect (fileno sock) to r])%list
                  (clock_reads w) (sockets_made w) (S (connects w)) (sends w) in
        let port_overflows :=
          match to with
          | TcpAddress _ port => negb (fits_c_int port)
          | UnixPath _ => false
          end in
        let bad_port :=
          match to with
          | TcpAddress _ port => negb (Z.leb 0 port && Z.leb port 65535)
          | UnixPath _ => false
          end in
        if port_overflows then
          (Raise (Exn OverflowError "connect(): port must be 0-65535."), st)
        else
          match lookup_error to (connects w) with
          | Some err =>
              (Raise (exn_of_errno err), mkState (self st) (asked (Some err)))
          | None =>
              if bad_port then
                (Raise (Exn OverflowError "connect(): port must be 0-65535."), st)
              else
                let r :=
                  match state sock with
                  | SockNew => socket_connect env (connects w) to
                  | SockConnected => Some EIO    (* EISCONN *)
                  | SockClosed => Some EBADF
                  end in
                match r with
                | None =>
                    (Ret tt,
                     mkState (set__socket
                                (Some (Socket (fileno sock) (sock_family sock)
                                         SockConnected))
                                (self st)) (asked r))
                | Some err => (Raise (exn_of_errno err), mkState (self st) (asked r))
                end
          end
    end.

(** What the [k]-th [sendall] meets on [sock]. Only a connected socket
    reaches the peer; a socket that was never connected, or was closed,
    fails with an [OSError]. *)
Definition sendall_answer (sock : socket) (k : nat) (bytes : string)
  : option os_error :=
  match state sock with
  | SockConnected => socket_sendall env k bytes
  | SockNew => Some ENOTCONN
  | SockClosed => Some EBADF
  end.

(** [self._socket.sendall(bytes)] *)
Definition socket_sendall_self (bytes : string) : M unit :=
  fun st =>
    match _socket (self st) with
    | None => (Raise (Exn AttributeError "'NoneType' object has no attribute 'sendall'"), st)
    | Some sock =>
        let w := world st in
        let r := sendall_answer sock (sends w) bytes in
        let w' := mkWorld (trace w ++ [SocketSendall (fileno sock) bytes r])%list
                          (clock_reads w) (sockets_made w) (connects w)
                          (S (sends w)) in
        match r with
        | None => (Ret tt, mkState (self st) w')
        | Some err => (Raise (exn_of_errno err), mkState (self st) w')
        end
    end.

(** [try: self._socket.close()  except Exception: pass], under
    [if self._socket:]. A socket object is always true. *)
Definition close_socket_quietly : M unit :=
  fun st =>
    match _socket (self st) with
    | None => (Ret tt, st)
    | Some sock =>
        (Ret tt,
         mkState (set__socket (Some (Socket (fileno sock) (sock_family sock) SockClosed))
                              (self st))
                 (emit (SocketClose (fileno sock)) (world st)))
    end.

(** [s.encode("utf-8")]: the encoder's output is ASCII, byte for
    character. *)
Definition encode_utf8 (s : string) : string := s.

(** [json.dumps(message)] as a step of a method. *)
Definition dumps (message : dict) : M string :=
  fun st => (json_dumps (PyDict message), st).

(* ================================================================== *)
(** ** [class DonkeylabsJob] *)
(* ================================================================== *)

Definition newline : string := String (ascii_of_nat 10) "".

Definition is_some {A} (o : option A) : bool :=
  match o with Some _ => true | None => false end.

(** [_do_connect]: the endpoint is read off the connection string at
    every call. *)
Definition _do_connect : M unit :=
  self0 <- get_self ;;
  match _socket_path self0 with
  | PyStr path =>
      if prefix "tcp://" path then
        (* TCP connection (Windows fallback) *)
        let addr := drop_prefix 6 path in
        match rsplit_colon addr with
        | None =>
            raise (Exn ValueError "not enough values to unpack (expected 2, got 1)")
        | Some (host, port) =>
            sock <- new_socket AF_INET ;;
            update_self (set__socket (Some sock)) ;;
            match int_of_str port with
            | None => raise (Exn ValueError "invalid literal for int() with base 10")
            | Some port_number => socket_connect_self (TcpAddress host port_number)
            end
        end
      else
        (* Unix socket *)
        sock <- new_socket AF_UNIX ;;
        update_self (set__socket (Some sock)) ;;
        socket_connect_self (UnixPath path)
  | _ => raise (Exn AttributeError "object has no attribute 'startswith'")
  end.

(** [_send_message]. The dictionary is the caller's object and is
    changed in place, so it is returned next to the result. The body
    from [dumps] on runs under [self._lock]. *)
Definition _send_message (message : dict) : M (bool * dict) :=
  self0 <- get_self ;;
  match _socket self0 with
  | None => ret (false, message)
  | Some _ =>
      let message := dict_set message "jobId" (job_id self0) in
      t <- now ;;
      let message := dict_set message "timestamp" (PyInt (int_of_Q (t * 1000))) in
      try_except
        (data <- dumps message ;;
         socket_sendall_self (encode_utf8 (data ++ newline)) ;;
         ret (true, message))
        (fun e =>
           if isinstance e [BrokenPipeError; ConnectionResetError; OSError] then
             print_stderr ("[DonkeylabsJob] Connection lost: " ++ str_exn e) ;;
             update_self (set__connected false) ;;
             (* Try to reconnect in background (don't block the caller) *)
             self1 <- get_self ;;
             (if (_running self1 && negb (is_some (_reconnect_thread self1)))%bool
              then
                update_self (set__reconnect_thread (Some _reconnect_loop_target)) ;;
                do_effect (ThreadStart _reconnect_loop_target)
              else ret tt) ;;
             ret (false, message)
           else if isinstance e [Exception] then
             print_stderr ("[DonkeylabsJob] Failed to send message: " ++ str_exn e) ;;
             ret (false, message)
           else raise e)
  end.

(** [_send_started] *)
Definition _send_started : M unit :=
  _send_message [("type", PyStr "started")] ;; ret tt.

(** [heartbeat_loop], the function [_start_heartbeat] defines, run for
    at most [rounds] turns of its [while]. *)
Fixpoint heartbeat_loop (rounds : nat) : M unit :=
  match rounds with
  | O => ret tt
  | S rounds' =>
      self0 <- get_self ;;
      if _running self0 then
        _send_message [("type", PyStr "heartbeat")] ;;
        time_sleep (_heartbeat_interval self0) ;;
        heartbeat_loop rounds'
      else ret tt
  end.

(** [_start_heartbeat] *)
Definition _start_heartbeat : M unit :=
  update_self (set__heartbeat_thread (Some heartbeat_loop_target)) ;;
  do_effect (ThreadStart heartbeat_loop_target).

(** [connect] *)
Definition connect : M unit :=
  _do_connect ;;
  update_self (set__running true) ;;
  update_self (set__connected true) ;;
  _start_heartbeat ;;
  _send_started.

(** The [for attempt in range(...)] loop of [_try_reconnect] with
    [todo] turns left, and the two lines after it. *)
Fixpoint reconnect_attempts (todo attempt : nat) : M bool :=
  match todo with
  | O =>
      self0 <- get_self ;;
      print_stderr ("[DonkeylabsJob] Failed to reconnect after "
                    ++ str_of_Z (_max_reconnect_attempts self0) ++ " attempts") ;;
      ret false
  | S todo' =>
      try_except
        ((* Close old socket *)
         close_socket_quietly ;;
         (* Try to reconnect *)
         _do_connect ;;
         update_self (set__connected true) ;;
         print_stderr ("[DonkeylabsJob] Reconnected after "
                       ++ str_of_nat (attempt + 1) ++ " attempts") ;;
         (* Send started message to let server know we're back *)
         _send_started ;;
         ret true)
        (fun e =>
           if isinstance e [Exception] then
             self0 <- get_self ;;
             print_stderr ("[DonkeylabsJob] Reconnect attempt "
                           ++ str_of_nat (attempt + 1) ++ "/"
                           ++ str_of_Z (_max_reconnect_attempts self0)
                           ++ " failed: " ++ str_exn e) ;;
             time_sleep (_reconnect_interval self0) ;;
             reconnect_attempts todo' (S attempt)
           else raise e)
  end.

(** [_try_reconnect]; the body runs under [self._reconnect_lock].
    [range(n)] is empty for [n <= 0]. *)
Definition _try_reconnect : M bool :=
  self0 <- get_self ;;
  if _connected self0 then ret true
  else
    print_stderr "[DonkeylabsJob] Attempting to reconnect..." ;;
    reconnect_attempts (Z.to_nat (_max_reconnect_attempts self0)) 0.

(** [_reconnect_loop], the body of the background thread. *)
Definition _reconnect_loop : M unit :=
  ok <- _try_reconnect ;;
  (if ok : bool
   then print_stderr "[DonkeylabsJob] Reconnection successful, resuming operation"
   else print_stderr "[DonkeylabsJob] Reconnection failed, job may be lost") ;;
  update_self (set__reconnect_thread None).

(** [disconnect] *)
Definition disconnect : M unit :=
  update_self (set__running false) ;;
  self0 <- get_self ;;
  match _heartbeat_thread self0 with
  | Some t => do_effect (ThreadJoin t (2 # 1))
  | None => ret tt
  end ;;
  close_socket_quietly.

(** *** The events the handler-facing methods build *)

(** The dictionary [progress] builds before it sends it. [message] is
    an [Optional[str]], [data] the keyword arguments. *)
Definition progress_message (percent : pyval) (message : option string)
    (data : dict) : dict :=
  let msg := [("type", PyStr "progress"); ("percent", percent)] in
  let msg := if truthy (of_optional message)
             then dict_set msg "message" (of_optional message) else msg in
  let msg := if truthy (PyDict data)
             then dict_set msg "data" (PyDict data) else msg in
  msg.

(** The dictionary [log] builds. *)
Definition log_message (level message : string) (data : dict) : dict :=
  let msg := [("type", PyStr "log"); ("level", PyStr level);
              ("message", PyStr message)] in
  let msg := if truthy (PyDict data)
             then dict_set msg "data" (PyDict data) else msg in
  msg.

(** The dictionary [complete] builds; the test is [result is not None]. *)
Definition complete_message (result : pyval) : dict :=
  let msg := [("type", PyStr "completed")] in
  match result with
  | PyNone => msg
  | _ => dict_set msg "result" result
  end.

(** The dictionary [fail] builds. *)
Definition fail_message (error : string) (stack : option string) : dict :=
  let msg := [("type", PyStr "failed"); ("error", PyStr error)] in
  if truthy (of_optional stack)
  then dict_set msg "stack" (of_optional stack) else msg.

(** The methods end without a [return]: their value is [None]. *)
Definition progress (percent : pyval) (message : option string) (data : dict)
  : M pyval :=
  _send_message (progress_message percent message data) ;; ret PyNone.

Definition log (level message : string) (data : dict) : M pyval :=
  _send_message (log_message level message data) ;; ret PyNone.

Definition info (message : string) (data : dict) : M pyval :=
  log "info" message data.
Definition error (message : string) (data : dict) : M pyval :=
  log "error" message data.

Definition complete (result : pyval) : M pyval :=
  _send_message (complete_message result) ;; ret PyNone.

Definition fail (error : string) (stack : option string) : M pyval :=
  _send_message (fail_message error stack) ;; ret PyNone.

(* ================================================================== *)
(** ** [run_job] *)
(* ================================================================== *)

(** [payload.get(key)]: only a dictionary has the method. *)
Definition payload_get (payload : pyval) (key : string) : Outcome pyval :=
  match payload with
  | PyDict d =>
      match dict_get d key with
      | Some v => Ret v
      | None => Ret PyNone
      end
  | _ => Raise (Exn AttributeError "object has no attribute 'get'")
  end.

(** The result of [run_job]: how the call ended, the job object if one
    was constructed, and the world. *)
Record Run : Type := mkRun {
  ended : Outcome unit;
  job : option Job;
  after : World;
}.

(** [print(line, file=sys.stderr); sys.exit(1)] before a job exists. *)
Definition die (line : string) (w : World) : Run :=
  mkRun (Raise (Exit 1)) None (emit (Stderr line) w).

(** The part of [run_job] after the job object is constructed. *)
Definition run_handler (handler : M pyval) : M unit :=
  try_finally
    (try_except
       (connect ;;
        (* Run the handler *)
        result <- handler ;;
        (* Send completion *)
        complete result ;;
        ret tt)
       (fun e =>
          if isinstance e [Exception] then
            fail (str_exn e) (Some (traceback_format_exc env e)) ;;
            raise (Exit 1)
          else raise e))
    disconnect.

(** How the lines of [run_job] before its [try] end: with the process
    dying, or with a job object. *)
Inductive Startup : Type :=
  | Died (r : Run)
  | Constructed (j : Job).

(** [run_job] up to and including the construction of the job. *)
Definition read_job (heartbeat_interval : option Q) (w : World) : Startup :=
  (* Read payload from stdin *)
  let payload_line := sys_stdin_readline env in
  if negb (truthy (PyStr payload_line)) then
    Died (die "No payload received on stdin" w)
  else
    match json_loads env payload_line with
    | None => Died (die "Failed to parse payload" w)   (* and the error's text *)
    | Some payload =>
        match payload_get payload "jobId", payload_get payload "name",
              payload_get payload "data", payload_get payload "socketPath" with
        | Ret job_id, Ret name, Ret data, Ret socket_path =>
            (* Fall back to environment variables if not in payload *)
            let job_id :=
              if negb (truthy job_id)
              then of_optional (os_environ_get env "DONKEYLABS_JOB_ID")
              else job_id in
            let socket_path :=
              if negb (truthy socket_path) then
                let socket_path :=
                  of_optional (os_environ_get env "DONKEYLABS_SOCKET_PATH") in
                let tcp_port :=
                  of_optional (os_environ_get env "DONKEYLABS_TCP_PORT") in
                if (truthy tcp_port && negb (truthy socket_path))%bool then
                  match tcp_port with
                  | PyStr port => PyStr ("tcp://127.0.0.1:" ++ port)
                  | _ => socket_path
                  end
                else socket_path
              else socket_path in
            if (negb (truthy job_id) || negb (truthy socket_path))%bool then
              Died (die "Missing jobId or socketPath" w)
            else
              Constructed
                (__init__ job_id
                   (if truthy name then name else PyStr "unknown")
                   data socket_path heartbeat_interval None None)
        | Raise e, _, _, _ | _, Raise e, _, _ | _, _, Raise e, _
        | _, _, _, Raise e => Died (mkRun (Raise e) None w)
        end
    end.

(** [run_job(handler, heartbeat_interval)]. The handler is a method-like
    computation on the job object it is given. *)
Definition run_job (handler : M pyval) (heartbeat_interval : option Q)
    (w : World) : Run :=
  match read_job heartbeat_interval w with
  | Died r => r
  | Constructed job0 =>
      let (r, st) := run_handler handler (mkState job0 w) in
      mkRun r (Some (self st)) (world st)
  end.

(** The status the process ends with when [run_job] is the last thing
    the script does: 0 after a normal return, 1 after an exception
    nothing caught, and after [sys.exit(code)] the low eight bits of
    the code (of -1 when the code does not fit a C [long]), which is
    the code itself from 0 to 255. *)
Definition exit_status (r : Outcome unit) : Z :=
  match r with
  | Ret _ => 0%Z
  | Raise (Exit code) =>
      if fits_c_long code then (code mod 256)%Z else 255%Z
  | Raise (Exn _ _) => 1%Z
  end.

End WithEnv.

(* ================================================================== *)
(** * Threads: senders and the reconnection thread, interleaved *)
(* ================================================================== *)

(** The sequential model above runs one method at a time. Here the
    methods that decide when a reconnection thread is started are cut
    into the steps between which another thread can run: every read and
    write of [self._running], [self._connected], [self._reconnect_thread]
    and [self._socket], and every acquire and release of [self._lock]
    and [self._reconnect_lock]. What is sent and what the socket answers
    is left to the scheduler's [label]. *)
Module Interleaving.

(** Where a thread stands inside [_send_message]. *)
Inductive send_pc : Type :=
  | SCheckSocket        (* if not self._socket: return False *)
  | SStamp              (* message["jobId"] = ...; message["timestamp"] = ... *)
  | SAcquire            (* with self._lock: *)
  | SWrite              (* json.dumps, sendall *)
  | SMarkLost           (* print; self._connected = False *)
  | STestRunning        (* if self._running ... *)
  | STestThread         (* ... and not self._reconnect_thread: *)
  | SCreateThread       (* self._reconnect_thread = threading.Thread(...) *)
  | SStartThread        (* self._reconnect_thread.start() *)
  | SRelease (result : bool)   (* leave the with block; return result *)
  | SRaise.             (* leave the with block with an exception *)

(** Where a reconnection thread stands inside [_reconnect_loop]. *)
Inductive reconnect_pc : Type :=
  | RAcquire                    (* with self._reconnect_lock: *)
  | RTestConnected              (* if self._connected: return True *)
  | RAttempt (attempt : nat)    (* for attempt in range(...): close, _do_connect *)
  | RMarkConnected (attempt : nat)   (* self._connected = True; print *)
  | RSendStarted (attempt : nat) (pc : send_pc)   (* self._send_started() *)
  | RSleep (attempt : nat)      (* print; time.sleep(...) *)
  | RRelease (ok : bool)        (* leave the with block; return ok *)
  | RClearSlot                  (* print; self._reconnect_thread = None *)
  | RDone.

(** A thread that calls the methods of the job (the handler's thread,
    the heartbeat thread), outside [_send_message] or inside it; a
    reconnection thread; a thread an exception ended. *)
Inductive thread : Type :=
  | Caller (pc : option send_pc)
  | Reconnector (pc : reconnect_pc)
  | Dead.

(** The attributes the threads share, as far as control depends on
    them: whether [self._socket] and [self._reconnect_thread] hold an
    object, and whether each lock is held. *)
Record shared : Type := mkShared {
  has_socket : bool;
  running : bool;
  connected : bool;
  reconnect_thread : bool;
  lock : bool;
  reconnect_lock : bool;
  max_reconnect_attempts : nat;
}.

Record config : Type := mkConfig { mem : shared; pool : list thread }.

(** What the scheduler decides at a step: which thread runs, and, where
    the step depends on the world, how the write ends, how the connect
    ends, and what a thread outside [_send_message] does next. *)
Inductive write_result : Type := Sent | ConnectionLost | NotEncodable.
Inductive connect_result : Type := ConnectOk | ConnectFailed (socket_made : bool).
Inductive call : Type :=
  | CallSend                    (* progress, log, ..., a heartbeat *)
  | CallDoConnect (socket_made : bool)   (* connect: self._do_connect() *)
  | CallSetRunning (v : bool)   (* connect, disconnect: self._running = v *)
  | CallSetConnected.           (* connect: self._connected = True *)

Record label : Type := mkLabel {
  who : nat;
  on_write : write_result;
  on_connect : connect_result;
  on_call : call;
}.

Definition set_has_socket v (m : shared) : shared :=
  mkShared v (running m) (connected m) (reconnect_thread m) (lock m)
           (reconnect_lock m) (max_reconnect_attempts m).
Definition set_running v (m : shared) : shared :=
  mkShared (has_socket m) v (connected m) (reconnect_thread m) (lock m)
           (reconnect_lock m) (max_reconnect_attempts m).
Definition set_connected v (m : shared) : shared :=
  mkShared (has_socket m) (running m) v (reconnect_thread m) (lock m)
           (reconnect_lock m) (max_reconnect_attempts m).
Definition set_reconnect_thread v (m : shared) : shared :=
  mkShared (has_socket m) (running m) (connected m) v (lock m)
           (reconnect_lock m) (max_reconnect_attempts m).
Definition set_lock v (m : shared) : shared :=
  mkShared (has_socket m) (running m) (connected m) (reconnect_thread m) v
           (reconnect_lock m) (max_reconnect_attempts m).
Definition set_reconnect_lock v (m : shared) : shared :=
  mkShared (has_socket m) (running m) (connected m) (reconnect_thread m)
           (lock m) v (max_reconnect_attempts m).

(** The end of one step inside [_send_message]: the memory, where the
    thread stands next ([Returned] once the call is over, [Raised] when
    an exception leaves it), and whether a thread was started. *)
Inductive send_next : Type :=
  | At (pc : send_pc)
  | Returned
  | Raised.

(** One step of [_send_message]; [None] when the thread has to wait. *)
Definition send_step (l : label) (m : shared) (pc : send_pc)
  : option (shared * send_next * bool) :=
  match pc with
  | SCheckSocket =>
      if has_socket m then Some (m, At SStamp, false)
      else Some (m, Returned, false)
  | SStamp => Some (m, At SAcquire, false)
  | SAcquire =>
      if lock m then None else Some (set_lock true m, At SWrite, false)
  | SWrite =>
      match on_write l with
      | Sent => Some (m, At (SRelease true), false)
      | ConnectionLost => Some (m, At SMarkLost, false)
      | NotEncodable => Some (m, At (SRelease false), false)
      end
  | SMarkLost => Some (set_connected false m, At STestRunning, false)
  | STestRunning =>
      if running m then Some (m, At STestThread, false)
      else Some (m, At (SRelease false), false)
  | STestThread =>
      if reconnect_thread m then Some (m, At (SRelease false), false)
      else Some (m, At SCreateThread, false)
  | SCreateThread => Some (set_reconnect_thread true m, At SStartThread, false)
  | SStartThread =>
      (* the attribute is read again: [None] has no [start] *)
      if reconnect_thread m then Some (m, At (SRelease false), true)
      else Some (m, At SRaise, false)
  | SRelease _ => Some (set_lock false m, Returned, false)
  | SRaise => Some (set_lock false m, Raised, false)
  end.

(** One step of a thread. *)
Definition thread_step (l : label) (m : shared) (t : thread)
  : option (shared * thread * bool) :=
  match t with
  | Dead => None
  | Caller None =>
      match on_call l with
      | CallSend => Some (m, Caller (Some SCheckSocket), false)
      | CallDoConnect socket_made =>
          Some (set_has_socket (has_socket m || socket_made)%bool m,
                Caller None, false)
      | CallSetRunning v => Some (set_running v m, Caller None, false)
      | CallSetConnected => Some (set_connected true m, Caller None, false)
      end
  | Caller (Some pc) =>
      match send_step l m pc with
      | None => None
      | Some (m', At pc', started) => Some (m', Caller (Some pc'), started)
      | Some (m', Returned, started) => Some (m', Caller None, started)
      | Some (m', Raised, started) => Some (m', Dead, started)
      end
  | Reconnector RAcquire =>
      if reconnect_lock m then None
      else Some (set_reconnect_lock true m, Reconnector RTestConnected, false)
  | Reconnector RTestConnected =>
      if connected m then Some (m, Reconnector (RRelease true), false)
      else Some (m, Reconnector (RAttempt 0), false)
  | Reconnector (RAttempt attempt) =>
      if Nat.ltb attempt (max_reconnect_attempts m) then
        match on_connect l with
        | ConnectOk =>
            Some (set_has_socket true m, Reconnector (RMarkConnected attempt),
                  false)
        | ConnectFailed socket_made =>
            Some (set_has_socket (has_socket m || socket_made)%bool m,
                  Reconnector (RSleep attempt), false)
        end
      else Some (m, Reconnector (RRelease false), false)
  | Reconnector (RMarkConnected attempt) =>
      Some (set_connected true m,
            Reconnector (RSendStarted attempt SCheckSocket), false)
  | Reconnector (RSendStarted attempt pc) =>
      match send_step l m pc with
      | None => None
      | Some (m', At pc', started) =>
          Some (m', Reconnector (RSendStarted attempt pc'), started)
      | Some (m', Returned, started) =>
          Some (m', Reconnector (RRelease true), started)
      | Some (m', Raised, started) =>
          (* the exception is caught in [_try_reconnect]: the attempt
             counts as failed *)
          Some (m', Reconnector (RSleep attempt), started)
      end
  | Reconnector (RSleep attempt) =>
      Some (m, Reconnector (RAttempt (S attempt)), false)
  | Reconnector (RRelease ok) =>
      Some (set_reconnect_lock false m, Reconnector RClearSlot, false)
  | Reconnector RClearSlot =>
      Some (set_reconnect_thread false m, Reconnector RDone, false)
  | Reconnector RDone => None
  end.

(** [l[i] = t] *)
Fixpoint set_nth (i : nat) (t : thread) (l : list thread) : list thread :=
  match l, i with
  | [], _ => []
  | _ :: rest, O => t :: rest
  | x :: rest, S i' => x :: set_nth i' t rest
  end.

(** One step of the program: the thread [who l] runs one step, and a
    thread it starts joins the pool. *)
Definition step (l : label) (c : config) : option config :=
  match nth_error (pool c) (who l) with
  | None => None
  | Some t =>
      match thread_step l (mem c) t with
      | None => None
      | Some (m', t', started) =>
          Some (mkConfig m'
                  (set_nth (who l) t' (pool c)
                   ++ (if started : bool then [Reconnector RAcquire] else []))%list)
      end
  end.

(** A schedule, step by step; [None] when a step of it cannot run. *)
Fixpoint run (schedule : list label) (c : config) : option config :=
  match schedule with
  | [] => Some c
  | l :: rest =>
      match step l c with
      | Some c' => run rest c'
      | None => None
      end
  end.

(** The job as [__init__] leaves it, with [callers] threads that can
    call its methods. *)
Definition initial (callers max_attempts : nat) : config :=
  mkConfig (mkShared false false false false false false max_attempts)
           (repeat (Caller None) callers).

(** A reconnection thread that has been started and has not yet cleared
    [self._reconnect_thread]: its reconnection sequence is in flight. *)
Definition in_flight (t : thread) : bool :=
  match t with
  | Reconnector RDone => false
  | Reconnector _ => true
  | _ => false
  end.

(** A reconnection thread, running or done. *)
Definition is_reconnector (t : thread) : bool :=
  match t with
  | Reconnector _ => true
  | _ => false
  end.

Definition count (p : thread -> bool) (l : list thread) : nat :=
  length (filter p l).

(** The reconnection sequences in flight, and those ever started. *)
Definition sequences_in_flight (c : config) : nat := count in_flight (pool c).
Definition sequences_started (c : config) : nat := count is_reconnector (pool c).

(** *** The vocabulary of the invariant *)

(** The step a thread is at inside [_send_message], if it is inside. *)
Definition sending (t : thread) : option send_pc :=
  match t with
  | Caller (Some pc) => Some pc
  | Reconnector (RSendStarted _ pc) => Some pc
  | _ => None
  end.

(** The steps of [_send_message] that run under [self._lock]. *)
Definition under_lock (pc : send_pc) : bool :=
  match pc with
  | SCheckSocket | SStamp | SAcquire => false
  | _ => true
  end.

Definition critical (t : thread) : bool :=
  match sending t with
  | Some pc => under_lock pc
  | None => false
  end.

(** Past the test of [self._reconnect_thread] and about to fill it. *)
Definition at_create (t : thread) : bool :=
  match sending t with
  | Some SCreateThread => true
  | _ => false
  end.

(** [self._reconnect_thread] filled, the thread not yet started. *)
Definition at_start (t : thread) : bool :=
  match sending t with
  | Some SStartThread => true
  | _ => false
  end.

(** The invariant: at most one sequence in flight, and then the slot is
    filled; [self._lock] is held exactly when one thread is under it;
    and the thread between the test of the slot and the start of the new
    thread has no sequence in flight beside it. *)
Definition invariant (c : config) : Prop :=
  let flying := count in_flight (pool c) in
  flying <= 1
  /\ (flying = 1 -> reconnect_thread (mem c) = true)
  /\ count critical (pool c) = Nat.b2n (lock (mem c))
  /\ (1 <= count at_create (pool c) ->
      flying = 0 /\ reconnect_thread (mem c) = false)
  /\ (1 <= count at_start (pool c) ->
      flying = 0 /\ reconnect_thread (mem c) = true).

(** *** A schedule with two failures *)

(** A schedule: the handler's thread connects, sends, loses the
    connection and starts the reconnection thread, which begins its
    first attempt; then the heartbeat thread sends and fails too. *)
Definition lost (i : nat) (what : call) : label :=
  mkLabel i ConnectionLost (ConnectFailed true) what.

Definition two_failures : list label :=
  [lost 0 (CallDoConnect true); lost 0 (CallSetRunning true);
   lost 0 CallSetConnected;
   lost 0 CallSend; lost 0 CallSend; lost 0 CallSend; lost 0 CallSend;
   lost 0 CallSend; lost 0 CallSend; lost 0 CallSend; lost 0 CallSend;
   lost 0 CallSend; lost 0 CallSend; lost 0 CallSend;
   lost 2 CallSend; lost 2 CallSend;
   lost 1 CallSend; lost 1 CallSend; lost 1 CallSend; lost 1 CallSend;
   lost 1 CallSend; lost 1 CallSend; lost 1 CallSend; lost 1 CallSend;
   lost 1 CallSend].

Definition after_two_failures : config :=
  mkConfig (mkShared true true false true false true 2)
           [Caller None; Caller None; Reconnector (RAttempt 0)].

End Interleaving.

(* ================================================================== *)
(** * The vocabulary of the properties *)
(* ================================================================== *)

(** ** The encoder *)

(** The two loops inside [json_dumps], named. *)
Fixpoint dumps_items (l : list pyval) : Outcome (list string) :=
  match l with
  | [] => Ret []
  | x :: rest =>
      match json_dumps x with
      | Raise e => Raise e
      | Ret sx =>
          match dumps_items rest with
          | Raise e => Raise e
          | Ret srest => Ret (sx :: srest)
          end
      end
  end.

Fixpoint dumps_entries (l : list (string * pyval)) : Outcome (list string) :=
  match l with
  | [] => Ret []
  | (k, x) :: rest =>
      match json_dumps x with
      | Raise e => Raise e
      | Ret sx =>
          match dumps_entries rest with
          | Raise e => Raise e
          | Ret srest => Ret ((quote k ++ ": " ++ sx) :: srest)
          end
      end
  end.

(** The exceptions of the encoder. *)
Definition encoder_error (e : exn) : Prop :=
  e = Exn ValueError "Circular reference detected"
  \/ e = Exn TypeError "Object is not JSON serializable".

(** ** What one call of [_send_message] does *)

Section SendVocabulary.

Variable env : Env.

(** The message as [_send_message] stamps it in state [st]. *)
Definition stamped (st : State) (message : dict) : dict :=
  dict_set (dict_set message "jobId" (job_id (self st))) "timestamp"
    (PyInt (int_of_Q (time_time env (clock_reads (world st)) * 1000))).

(** The line [_send_message] writes for a stamped message. *)
Definition frame_of (text : string) : string := encode_utf8 (text ++ newline).

(** The world after the clock was read and [more] was added to the trace,
    with [n] more calls of [sendall]. *)
Definition world_after_send (w : World) (more : list effect) (n : nat) : World :=
  mkWorld (trace w ++ more)%list (S (clock_reads w)) (sockets_made w)
          (connects w) (n + sends w).

(** The object after a write failed: marked not connected, and holding
    a reconnect thread if it is running and held none. *)
Definition spawns (j : Job) : bool :=
  (_running j && negb (is_some (_reconnect_thread j)))%bool.

Definition self_after_failure (j : Job) : Job :=
  if spawns j
  then set__reconnect_thread (Some _reconnect_loop_target) (set__connected false j)
  else set__connected false j.

(** The four ways a call ends. *)
Inductive SendCase (message : dict) (st : State)
  : Outcome (bool * dict) * State -> Prop :=
  | NoSocket :
      _socket (self st) = None ->
      SendCase message st (Ret (false, message), st)
  | Unencodable sock e :
      _socket (self st) = Some sock ->
      json_dumps (PyDict (stamped st message)) = Raise e ->
      SendCase message st
        (Ret (false, stamped st message),
         mkState (self st)
           (world_after_send (world st)
              [Stderr ("[DonkeylabsJob] Failed to send message: " ++ str_exn e)] 0))
  | Accepted sock text :
      _socket (self st) = Some sock ->
      json_dumps (PyDict (stamped st message)) = Ret text ->
      sendall_answer env sock (sends (world st)) (frame_of text) = None ->
      SendCase message st
        (Ret (true, stamped st message),
         mkState (self st)
           (world_after_send (world st)
              [SocketSendall (fileno sock) (frame_of text) None] 1))
  | Refused sock text err :
      _socket (self st) = Some sock ->
      json_dumps (PyDict (stamped st message)) = Ret text ->
      sendall_answer env sock (sends (world st)) (frame_of text) = Some err ->
      SendCase message st
        (Ret (false, stamped st message),
         mkState (self_after_failure (self st))
           (world_after_send (world st)
              ([SocketSendall (fileno sock) (frame_of text) (Some err);
                Stderr ("[DonkeylabsJob] Connection lost: " ++ strerror err)]
               ++ (if spawns (self st)
                   then [ThreadStart _reconnect_loop_target] else []))%list 1)).

End SendVocabulary.

(** ** Effects, and a link that is down *)

(** The effects of the reconnection procedure: closing and opening
    sockets, connecting, sleeping between attempts, and joining a
    thread. A call that has none of them in its trace did not take part
    in a reconnection and did not wait for one. *)
Definition reconnection_effect (e : effect) : bool :=
  match e with
  | SocketCreate _ _ _ | SocketConnect _ _ _ | SocketClose _
  | Sleep _ | ThreadJoin _ _ => true
  | Stderr _ | SocketSendall _ _ _ | ThreadStart _ => false
  end.

Definition no_reconnection_effect (more : list effect) : Prop :=
  forallb (fun e => negb (reconnection_effect e)) more = true.

(** The link is down: there is no socket, or the next write on it fails
    whatever the bytes. *)
Definition link_down (env : Env) (st : State) : Prop :=
  match _socket (self st) with
  | None => True
  | Some sock =>
      forall bytes, sendall_answer env sock (sends (world st)) bytes <> None
  end.

(** ** Attributes a method leaves alone *)

(** [m] does not change the reading [f] of the object. *)
Definition keeps {T A : Type} (f : Job -> T) (m : M A) : Prop :=
  forall st, f (self (snd (m st))) = f (self st).

(** ** The start of [run_job] *)

(** A value of the payload that is absent or false, and a variable of
    the environment that is unset or empty. *)
Definition missing (v : option pyval) : Prop :=
  match v with
  | Some x => truthy x = false
  | None => True
  end.

Definition unset (o : option string) : Prop := o = None \/ o = Some "".

(** The process dies before a job exists: status 1, no job object, and
    nothing done to the world but one line on stderr. *)
Definition failed_fast (w : World) (r : Run) : Prop :=
  exit_status (ended r) = 1%Z
  /\ job r = None
  /\ exists line, after r = emit (Stderr line) w.

(** ** The reconnection procedure *)

(** A length every [time.sleep] takes: the lowest limit of a platform
    is 2^32 - 1 milliseconds, some 4.29 million seconds, and the usual
    one 2^63 - 1 nanoseconds. *)
Definition sleep_limit : Q := 4000000 # 1.

(** One attempt of the code: [close] on the old socket, then
    [_do_connect]. *)
Definition attempt_connect (env : Env) : M unit :=
  close_socket_quietly ;; _do_connect env.

(** The loop of [_try_reconnect] read by the outcome of each attempt,
    with the methods of the class as its steps: the form in which the
    proofs follow the loop. (The procedure in the words of the
    specification, with steps of its own, is [procedure_attempts]
    below.) *)
Fixpoint attempts_by_outcome (env : Env) (interval : Q) (max_attempts : Z)
    (attempts_left attempt : nat) : M bool :=
  match attempts_left with
  | O =>
      print_stderr ("[DonkeylabsJob] Failed to reconnect after "
                    ++ str_of_Z max_attempts ++ " attempts") ;;
      ret false
  | S remaining =>
      fun st =>
        match attempt_connect env st with
        | (Ret _, connected) =>
            (update_self (set__connected true) ;;
             print_stderr ("[DonkeylabsJob] Reconnected after "
                           ++ str_of_nat (attempt + 1) ++ " attempts") ;;
             _send_started env ;;
             ret true) connected
        | (Raise e, failed) =>
            (print_stderr ("[DonkeylabsJob] Reconnect attempt "
                           ++ str_of_nat (attempt + 1) ++ "/"
                           ++ str_of_Z max_attempts
                           ++ " failed: " ++ str_exn e) ;;
             do_effect (Sleep interval) ;;
             attempts_by_outcome env interval max_attempts remaining (S attempt))
              failed
        end
  end.

Definition try_reconnect_by_outcome (env : Env) : M bool :=
  fun st =>
    (print_stderr "[DonkeylabsJob] Attempting to reconnect..." ;;
     attempts_by_outcome env (_reconnect_interval (self st))
       (_max_reconnect_attempts (self st))
       (Z.to_nat (_max_reconnect_attempts (self st))) 0) st.

(** The durations slept, in order. *)
Definition sleeps_of (l : list effect) : list Q :=
  flat_map (fun e => match e with Sleep q => [q] | _ => [] end) l.

Definition slept (st : State) : list Q := sleeps_of (trace (world st)).

(** [m] sleeps no time. *)
Definition awake {A} (m : M A) : Prop :=
  forall st, slept (snd (m st)) = slept st.

(** The object holds no socket that is connected. *)
Definition disconnected (st : State) : Prop :=
  match _socket (self st) with
  | Some sock => state sock <> SockConnected
  | None => True
  end.

(** How many reconnection threads the trace shows being started. *)
Definition reconnect_starts (l : list effect) : nat :=
  length (filter (fun e => match e with
                           | ThreadStart _reconnect_loop_target => true
                           | _ => false
                           end) l).

(** ** A scenario: the peer goes away after the first frame *)

(** A job whose socket was closed under it, and an environment in which
    the first connection and the first write succeed and every later
    one fails. *)
Definition refusing_env : Env :=
  {| time_time := fun _ => (1700000000123 # 1000)%Q;
     socket_socket := fun _ => None;
     socket_connect := fun k _ => if Nat.eqb k 0 then None else Some ECONNREFUSED;
     socket_sendall := fun k _ => if Nat.eqb k 0 then None else Some EPIPE;
     traceback_format_exc := fun e => "Traceback (most recent call last): " ++ str_exn e;
     json_loads := fun _ => None;
     os_environ_get := fun _ => None;
     sys_stdin_readline := "" |}.

Definition job_j1 : Job :=
  __init__ (PyStr "j1") (PyStr "demo") PyNone (PyStr "/tmp/x.sock")
           None None (Some 2%Z).

(** The job after [connect]: running, connected, one frame sent. *)
Definition st_connected : State :=
  snd (connect refusing_env (mkState job_j1 World0)).

(** The first [progress] after the peer went away. *)
Definition st_lost : State :=
  snd (progress refusing_env (PyInt 50) (Some "half") [] st_connected).

(** A list that contains itself, as the result of a job. *)
Definition cyclic_list : pyval := PyList [PyInt 1; PyCycle].

(** The job of the scenario after its reconnection thread has used up
    its two attempts, and after the next [progress]. *)
Definition st_exhausted : State := snd (_reconnect_loop refusing_env st_lost).

Definition st_again : State :=
  snd (progress refusing_env (PyInt 60) None [] st_exhausted).

(** ** A scenario: a responsive peer *)

(** The handshake of a job with two steps, and the line it arrives as. *)
Definition handshake : pyval :=
  PyDict [("jobId", PyStr "j1"); ("name", PyStr "demo");
          ("data", PyDict [("steps", PyInt 2)]);
          ("socketPath", PyStr "/tmp/x.sock")].

Definition handshake_line : string :=
  match json_dumps handshake with
  | Ret text => text ++ newline
  | Raise _ => ""
  end.

(** An environment in which that line is on stdin and the peer accepts
    every connection and every write. *)
Definition responsive_env : Env :=
  {| time_time := fun _ => (1700000000123 # 1000)%Q;
     socket_socket := fun _ => None;
     socket_connect := fun _ _ => None;
     socket_sendall := fun _ _ => None;
     traceback_format_exc := fun e => "Traceback (most recent call last): " ++ str_exn e;
     json_loads := fun line =>
       if String.eqb line handshake_line then Some handshake else None;
     os_environ_get := fun _ => None;
     sys_stdin_readline := handshake_line |}.

(** The frame of a message, for writing down a trace. *)
Definition wire (message : dict) : string :=
  match json_dumps (PyDict message) with
  | Ret text => frame_of text
  | Raise _ => ""
  end.

Unset Implicit Arguments.

(** ** Connection strings *)

(** No colon in the string. *)
Fixpoint no_colon (s : string) : bool :=
  match s with
  | EmptyString => true
  | String c rest => (negb (Ascii.eqb c ":") && no_colon rest)%bool
  end.

(** A host name [connect] converts without raising: ASCII, and no NUL
    character in it. *)
Fixpoint ascii_host (s : string) : bool :=
  match s with
  | EmptyString => true
  | String c rest =>
      (Nat.leb 1 (nat_of_ascii c) && Nat.leb (nat_of_ascii c) 127
       && ascii_host rest)%bool
  end.

(** The world after [_do_connect] made the socket [fd] and asked for a
    connection to [to], with answer [r]. *)
Definition world_after_dial (w : World) (f : family) (to : endpoint)
    (r : option os_error) : World :=
  mkWorld (trace w ++ [SocketCreate (sockets_made w) f None;
                       SocketConnect (sockets_made w) to r])%list
          (clock_reads w) (S (sockets_made w)) (S (connects w)) (sends w).

(** The state after [_do_connect] dialled [to] on a new socket. *)
Definition state_after_dial (env : Env) (st : State) (f : family)
    (to : endpoint) : Outcome unit * State :=
  let w := world st in
  let r := socket_connect env (connects w) to in
  (match r with
   | None => Ret tt
   | Some err => Raise (exn_of_errno err)
   end,
   mkState
     (set__socket
        (Some (Socket (sockets_made w) f
                 (match r with None => SockConnected | Some _ => SockNew end)))
        (self st))
     (world_after_dial w f to r)).

(** The state after [_do_connect] made a socket and failed before it
    asked for a connection. *)
Definition state_after_socket (st : State) (f : family) : State :=
  let w := world st in
  mkState
    (set__socket (Some (Socket (sockets_made w) f SockNew)) (self st))
    (mkWorld (trace w ++ [SocketCreate (sockets_made w) f None])%list
             (clock_reads w) (S (sockets_made w)) (connects w) (sends w)).

(** ** Kinds of effects *)

Inductive kind : Type :=
  | KStderr | KCreate | KConnect | KSendall | KClose | KSleep | KStart | KJoin.

Definition kind_of (e : effect) : kind :=
  match e with
  | Stderr _ => KStderr
  | SocketCreate _ _ _ => KCreate
  | SocketConnect _ _ _ => KConnect
  | SocketSendall _ _ _ => KSendall
  | SocketClose _ => KClose
  | Sleep _ => KSleep
  | ThreadStart _ => KStart
  | ThreadJoin _ _ => KJoin
  end.

Definition kind_eqb (a b : kind) : bool :=
  match a, b with
  | KStderr, KStderr | KCreate, KCreate | KConnect, KConnect
  | KSendall, KSendall | KClose, KClose | KSleep, KSleep
  | KStart, KStart | KJoin, KJoin => true
  | _, _ => false
  end.

(** The effect is of one of the kinds [ks]. *)
Definition among (ks : list kind) (e : effect) : bool :=
  existsb (kind_eqb (kind_of e)) ks.

(** What [m] adds to the trace is of the kinds [ks], from every state. *)
Definition emits (ks : list kind) {A : Type} (m : M A) : Prop :=
  forall st, exists more,
    trace (world (snd (m st))) = (trace (world st) ++ more)%list
    /\ forallb (among ks) more = true.

(** The kinds [ks] are among the kinds [ks']. *)
Definition kinds_within (ks ks' : list kind) : bool :=
  forallb (fun k => existsb (kind_eqb k) ks') ks.

(** ** Events by kind *)

(** A stamped event with nothing but its kind. *)
Definition bare_event (kind : string) (id : pyval) (timestamp : Z) : dict :=
  [("type", PyStr kind); ("jobId", id); ("timestamp", PyInt timestamp)].

(** What [disconnect] adds to the trace. *)
Definition disconnect_effects (j : Job) : list effect :=
  (match _heartbeat_thread j with
   | Some t => [ThreadJoin t (2 # 1)]
   | None => []
   end
   ++
   match _socket j with
   | Some sock => [SocketClose (fileno sock)]
   | None => []
   end)%list.

(** ** A scenario: nobody listens *)

(** The handshake on stdin, and a peer that refuses every connection. *)
Definition unreachable_env : Env :=
  {| time_time := time_time responsive_env;
     socket_socket := fun _ => None;
     socket_connect := fun _ _ => Some ECONNREFUSED;
     socket_sendall := fun _ _ => None;
     traceback_format_exc := traceback_format_exc responsive_env;
     json_loads := json_loads responsive_env;
     os_environ_get := fun _ => None;
     sys_stdin_readline := handshake_line |}.

(** A line on stdin that parses to a list. *)
Definition list_env : Env :=
  {| time_time := time_time responsive_env;
     socket_socket := fun _ => None;
     socket_connect := fun _ _ => None;
     socket_sendall := fun _ _ => None;
     traceback_format_exc := traceback_format_exc responsive_env;
     json_loads := fun _ => Some (PyList [PyInt 1]);
     os_environ_get := fun _ => None;
     sys_stdin_readline := "[1]" ++ newline |}.

(** A handler that reports progress and then calls [sys.exit(3)]. *)
Definition exiting_handler : M pyval :=
  progress responsive_env (PyInt 10) None [] ;; raise (Exit 3).

(** The transport accepted no frame among the effects [l]. *)
Definition nothing_accepted (l : list effect) : Prop :=
  forall fd bytes, ~ In (SocketSendall fd bytes None) l.

(** ** Frames as lines *)

(** A printable ASCII character, and a text of such characters: no
    control character, so no newline, and nothing UTF-8 encodes in more
    than one byte. *)
Definition printable_char (c : ascii) : bool :=
  let n := nat_of_ascii c in (Nat.leb 32 n && Nat.leb n 126)%bool.

Fixpoint printable (s : string) : bool :=
  match s with
  | EmptyString => true
  | String c rest => (printable_char c && printable rest)%bool
  end.

(** The text carried for every [float] inside [v] is printable, as the
    text Python writes for a float is. *)
Fixpoint floats_printable (v : pyval) : bool :=
  match v with
  | PyFloat text => printable text
  | PyList items => forallb floats_printable items
  | PyDict entries => forallb (fun kv => floats_printable (snd kv)) entries
  | _ => true
  end.

(** ** The two locks *)

Module Locks.

Import Interleaving.

(** Inside the [with self._reconnect_lock:] block of [_try_reconnect]. *)
Definition holds_reconnect_lock (t : thread) : bool :=
  match t with
  | Reconnector RTestConnected | Reconnector (RAttempt _)
  | Reconnector (RMarkConnected _) | Reconnector (RSendStarted _ _)
  | Reconnector (RSleep _) | Reconnector (RRelease _) => true
  | _ => false
  end.

(** At the head of a [with] block whose lock another thread holds. *)
Definition waiting (m : shared) (t : thread) : bool :=
  match t with
  | Reconnector RAcquire => reconnect_lock m
  | _ =>
      match sending t with
      | Some SAcquire => lock m
      | _ => false
      end
  end.

(** A thread that has nothing left to run. *)
Definition finished (t : thread) : bool :=
  match t with
  | Dead | Reconnector RDone => true
  | _ => false
  end.

(** The thread [i] can run a step whatever the scheduler lets the socket
    answer. *)
Definition can_run (c : config) (i : nat) : Prop :=
  forall l, who l = i -> exists c', step l c = Some c'.

End Locks.

(** ** The end of the reconnection thread *)

(** The state in which [_try_reconnect] starts its attempts. *)
Definition attempting (st : State) : State :=
  mkState (self st)
    (emit (Stderr "[DonkeylabsJob] Attempting to reconnect...") (world st)).

(** A job with a negative reconnect interval that lost its link. *)
Definition st_hasty : State :=
  mkState
    (set__reconnect_thread (Some _reconnect_loop_target)
       (set__connected false
          (set__running true
             (__init__ (PyStr "j1") (PyStr "demo") PyNone (PyStr "/tmp/x.sock")
                None (Some (-1 # 1)%Q) (Some 2%Z)))))
    World0.

(** ** Reporting methods *)

Definition is_write (e : effect) : bool :=
  match e with
  | SocketSendall _ _ _ => true
  | _ => false
  end.

(** [m] returns [None] from every state, after at most one write and
    some lines on stderr, possibly starting the reconnection thread; it
    opens, connects and closes nothing and waits for nothing, and it
    leaves the job's id, socket and running flag as they are. *)
Definition reports (m : M pyval) : Prop :=
  forall st, exists st' more,
    m st = (Ret PyNone, st')
    /\ trace (world st') = (trace (world st) ++ more)%list
    /\ forallb (among [KStderr; KSendall; KStart]) more = true
    /\ length (filter is_write more) <= 1
    /\ _running (self st') = _running (self st)
    /\ _socket (self st') = _socket (self st)
    /\ job_id (self st') = job_id (self st).

(** ** A scenario: the port in the environment *)

(** A handshake with a job id only, and [DONKEYLABS_TCP_PORT=9000]. *)
Definition tcp_env : Env :=
  {| time_time := time_time responsive_env;
     socket_socket := fun _ => None;
     socket_connect := fun _ _ => None;
     socket_sendall := fun _ _ => None;
     traceback_format_exc := traceback_format_exc responsive_env;
     json_loads := fun _ => Some (PyDict [("jobId", PyStr "j1")]);
     os_environ_get := fun k =>
       if String.eqb k "DONKEYLABS_TCP_PORT" then Some "9000" else None;
     sys_stdin_readline := "{}" ++ newline |}.

(** ** [example_handler] *)

Section ExampleHandler.

Variable env : Env.

(** The text [json.dumps] writes for the float [(i / n) * 100], and
    [str(v)] for a value. *)
Variable percent_text : Z -> Z -> string.
Variable py_str : pyval -> string.

(** What [range(v)] and [i / v] take for an integer: an [int], of which
    [bool] is a subclass. *)
Definition as_int (v : pyval) : option Z :=
  match v with
  | PyInt n => Some n
  | PyBool b => Some (Z.b2z b)
  | _ => None
  end.

(** [f"{v}"] *)
Definition format_value (v : pyval) : string :=
  match v with
  | PyInt n => str_of_Z n
  | PyBool true => "True"
  | PyBool false => "False"
  | _ => py_str v
  end.

(** The [for i in range(total_steps)] loop with [todo] turns left. *)
Fixpoint example_steps (total_steps : pyval) (n : Z) (todo : nat) (i : Z)
  : M unit :=
  match todo with
  | O => ret tt
  | S todo' =>
      progress env (PyFloat (percent_text i n))
        (Some ("Processing step " ++ str_of_Z (i + 1) ++ " of "
               ++ format_value total_steps)) [] ;;
      time_sleep (1 # 2) ;;         (* Simulate work *)
      example_steps total_steps n todo' (i + 1)
  end.

(** [example_handler(job)] *)
Definition example_handler : M pyval :=
  self0 <- get_self ;;
  info env ("Starting job with data: " ++ py_str (data self0)) [] ;;
  self1 <- get_self ;;
  match data self1 with
  | PyDict d =>
      let total_steps :=
        match dict_get d "steps" with Some v => v | None => PyInt 5 end in
      match as_int total_steps with
      | Some n =>
          example_steps total_steps n (Z.to_nat n) 0 ;;
          progress env (PyInt 100) (Some "Complete!") [] ;;
          ret (PyDict [("processed", PyBool true); ("steps", total_steps)])
      | None =>
          raise (Exn TypeError "object cannot be interpreted as an integer")
      end
  | _ => raise (Exn AttributeError "object has no attribute 'get'")
  end.

End ExampleHandler.

(** The texts of the two floats of a job with two steps. *)
Definition two_step_text (i n : Z) : string :=
  if Z.eqb i 0 then "0.0" else "50.0".

(** ** The reconnection procedure in the words of the specification *)

(** The steps are written here from the specification, on the socket
    and the trace, and not with the methods of the class, so that the
    comparison with [_try_reconnect] says what each step of the code
    does. The one step taken from the code is [_do_connect], which the
    specification names as the procedure [connect] uses. *)

(** "Close the stale handle if any": the socket the link holds is
    closed, and stays where it is; without one nothing is done. *)
Definition close_stale_handle : M unit :=
  fun st =>
    match _socket (self st) with
    | None => (Ret tt, st)
    | Some sock =>
        (Ret tt,
         mkState
           (set__socket (Some (Socket (fileno sock) (sock_family sock) SockClosed))
              (self st))
           (emit (SocketClose (fileno sock)) (world st)))
    end.

(** "Mark Connected". *)
Definition mark_connected : M unit :=
  fun st => (Ret tt, mkState (set__connected true (self st)) (world st)).

(** "Emit a fresh event" of a kind: the event with the job's id and the
    time in milliseconds goes to the link's socket as one line of JSON.
    What the transport refuses marks the link not connected, and starts
    the reconnection thread of a running job that has none; an id the
    encoder refuses leaves a line on stderr. The step never fails. *)
Definition emit_event (env : Env) (kind : string) : M unit :=
  fun st =>
    match _socket (self st) with
    | None => (Ret tt, st)
    | Some sock =>
        let event :=
          bare_event kind (job_id (self st))
            (int_of_Q (time_time env (clock_reads (world st)) * 1000)) in
        match json_dumps (PyDict event) with
        | Raise e =>
            (Ret tt,
             mkState (self st)
               (world_after_send (world st)
                  [Stderr ("[DonkeylabsJob] Failed to send message: "
                           ++ str_exn e)] 0))
        | Ret text =>
            match sendall_answer env sock (sends (world st)) (frame_of text) with
            | None =>
                (Ret tt,
                 mkState (self st)
                   (world_after_send (world st)
                      [SocketSendall (fileno sock) (frame_of text) None] 1))
            | Some err =>
                (Ret tt,
                 mkState (self_after_failure (self st))
                   (world_after_send (world st)
                      ([SocketSendall (fileno sock) (frame_of text) (Some err);
                        Stderr ("[DonkeylabsJob] Connection lost: "
                                ++ strerror err)]
                       ++ (if spawns (self st)
                           then [ThreadStart _reconnect_loop_target]
                           else []))%list 1))
            end
        end
    end.

(** Up to [attempts_left] attempts in sequence. Each one closes the
    stale handle if any and runs the endpoint-connect procedure of
    [connect]; on success it marks the link connected, emits a fresh
    started event and returns success; on failure it sleeps [interval]
    seconds and retries; after the last failure it returns failure.
    The lines on stderr are the ones the code writes. *)
Fixpoint procedure_attempts (env : Env) (interval : Q) (max_attempts : Z)
    (attempts_left attempt : nat) : M bool :=
  match attempts_left with
  | O =>
      fun st =>
        (Ret false,
         mkState (self st)
           (emit (Stderr ("[DonkeylabsJob] Failed to reconnect after "
                          ++ str_of_Z max_attempts ++ " attempts"))
                 (world st)))
  | S remaining =>
      fun st =>
        match (close_stale_handle ;; _do_connect env) st with
        | (Ret _, connected) =>
            (mark_connected ;;
             print_stderr ("[DonkeylabsJob] Reconnected after "
                           ++ str_of_nat (attempt + 1) ++ " attempts") ;;
             emit_event env "started" ;;
             ret true) connected
        | (Raise e, failed) =>
            (print_stderr ("[DonkeylabsJob] Reconnect attempt "
                           ++ str_of_nat (attempt + 1) ++ "/"
                           ++ str_of_Z max_attempts
                           ++ " failed: " ++ str_exn e) ;;
             do_effect (Sleep interval) ;;
             procedure_attempts env interval max_attempts remaining (S attempt))
              failed
        end
  end.

(** The procedure with the settings of the job. *)
Definition reconnection_procedure (env : Env) : M bool :=
  fun st =>
    (print_stderr "[DonkeylabsJob] Attempting to reconnect..." ;;
     procedure_attempts env (_reconnect_interval (self st))
       (_max_reconnect_attempts (self st))
       (Z.to_nat (_max_reconnect_attempts (self st))) 0) st.

(** The handle [close_stale_handle] closes. *)
Definition stale_handle (j : Job) : list effect :=
  match _socket j with
  | Some sock => [SocketClose (fileno sock)]
  | None => []
  end.

(** What [_do_connect] from [st] leaves in [p]: the effects it added,
    and the socket it made, if it made one. *)
Definition made_sockets (st : State) (p : Outcome unit * State) : Prop :=
  exists more,
    trace (world (snd p)) = (trace (world st) ++ more)%list
    /\ forallb (among [KCreate; KConnect]) more = true
    /\ (forall fd f,
          In (SocketCreate fd f None) more ->
          exists sock, _socket (self (snd p)) = Some sock /\ fileno sock = fd)
    /\ (fst p = Ret tt ->
        exists sock f,
          _socket (self (snd p)) = Some sock
          /\ state sock = SockConnected
          /\ In (SocketCreate (fileno sock) f None) more).

(** The started event on the socket [sock], as the effects [more] show
    it: every write is the frame of a started event with the id [id],
    on [sock]; there is one when the id can be encoded. *)
Definition announces (id : pyval) (sock : socket) (more : list effect) : Prop :=
  (forall fd bytes answer,
      In (SocketSendall fd bytes answer) more ->
      fd = fileno sock
      /\ exists timestamp text,
           json_dumps (PyDict (bare_event "started" id timestamp)) = Ret text
           /\ bytes = frame_of text)
  /\ (encodable id = true -> length (filter is_write more) = 1).

(** A write the transport refused. *)
Definition refused_write (more : list effect) : Prop :=
  exists fd bytes err, In (SocketSendall fd bytes (Some err)) more.

(** What a run of the procedure with [n] attempts from [st] leaves in
    [p]. *)
Definition procedure_result (interval : Q) (n : nat) (st : State)
    (p : Outcome bool * State) : Prop :=
  exists ok st' failures more,
    p = (Ret ok, st')
    /\ trace (world st') = (trace (world st) ++ more)%list
    (* a sleep of the interval after each failure, and no other *)
    /\ sleeps_of more = repeat interval failures
    (* the stale handle is closed *)
    /\ (0 < n -> forall sock0,
          _socket (self st) = Some sock0 -> In (SocketClose (fileno sock0)) more)
    /\ (n = 0 -> self st' = self st)
    (* and so is every socket an attempt made, but the one left in the
       object *)
    /\ (forall fd f,
          In (SocketCreate fd f None) more ->
          (exists sock, _socket (self st') = Some sock /\ fileno sock = fd)
          \/ In (SocketClose fd) more)
    (* failure: after all the attempts, the link as little connected as
       before and nothing written *)
    /\ (ok = false ->
        failures = n
        /\ _connected (self st') = _connected (self st)
        /\ forall fd bytes answer, ~ In (SocketSendall fd bytes answer) more)
    (* success: a socket made by the procedure, connected, and the
       started event on it; the link is marked connected unless the
       transport refused that event *)
    /\ (ok = true ->
        failures < n
        /\ exists sock f,
             _socket (self st') = Some sock
             /\ state sock = SockConnected
             /\ In (SocketCreate (fileno sock) f None) more
             /\ announces (job_id (self st)) sock more
             /\ (_connected (self st') = false <-> refused_write more)).

(** A peer that takes every connection and refuses every write. *)
Definition deaf_env : Env :=
  {| time_time := time_time responsive_env;
     socket_socket := fun _ => None;
     socket_connect := fun _ _ => None;
     socket_sendall := fun _ _ => Some EPIPE;
     traceback_format_exc := traceback_format_exc responsive_env;
     json_loads := fun _ => None;
     os_environ_get := fun _ => None;
     sys_stdin_readline := "" |}.

(** ** Sends after [disconnect] *)

(** The messages sent one after the other, by whatever threads; the
    answers in order. *)
Fixpoint send_each (env : Env) (messages : list dict) : M (list bool) :=
  match messages with
  | [] => ret []
  | message :: rest =>
      r <- _send_message env message ;;
      answers <- send_each env rest ;;
      ret (fst r :: answers)
  end.

(** A peer that takes every connection, and every write but the second. *)
Definition returning_env : Env :=
  {| time_time := time_time responsive_env;
     socket_socket := fun _ => None;
     socket_connect := fun _ _ => None;
     socket_sendall := fun k _ => if Nat.eqb k 1 then Some EPIPE else None;
     traceback_format_exc := traceback_format_exc responsive_env;
     json_loads := fun _ => None;
     os_environ_get := fun _ => None;
     sys_stdin_readline := "" |}.

(** The job that lost its link while a reconnection thread was started,
    disconnected before that thread ran. *)
Definition st_disconnected_early : State :=
  snd (disconnect
         (snd (progress returning_env (PyInt 50) None []
                 (snd (connect returning_env (mkState job_j1 World0)))))).

Set Implicit Arguments.

(* ================================================================== *)
(** * Properties *)
(* ================================================================== *)

(** ** The model on small inputs *)

Example json_dumps_started :
  json_dumps (PyDict [("type", PyStr "started"); ("jobId", PyStr "j1");
                      ("timestamp", PyInt 1700000000123)])
  = Ret ("{" ++ quote "type" ++ ": " ++ quote "started" ++ ", "
             ++ quote "jobId" ++ ": " ++ quote "j1" ++ ", "
             ++ quote "timestamp" ++ ": 1700000000123}").
Proof. reflexivity. Qed.

Example json_dumps_escapes :
  json_dumps (PyStr (String (ascii_of_nat 10) "a\b"))
  = Ret (dquote ++ "\na\\b" ++ dquote).
Proof. reflexivity. Qed.

Example int_of_str_port : int_of_str "8080" = Some 8080%Z.
Proof. reflexivity. Qed.
Example int_of_str_spaces : int_of_str " 1_000 " = Some 1000%Z.
Proof. reflexivity. Qed.
Example int_of_str_bad : int_of_str "80a" = None /\ int_of_str "" = None
                         /\ int_of_str "1__0" = None /\ int_of_str "_1" = None.
Proof. repeat split; reflexivity. Qed.
Example rsplit_colon_ex :
  rsplit_colon "127.0.0.1:9000" = Some ("127.0.0.1", "9000")
  /\ rsplit_colon "a:b:c" = Some ("a:b", "c")
  /\ rsplit_colon "nocolon" = None.
Proof. repeat split; reflexivity. Qed.

(** ** The encoder *)

Lemma json_dumps_list items :
  json_dumps (PyList items) =
  match dumps_items items with
  | Raise e => Raise e
  | Ret parts => Ret ("[" ++ String.concat ", " parts ++ "]")
  end.
Proof.
  cbn [json_dumps].
  match goal with
  | |- match ?f items with _ => _ end = _ =>
      assert (E : forall l, f l = dumps_items l)
  end.
  { induction l as [|x rest IH]; cbn; [reflexivity|].
    destruct (json_dumps x); [|reflexivity]. rewrite IH. reflexivity. }
  rewrite E. reflexivity.
Qed.

Lemma json_dumps_dict entries :
  json_dumps (PyDict entries) =
  match dumps_entries entries with
  | Raise e => Raise e
  | Ret parts => Ret ("{" ++ String.concat ", " parts ++ "}")
  end.
Proof.
  cbn [json_dumps].
  match goal with
  | |- match ?f entries with _ => _ end = _ =>
      assert (E : forall l, f l = dumps_entries l)
  end.
  { induction l as [|[k x] rest IH]; [reflexivity|].
    cbn [dumps_entries]. rewrite <- IH. reflexivity. }
  rewrite E. reflexivity.
Qed.

(** The encoder raises nothing but a [ValueError] for a cycle and a
    [TypeError] for an object without an encoding. *)
Lemma json_dumps_raises v e : json_dumps v = Raise e -> encoder_error e.
Proof.
  revert e. induction v as [| | | | |items IH|entries IH| |] using pyval_nested_ind;
    intros e H; try discriminate H.
  - destruct b; discriminate H.
  - rewrite json_dumps_list in H.
    assert (G : forall e', dumps_items items = Raise e' -> encoder_error e').
    { clear H. induction IH as [|x rest Hx _ IHrest]; cbn; intros e' H'.
      - discriminate.
      - destruct (json_dumps x) eqn:Ex.
        + destruct (dumps_items rest) eqn:Er; [discriminate|].
          apply IHrest. congruence.
        + apply Hx. congruence. }
    destruct (dumps_items items) eqn:Ei; [discriminate|].
    apply G. congruence.
  - rewrite json_dumps_dict in H.
    assert (G : forall e', dumps_entries entries = Raise e' -> encoder_error e').
    { clear H. induction IH as [|[k x] rest Hx _ IHrest]; cbn; intros e' H'.
      - discriminate.
      - cbn in Hx. destruct (json_dumps x) eqn:Ex.
        + destruct (dumps_entries rest) eqn:Er; [discriminate|].
          apply IHrest. congruence.
        + apply Hx. congruence. }
    destruct (dumps_entries entries) eqn:Ei; [discriminate|].
    apply G. congruence.
  - left. cbn in H. congruence.
  - right. cbn in H. congruence.
Qed.

(** A value without cycles and foreign objects is encoded. *)
Lemma json_dumps_encodable v :
  encodable v = true -> exists text, json_dumps v = Ret text.
Proof.
  induction v as [| | | | |items IH|entries IH| |] using pyval_nested_ind;
    intros H; try discriminate H; try (eexists; reflexivity).
  - destruct b; eexists; reflexivity.
  - rewrite json_dumps_list.
    assert (G : exists parts, dumps_items items = Ret parts).
    { cbn in H. induction IH as [|x rest Hx _ IHrest]; cbn.
      - eexists; reflexivity.
      - cbn in H. apply andb_prop in H. destruct H as [H1 H2].
        destruct (Hx H1) as [sx ->]. destruct (IHrest H2) as [sr ->].
        eexists; reflexivity. }
    destruct G as [parts ->]. eexists; reflexivity.
  - rewrite json_dumps_dict.
    assert (G : exists parts, dumps_entries entries = Ret parts).
    { cbn in H. induction IH as [|[k x] rest Hx _ IHrest]; cbn.
      - eexists; reflexivity.
      - cbn in H, Hx. apply andb_prop in H. destruct H as [H1 H2].
        destruct (Hx H1) as [sx ->]. destruct (IHrest H2) as [sr ->].
        eexists; reflexivity. }
    destruct G as [parts ->]. eexists; reflexivity.
Qed.

(** A value with a cycle or a foreign object in it is refused. *)
Lemma json_dumps_unencodable v :
  encodable v = false -> exists e, json_dumps v = Raise e.
Proof.
  induction v as [| | | | |items IH|entries IH| |] using pyval_nested_ind;
    intros H; try discriminate H; try (eexists; reflexivity).
  - rewrite json_dumps_list.
    assert (G : exists e, dumps_items items = Raise e).
    { cbn in H. induction IH as [|x rest Hx _ IHrest]; cbn.
      - discriminate.
      - cbn in H. destruct (json_dumps x) eqn:Ex; [|eexists; reflexivity].
        destruct (encodable x) eqn:Eenc.
        + cbn in H. destruct (IHrest H) as [e ->]. eexists; reflexivity.
        + destruct (Hx eq_refl) as [e He]. congruence. }
    destruct G as [e ->]. eexists; reflexivity.
  - rewrite json_dumps_dict.
    assert (G : exists e, dumps_entries entries = Raise e).
    { cbn in H. induction IH as [|[k x] rest Hx _ IHrest]; cbn.
      - discriminate.
      - cbn in H, Hx. destruct (json_dumps x) eqn:Ex; [|eexists; reflexivity].
        destruct (encodable x) eqn:Eenc.
        + cbn in H. destruct (IHrest H) as [e ->]. eexists; reflexivity.
        + destruct (Hx eq_refl) as [e He]. congruence. }
    destruct G as [e ->]. eexists; reflexivity.
Qed.

(** ** What one call of [_send_message] does *)

Section SendCases.

Variable env : Env.

Lemma errno_is_OSError err :
  isinstance (exn_of_errno err) [BrokenPipeError; ConnectionResetError; OSError]
  = true.
Proof. destruct err; reflexivity. Qed.

Lemma errno_is_Exception err : isinstance (exn_of_errno err) [Exception] = true.
Proof. destruct err; reflexivity. Qed.

Lemma encoder_error_clause e :
  encoder_error e ->
  isinstance e [BrokenPipeError; ConnectionResetError; OSError] = false
  /\ isinstance e [Exception] = true.
Proof. intros [-> | ->]; split; reflexivity. Qed.

Lemma send_message_cases message st :
  SendCase env message st (_send_message env message st).
Proof.
  unfold _send_message, bind, get_self.
  destruct (_socket (self st)) as [sock|] eqn:Hsock.
  2: { unfold ret. apply NoSocket. exact Hsock. }
  cbn [now]. unfold try_except, bind, dumps. cbn [self world clock_reads].
  fold (stamped env st message).
  destruct (json_dumps (PyDict (stamped env st message))) as [text|e] eqn:Henc.
  - unfold socket_sendall_self. cbn [self world sends trace]. rewrite Hsock.
    fold (frame_of text).
    destruct (sendall_answer env sock (sends (world st)) (frame_of text))
      as [err|] eqn:Hans.
    + rewrite errno_is_OSError.
      pose proof (@Refused env message st sock text err Hsock Henc Hans) as R.
      clear Hsock Henc Hans.
      unfold print_stderr, do_effect, update_self, get_self, bind, ret, emit.
      unfold self_after_failure, spawns, world_after_send in R.
      destruct st as [j w]. cbn [self world] in *.
      destruct (_running j) eqn:Hrun.
      * destruct (_reconnect_thread j) eqn:Hthr; destruct j, w;
          cbn in Hrun, Hthr; subst;
          cbn [self world trace clock_reads sockets_made connects sends
               set__connected set__reconnect_thread _running _reconnect_thread
               andb negb is_some] in *;
          repeat rewrite <- app_assoc; exact R.
      * destruct j, w; cbn in Hrun; subst;
          cbn [self world trace clock_reads sockets_made connects sends
               set__connected set__reconnect_thread _running _reconnect_thread
               andb negb is_some] in *;
          repeat rewrite <- app_assoc; exact R.
    + unfold ret. exact (@Accepted env message st sock text Hsock Henc Hans).
  - destruct (encoder_error_clause (json_dumps_raises _ Henc)) as [H1 H2].
    rewrite H1, H2. unfold print_stderr, do_effect, bind, ret. cbn [self world].
    exact (@Unencodable env message st sock e Hsock Henc).
Qed.

End SendCases.

(** A tactic for the case analysis of one call. *)
Ltac send_cases env message st :=
  let C := fresh "C" in
  let p := fresh "p" in
  let Ep := fresh "Ep" in
  pose proof (send_message_cases env message st) as C;
  remember (_send_message env message st) as p eqn:Ep in *;
  clear Ep; destruct C; cbn [fst snd self world] in *.

(** ** The result of a send *)

(** C1. A send attempt never raises. It returns false when no socket was
    created and when the write fails at the transport, whatever the
    error (broken pipe, connection reset, any other OS error); it returns
    true exactly when the transport accepted the whole frame, which the
    trace then ends with. *)
Theorem send_returns_false_on_write_failure
    (env : Env) (message : dict) (st : State) :
  let r := _send_message env message st in
  (exists b m, fst r = Ret (b, m))
  /\ (_socket (self st) = None -> fst r = Ret (false, message))
  /\ (forall sock text err,
        _socket (self st) = Some sock ->
        json_dumps (PyDict (stamped env st message)) = Ret text ->
        sendall_answer env sock (sends (world st)) (frame_of text) = Some err ->
        fst r = Ret (false, stamped env st message)
        /\ isinstance (exn_of_errno err)
             [BrokenPipeError; ConnectionResetError; OSError] = true)
  /\ (forall m,
        fst r = Ret (true, m) <->
        exists sock text,
          m = stamped env st message
          /\ _socket (self st) = Some sock
          /\ json_dumps (PyDict m) = Ret text
          /\ sendall_answer env sock (sends (world st)) (frame_of text) = None)
  /\ (forall m,
        fst r = Ret (true, m) ->
        exists sock text,
          json_dumps (PyDict m) = Ret text
          /\ trace (world (snd r))
             = (trace (world st)
                ++ [SocketSendall (fileno sock) (frame_of text) None])%list).
Proof.
  cbv zeta. repeat split.
  - send_cases env message st; eauto.
  - intros Hnone. send_cases env message st; congruence.
  - send_cases env message st; congruence.
  - apply errno_is_OSError.
  - intros H. send_cases env message st; try discriminate H.
    inversion H; subst. exists sock, text. auto.
  - intros (sock & text & -> & Hsock & Henc & Hans).
    send_cases env message st; congruence.
  - intros m H. send_cases env message st; try discriminate H.
    inversion H; subst. exists sock, text. split; [assumption|reflexivity].
Qed.

(** C10. The internal send is total: for every message, state and
    environment it returns a boolean and raises nothing, the exceptions
    of the encoder and of the transport included; called before a socket
    exists it returns false and leaves the message, the object and the
    world as they were (nothing stamped, nothing encoded, the clock not
    read). *)
Theorem send_message_total (env : Env) (message : dict) (st : State) :
  (exists b m st', _send_message env message st = (Ret (b, m), st'))
  /\ (_socket (self st) = None ->
      _send_message env message st = (Ret (false, message), st))
  /\ (forall e,
        json_dumps (PyDict (stamped env st message)) = Raise e ->
        exists m st', _send_message env message st = (Ret (false, m), st'))
  /\ (forall sock text err,
        _socket (self st) = Some sock ->
        json_dumps (PyDict (stamped env st message)) = Ret text ->
        sendall_answer env sock (sends (world st)) (frame_of text) = Some err ->
        exists m st', _send_message env message st = (Ret (false, m), st')).
Proof.
  repeat split.
  - send_cases env message st; eauto.
  - intros Hnone. send_cases env message st; congruence.
  - intros e He. send_cases env message st; solve [eauto | congruence].
  - intros sock text err Hsock Henc Hans.
    send_cases env message st; solve [eauto | congruence].
Qed.

(** The four ways on the job of the scenario: before a socket exists,
    on the first write, on the second write, and with a payload that
    has a cycle. *)
Example send_before_connect :
  _send_message refusing_env [("type", PyStr "started")] (mkState job_j1 World0)
  = (Ret (false, [("type", PyStr "started")]), mkState job_j1 World0).
Proof. reflexivity. Qed.

Example send_accepted :
  fst (_send_message refusing_env [("type", PyStr "started")]
         (snd (_do_connect refusing_env (mkState job_j1 World0))))
  = Ret (true, [("type", PyStr "started"); ("jobId", PyStr "j1");
                ("timestamp", PyInt 1700000000123)]).
Proof. vm_compute. reflexivity. Qed.

Example send_refused :
  let r := _send_message refusing_env [("type", PyStr "heartbeat")] st_connected in
  fst r = Ret (false, [("type", PyStr "heartbeat"); ("jobId", PyStr "j1");
                       ("timestamp", PyInt 1700000000123)])
  /\ _connected (self (snd r)) = false
  /\ _reconnect_thread (self (snd r)) = Some _reconnect_loop_target
  /\ trace (world (snd r))
     = (trace (world st_connected)
        ++ [SocketSendall 0
              (wire [("type", PyStr "heartbeat"); ("jobId", PyStr "j1");
                     ("timestamp", PyInt 1700000000123)]) (Some EPIPE);
            Stderr "[DonkeylabsJob] Connection lost: [Errno 32] Broken pipe";
            ThreadStart _reconnect_loop_target])%list.
Proof. repeat split; vm_compute; reflexivity. Qed.

Example send_unencodable :
  fst (_send_message refusing_env [("type", PyStr "log"); ("data", cyclic_list)]
         st_connected)
  = Ret (false, [("type", PyStr "log"); ("data", cyclic_list);
                 ("jobId", PyStr "j1"); ("timestamp", PyInt 1700000000123)]).
Proof. vm_compute. reflexivity. Qed.

(** ** Dictionaries *)

Lemma dict_get_set_same d k v : dict_get (dict_set d k v) k = Some v.
Proof.
  induction d as [|[k' v'] rest IH]; cbn.
  - rewrite String.eqb_refl. reflexivity.
  - destruct (String.eqb k' k) eqn:E; cbn.
    + rewrite String.eqb_refl. reflexivity.
    + rewrite E. exact IH.
Qed.

Lemma dict_get_set_other d k k' v :
  k <> k' -> dict_get (dict_set d k v) k' = dict_get d k'.
Proof.
  intros Hne. induction d as [|[k0 v0] rest IH]; cbn.
  - destruct (String.eqb k k') eqn:E; [|reflexivity].
    apply String.eqb_eq in E. contradiction.
  - destruct (String.eqb k0 k) eqn:E; cbn.
    + apply String.eqb_eq in E. subst k0.
      destruct (String.eqb k k') eqn:E'; [|reflexivity].
      apply String.eqb_eq in E'. contradiction.
    + destruct (String.eqb k0 k'); [reflexivity|exact IH].
Qed.

(** Stamping sets the two common fields and touches no other. *)
Lemma stamped_job_id env st message :
  dict_get (stamped env st message) "jobId" = Some (job_id (self st)).
Proof.
  unfold stamped. rewrite dict_get_set_other by discriminate.
  apply dict_get_set_same.
Qed.

Lemma stamped_timestamp env st message :
  dict_get (stamped env st message) "timestamp"
  = Some (PyInt (int_of_Q (time_time env (clock_reads (world st)) * 1000))).
Proof. unfold stamped. apply dict_get_set_same. Qed.

Lemma stamped_other env st message k :
  k <> "jobId" -> k <> "timestamp" ->
  dict_get (stamped env st message) k = dict_get message k.
Proof.
  intros H1 H2. unfold stamped.
  rewrite dict_get_set_other by congruence.
  apply dict_get_set_other. congruence.
Qed.

(** ** The optional fields of an event *)

Lemma truthy_optional (o : option string) :
  truthy (of_optional o) = true <-> exists s, o = Some s /\ s <> "".
Proof.
  destruct o as [s|]; cbn.
  - destruct (String.eqb s "") eqn:E; cbn.
    + apply String.eqb_eq in E. split; [discriminate|].
      intros (s' & H & Hne). congruence.
    + apply String.eqb_neq in E. split; [eauto|reflexivity].
  - split; [discriminate|]. intros (s & H & _). discriminate.
Qed.

Lemma truthy_dict (d : dict) : truthy (PyDict d) = true <-> d <> [].
Proof. destruct d; cbn; split; congruence. Qed.

(** Against C6 as stated: on a log event the message is there although
    it is empty. *)
Lemma log_keeps_empty_message :
  dict_get (log_message "info" "" []) "message" = Some (PyStr "")
  /\ dict_has (log_message "info" "" []) "message" = true.
Proof. split; reflexivity. Qed.

(** C6, amended. [message] is on a progress event exactly when it was
    given and is not empty, and on every log event, empty or not; [data]
    is on a progress or log event exactly when the caller passed extra
    fields; [result] is on a completed event exactly when the result is
    not [None]; [stack] is on a failed event exactly when a stack was
    given and is not empty. A field that is present holds the argument,
    and stamping removes none of them. *)
Theorem optional_fields_presence
    (percent result : pyval) (message stack : option string)
    (level text error : string) (data : dict) :
  (dict_has (progress_message percent message data) "message" = true
     <-> exists s, message = Some s /\ s <> "")
  /\ (forall s, message = Some s -> s <> "" ->
        dict_get (progress_message percent message data) "message"
        = Some (PyStr s))
  /\ (dict_has (progress_message percent message data) "data" = true
        <-> data <> [])
  /\ dict_get (log_message level text data) "message" = Some (PyStr text)
  /\ (dict_has (log_message level text data) "data" = true <-> data <> [])
  /\ (data <> [] ->
        dict_get (progress_message percent message data) "data"
        = Some (PyDict data)
        /\ dict_get (log_message level text data) "data" = Some (PyDict data))
  /\ (dict_has (complete_message result) "result" = true <-> result <> PyNone)
  /\ (result <> PyNone ->
        dict_get (complete_message result) "result" = Some result)
  /\ (dict_has (fail_message error stack) "stack" = true
        <-> exists s, stack = Some s /\ s <> "")
  /\ (forall s, stack = Some s -> s <> "" ->
        dict_get (fail_message error stack) "stack" = Some (PyStr s))
  /\ (forall env st m k,
        k <> "jobId" -> k <> "timestamp" ->
        dict_has (stamped env st m) k = dict_has m k).
Proof.
  assert (Hm := truthy_optional message).
  assert (Hs := truthy_optional stack).
  assert (Hd := truthy_dict data).
  repeat match goal with |- _ /\ _ => split end.
  - unfold progress_message.
    destruct (truthy (of_optional message)) eqn:Em;
      destruct (truthy (PyDict data)) eqn:Ed; cbn;
      (split; [intros H; try discriminate H; apply Hm; reflexivity
              | intros H; apply Hm in H; congruence]).
  - intros s -> Hne. unfold progress_message.
    assert (E : truthy (of_optional (Some s)) = true) by (apply Hm; eauto).
    rewrite E. destruct (truthy (PyDict data)); reflexivity.
  - unfold progress_message.
    destruct (truthy (of_optional message)) eqn:Em;
      destruct (truthy (PyDict data)) eqn:Ed; cbn;
      (split; [intros H; try discriminate H; apply Hd; reflexivity
              | intros H; apply Hd in H; congruence]).
  - unfold log_message. destruct (truthy (PyDict data)); reflexivity.
  - unfold log_message.
    destruct (truthy (PyDict data)) eqn:Ed; cbn;
      (split; [intros H; try discriminate H; apply Hd; reflexivity
              | intros H; apply Hd in H; congruence]).
  - intros Hne. apply Hd in Hne. unfold progress_message, log_message.
    rewrite Hne. destruct (truthy (of_optional message)); split; reflexivity.
  - destruct result; cbn; split; congruence.
  - intros Hne. destruct result; cbn; congruence.
  - unfold fail_message.
    destruct (truthy (of_optional stack)) eqn:Es; cbn;
      (split; [intros H; try discriminate H; apply Hs; reflexivity
              | intros H; apply Hs in H; congruence]).
  - intros s -> Hne. unfold fail_message.
    assert (E : truthy (of_optional (Some s)) = true) by (apply Hs; eauto).
    rewrite E. reflexivity.
  - intros env st m k H1 H2. unfold dict_has.
    rewrite stamped_other by assumption. reflexivity.
Qed.

(** ** Sends while the link is down *)

Lemma send_message_trace env message st :
  exists more,
    trace (world (snd (_send_message env message st)))
    = (trace (world st) ++ more)%list
    /\ no_reconnection_effect more.
Proof.
  unfold no_reconnection_effect.
  send_cases env message st.
  - exists []. rewrite app_nil_r. auto.
  - eexists. split; reflexivity.
  - eexists. split; reflexivity.
  - eexists. split; [reflexivity|]. destruct (spawns (self st)); reflexivity.
Qed.

Lemma send_message_down env message st :
  link_down env st ->
  exists m, fst (_send_message env message st) = Ret (false, m).
Proof.
  unfold link_down. intros Hdown.
  send_cases env message st; eauto.
  match goal with
  | Hs : _socket (self st) = Some _, Ha : sendall_answer _ _ _ _ = None |- _ =>
      rewrite Hs in Hdown; elim (Hdown _ Ha)
  end.
Qed.

(** Against C7 as stated: on a link that is down [progress] and [log]
    return [None], not [False]; the boolean of the send is dropped. *)
Lemma progress_returns_None_while_down :
  link_down refusing_env st_lost
  /\ fst (progress refusing_env (PyInt 60) None [] st_lost) = Ret PyNone
  /\ fst (log refusing_env "info" "still here" [] st_lost) = Ret PyNone
  /\ Ret PyNone <> Ret (PyBool false).
Proof.
  split; [|split; [|split]].
  - intros bytes. vm_compute. discriminate.
  - vm_compute. reflexivity.
  - vm_compute. reflexivity.
  - discriminate.
Qed.

(** C7, amended. While the link is down, [progress] and [log] raise
    nothing and return [None]; the send under them returns false and its
    result is dropped; and neither call waits for a reconnection: what
    they add to the trace has no connect, no sleep and no join in it. *)
Theorem progress_log_while_link_down
    (env : Env) (st : State) (percent : pyval) (message : option string)
    (level text : string) (data : dict) :
  link_down env st ->
  (fst (progress env percent message data st) = Ret PyNone
   /\ (exists m, fst (_send_message env (progress_message percent message data) st)
                 = Ret (false, m))
   /\ exists more,
        trace (world (snd (progress env percent message data st)))
        = (trace (world st) ++ more)%list
        /\ no_reconnection_effect more)
  /\
  (fst (log env level text data st) = Ret PyNone
   /\ (exists m, fst (_send_message env (log_message level text data) st)
                 = Ret (false, m))
   /\ exists more,
        trace (world (snd (log env level text data st)))
        = (trace (world st) ++ more)%list
        /\ no_reconnection_effect more).
Proof.
  intros Hdown. split.
  - pose proof (@send_message_down env (progress_message percent message data) st Hdown)
      as [m Hm].
    pose proof (send_message_trace env (progress_message percent message data) st)
      as (more & Ht & Hmore).
    unfold progress, bind, ret.
    destruct (_send_message env (progress_message percent message data) st)
      as [r st'].
    cbn [fst snd] in *. subst r. cbn. eauto 6.
  - pose proof (@send_message_down env (log_message level text data) st Hdown)
      as [m Hm].
    pose proof (send_message_trace env (log_message level text data) st)
      as (more & Ht & Hmore).
    unfold log, bind, ret.
    destruct (_send_message env (log_message level text data) st) as [r st'].
    cbn [fst snd] in *. subst r. cbn. eauto 6.
Qed.

(** C7, amended, in the scenario. *)
Lemma progress_log_while_link_down_witness :
  link_down refusing_env st_lost
  /\ fst (progress refusing_env (PyInt 60) None [] st_lost) = Ret PyNone.
Proof.
  assert (H : link_down refusing_env st_lost).
  { intros bytes. vm_compute. discriminate. }
  split; [exact H|].
  exact (proj1 (proj1 (@progress_log_while_link_down refusing_env st_lost
                         (PyInt 60) None "info" "still here" [] H))).
Defined.

(** ** Payloads the encoder refuses *)

Lemma dict_get_unencodable (d : dict) k v :
  dict_get d k = Some v -> encodable v = false -> encodable (PyDict d) = false.
Proof.
  cbn [encodable]. induction d as [|[k' v'] rest IH]; cbn; intros Hget Hv.
  - discriminate.
  - destruct (String.eqb k' k).
    + inversion Hget; subst. rewrite Hv. reflexivity.
    + rewrite (IH Hget Hv). apply andb_false_r.
Qed.

Lemma stamped_unencodable env st message k v :
  k <> "jobId" -> k <> "timestamp" ->
  dict_get message k = Some v -> encodable v = false ->
  encodable (PyDict (stamped env st message)) = false.
Proof.
  intros H1 H2 Hget Hv. apply dict_get_unencodable with (k := k) (v := v).
  - rewrite stamped_other by assumption. exact Hget.
  - exact Hv.
Qed.

(** Against C5 as stated: the send path does not raise on a cyclic
    payload. [_send_message] returns false and [complete] returns
    [None], after a line on stderr. *)
Lemma cyclic_payload_is_not_raised :
  json_dumps cyclic_list = Raise (Exn ValueError "Circular reference detected")
  /\ (exists m, fst (_send_message refusing_env (complete_message cyclic_list)
                       st_connected) = Ret (false, m))
  /\ fst (complete refusing_env cyclic_list st_connected) = Ret PyNone
  /\ trace (world (snd (complete refusing_env cyclic_list st_connected)))
     = (trace (world st_connected)
        ++ [Stderr "[DonkeylabsJob] Failed to send message: Circular reference detected"])%list.
Proof.
  split; [reflexivity|]. split; [eexists; vm_compute; reflexivity|].
  split; vm_compute; reflexivity.
Qed.

(** C5, amended. The encoder raises on no value free of cycles and of
    foreign objects. For a message it cannot encode, the send path does
    not raise: the exception is caught, a line is written to stderr,
    nothing is handed to the transport (so nothing truncated either),
    the object is left as it was (not marked disconnected, no
    reconnection started) and false is returned; [complete] with such a
    result returns [None]. *)
Theorem unencodable_payload_is_caught
    (env : Env) (message : dict) (st : State) (sock : socket) :
  (forall v, encodable v = true -> exists text, json_dumps v = Ret text)
  /\ (_socket (self st) = Some sock ->
      encodable (PyDict (stamped env st message)) = false ->
      exists e,
        json_dumps (PyDict (stamped env st message)) = Raise e
        /\ encoder_error e
        /\ _send_message env message st
           = (Ret (false, stamped env st message),
              mkState (self st)
                (world_after_send (world st)
                   [Stderr ("[DonkeylabsJob] Failed to send message: "
                            ++ str_exn e)] 0)))
  /\ (forall result,
        _socket (self st) = Some sock ->
        encodable result = false ->
        exists e,
          encoder_error e
          /\ complete env result st
             = (Ret PyNone,
                mkState (self st)
                  (world_after_send (world st)
                     [Stderr ("[DonkeylabsJob] Failed to send message: "
                              ++ str_exn e)] 0))).
Proof.
  assert (G : forall m, _socket (self st) = Some sock ->
      encodable (PyDict (stamped env st m)) = false ->
      exists e,
        json_dumps (PyDict (stamped env st m)) = Raise e
        /\ encoder_error e
        /\ _send_message env m st
           = (Ret (false, stamped env st m),
              mkState (self st)
                (world_after_send (world st)
                   [Stderr ("[DonkeylabsJob] Failed to send message: "
                            ++ str_exn e)] 0))).
  { intros m Hsock Henc.
    destruct (json_dumps_unencodable _ Henc) as [e He].
    exists e. split; [exact He|]. split; [exact (json_dumps_raises _ He)|].
    send_cases env m st; congruence. }
  split; [exact json_dumps_encodable|]. split; [apply G|].
  intros result Hsock Hres.
  assert (Hm : encodable (PyDict (stamped env st (complete_message result))) = false).
  { apply stamped_unencodable with (k := "result") (v := result);
      try discriminate; [|exact Hres].
    destruct result; try reflexivity. discriminate Hres. }
  destruct (G _ Hsock Hm) as (e & _ & Herr & Hsend).
  exists e. split; [exact Herr|].
  unfold complete, bind, ret. rewrite Hsend. reflexivity.
Qed.

(** ** How [connect] on the socket ends *)

(** The three ways [self._socket.connect(address)] ends: without a
    socket, with a port refused before the socket is asked, and with
    the request made and answered. *)
Lemma socket_connect_self_cases env to st :
  (_socket (self st) = None
   /\ socket_connect_self env to st
      = (Raise (Exn AttributeError "'NoneType' object has no attribute 'connect'"),
         st))
  \/ ((exists host port,
          to = TcpAddress host port /\ (port < 0 \/ 65535 < port)%Z)
      /\ socket_connect_self env to st
         = (Raise (Exn OverflowError "connect(): port must be 0-65535."), st))
  \/ exists sock answer,
       _socket (self st) = Some sock
       /\ (state sock = SockNew -> answer = socket_connect env (connects (world st)) to)
       /\ (state sock <> SockNew -> answer <> None)
       /\ socket_connect_self env to st
          = (match answer with
             | None => Ret tt
             | Some err => Raise (exn_of_errno err)
             end,
             mkState
               (match answer with
                | None =>
                    set__socket
                      (Some (Socket (fileno sock) (sock_family sock) SockConnected))
                      (self st)
                | Some _ => self st
                end)
               (mkWorld (trace (world st)
                         ++ [SocketConnect (fileno sock) to answer])%list
                        (clock_reads (world st)) (sockets_made (world st))
                        (S (connects (world st))) (sends (world st)))).
Proof.
  unfold socket_connect_self.
  destruct (_socket (self st)) as [sock|]; [|left; split; reflexivity].
  right.
  match goal with |- context [if ?b then _ else _] => destruct b eqn:Eo end.
  { left. split; [|reflexivity].
    destruct to as [host port|path]; [|discriminate Eo].
    exists host, port. split; [reflexivity|].
    unfold fits_c_int in Eo. apply negb_true_iff in Eo.
    apply andb_false_iff in Eo. destruct Eo as [Eo|Eo].
    - apply Z.leb_gt in Eo. lia.
    - apply Z.ltb_ge in Eo. lia. }
  destruct (lookup_error env to (connects (world st))) as [err|] eqn:El.
  - right. exists sock, (Some err). split; [reflexivity|]. split.
    + intros _. revert El. unfold lookup_error.
      destruct to as [host port|path]; [|discriminate].
      destruct (socket_connect env (connects (world st)) (TcpAddress host port))
        as [[]|]; intros H; inversion H; reflexivity.
    + split; [discriminate|reflexivity].
  - match goal with |- context [if ?b then _ else _] => destruct b eqn:Eb end.
    { left. split; [|reflexivity].
      destruct to as [host port|path]; [|discriminate Eb].
      exists host, port. split; [reflexivity|].
      apply negb_true_iff in Eb. apply andb_false_iff in Eb.
      destruct Eb as [Eb|Eb]; apply Z.leb_gt in Eb; lia. }
    right. exists sock.
    destruct (state sock) eqn:Es.
    + exists (socket_connect env (connects (world st)) to).
      split; [reflexivity|]. split; [reflexivity|]. split; [congruence|].
      destruct (socket_connect env (connects (world st)) to); reflexivity.
    + exists (Some EIO). split; [reflexivity|]. split; [discriminate|].
      split; [discriminate|reflexivity].
    + exists (Some EBADF). split; [reflexivity|]. split; [discriminate|].
      split; [discriminate|reflexivity].
Qed.

(** ** Attributes a method leaves alone *)

Section Frame.

Context {T : Type} (f : Job -> T).

Lemma keeps_ret {A} (a : A) : keeps f (ret a).
Proof. intros st. reflexivity. Qed.

Lemma keeps_raise {A} e : keeps f (@raise A e).
Proof. intros st. reflexivity. Qed.

Lemma keeps_get_self : keeps f get_self.
Proof. intros st. reflexivity. Qed.

Lemma keeps_do_effect e : keeps f (do_effect e).
Proof. intros st. reflexivity. Qed.

Lemma keeps_time_sleep q : keeps f (time_sleep q).
Proof. intros st. unfold time_sleep. destruct (Qle_bool 0 q); reflexivity. Qed.

Lemma keeps_bind {A B} (m : M A) (k : A -> M B) :
  keeps f m -> (forall a, keeps f (k a)) -> keeps f (bind m k).
Proof.
  intros Hm Hk st. unfold bind. specialize (Hm st).
  destruct (m st) as [[a|e] st1]; cbn [snd] in *.
  - rewrite Hk. exact Hm.
  - exact Hm.
Qed.

Lemma keeps_try_except {A} (m : M A) (h : exn -> M A) :
  keeps f m -> (forall e, keeps f (h e)) -> keeps f (try_except m h).
Proof.
  intros Hm Hh st. unfold try_except. specialize (Hm st).
  destruct (m st) as [[a|e] st1]; cbn [snd] in *.
  - exact Hm.
  - rewrite Hh. exact Hm.
Qed.

Lemma keeps_try_finally {A} (m : M A) (final : M unit) :
  keeps f m -> keeps f final -> keeps f (try_finally m final).
Proof.
  intros Hm Hf st. unfold try_finally. specialize (Hm st).
  destruct (m st) as [r st1]. specialize (Hf st1).
  destruct (final st1) as [[u|e] st2]; cbn [snd] in *; congruence.
Qed.

Lemma keeps_update (g : Job -> Job) :
  (forall j, f (g j) = f j) -> keeps f (update_self g).
Proof. intros Hg st. cbn. apply Hg. Qed.

Hypothesis f_socket : forall v j, f (set__socket v j) = f j.
Hypothesis f_connected : forall v j, f (set__connected v j) = f j.
Hypothesis f_reconnect_thread : forall v j, f (set__reconnect_thread v j) = f j.

Variable env : Env.

Lemma keeps_new_socket fam : keeps f (new_socket env fam).
Proof.
  intros st. unfold new_socket.
  destruct (socket_socket env (sockets_made (world st))); reflexivity.
Qed.

Lemma keeps_socket_connect_self to : keeps f (socket_connect_self env to).
Proof.
  intros st.
  destruct (socket_connect_self_cases env to st)
    as [[_ ->]|[[_ ->]|(sock & answer & _ & _ & _ & ->)]]; try reflexivity.
  destruct answer; cbn [snd self]; [reflexivity|apply f_socket].
Qed.

Lemma keeps_close_socket_quietly : keeps f (close_socket_quietly).
Proof.
  intros st. unfold close_socket_quietly.
  destruct (_socket (self st)); cbn [snd self]; [apply f_socket|reflexivity].
Qed.

Lemma keeps__do_connect : keeps f (_do_connect env).
Proof.
  unfold _do_connect. apply keeps_bind; [apply keeps_get_self|]. intros j.
  destruct (_socket_path j); try apply keeps_raise.
  destruct (prefix "tcp://" s).
  - destruct (rsplit_colon (drop_prefix 6 s)) as [[host port]|];
      [|apply keeps_raise].
    apply keeps_bind; [apply keeps_new_socket|]. intros sock.
    apply keeps_bind; [apply keeps_update; intros; apply f_socket|]. intros _.
    destruct (int_of_str port); [apply keeps_socket_connect_self|apply keeps_raise].
  - apply keeps_bind; [apply keeps_new_socket|]. intros sock.
    apply keeps_bind; [apply keeps_update; intros; apply f_socket|]. intros _.
    apply keeps_socket_connect_self.
Qed.

Lemma keeps__send_message message : keeps f (_send_message env message).
Proof.
  intros st. send_cases env message st; try reflexivity.
  unfold self_after_failure. destruct (spawns (self st)).
  - rewrite f_reconnect_thread. apply f_connected.
  - apply f_connected.
Qed.

Lemma keeps__send_started : keeps f (_send_started env).
Proof.
  unfold _send_started. apply keeps_bind; [apply keeps__send_message|].
  intros. apply keeps_ret.
Qed.

Lemma keeps_reconnect_attempts todo : forall attempt,
  keeps f (reconnect_attempts env todo attempt).
Proof.
  induction todo as [|todo IH]; intros attempt; cbn [reconnect_attempts].
  - apply keeps_bind; [apply keeps_get_self|]. intros j.
    apply keeps_bind; [apply keeps_do_effect|]. intros. apply keeps_ret.
  - apply keeps_try_except.
    + apply keeps_bind; [apply keeps_close_socket_quietly|]. intros _.
      apply keeps_bind; [apply keeps__do_connect|]. intros _.
      apply keeps_bind; [apply keeps_update; intros; apply f_connected|].
      intros _.
      apply keeps_bind; [apply keeps_do_effect|]. intros _.
      apply keeps_bind; [apply keeps__send_started|]. intros _.
      apply keeps_ret.
    + intros e. destruct (isinstance e [Exception]); [|apply keeps_raise].
      apply keeps_bind; [apply keeps_get_self|]. intros j.
      apply keeps_bind; [apply keeps_do_effect|]. intros _.
      apply keeps_bind; [apply keeps_time_sleep|]. intros _.
      apply IH.
Qed.

Lemma keeps__try_reconnect : keeps f (_try_reconnect env).
Proof.
  unfold _try_reconnect. apply keeps_bind; [apply keeps_get_self|]. intros j.
  destruct (_connected j); [apply keeps_ret|].
  apply keeps_bind; [apply keeps_do_effect|]. intros _.
  apply keeps_reconnect_attempts.
Qed.

Lemma keeps__reconnect_loop : keeps f (_reconnect_loop env).
Proof.
  unfold _reconnect_loop. apply keeps_bind; [apply keeps__try_reconnect|].
  intros ok. apply keeps_bind.
  - destruct ok; apply keeps_do_effect.
  - intros _. apply keeps_update. intros; apply f_reconnect_thread.
Qed.

Lemma keeps_heartbeat_loop rounds : keeps f (heartbeat_loop env rounds).
Proof.
  induction rounds as [|rounds IH]; cbn [heartbeat_loop]; [apply keeps_ret|].
  apply keeps_bind; [apply keeps_get_self|]. intros j.
  destruct (_running j); [|apply keeps_ret].
  apply keeps_bind; [apply keeps__send_message|]. intros _.
  apply keeps_bind; [apply keeps_time_sleep|]. intros _. exact IH.
Qed.

Lemma keeps_progress percent message data :
  keeps f (progress env percent message data).
Proof.
  unfold progress. apply keeps_bind; [apply keeps__send_message|].
  intros. apply keeps_ret.
Qed.

Lemma keeps_log level message data : keeps f (log env level message data).
Proof.
  unfold log. apply keeps_bind; [apply keeps__send_message|].
  intros. apply keeps_ret.
Qed.

Lemma keeps_complete result : keeps f (complete env result).
Proof.
  unfold complete. apply keeps_bind; [apply keeps__send_message|].
  intros. apply keeps_ret.
Qed.

Lemma keeps_fail error stack : keeps f (fail env error stack).
Proof.
  unfold fail. apply keeps_bind; [apply keeps__send_message|].
  intros. apply keeps_ret.
Qed.

Hypothesis f_running : forall v j, f (set__running v j) = f j.
Hypothesis f_heartbeat_thread : forall v j, f (set__heartbeat_thread v j) = f j.

Lemma keeps_connect : keeps f (connect env).
Proof.
  unfold connect, _start_heartbeat.
  apply keeps_bind; [apply keeps__do_connect|]. intros _.
  apply keeps_bind; [apply keeps_update; intros; apply f_running|]. intros _.
  apply keeps_bind; [apply keeps_update; intros; apply f_connected|]. intros _.
  apply keeps_bind.
  - apply keeps_bind; [apply keeps_update; intros; apply f_heartbeat_thread|].
    intros _. apply keeps_do_effect.
  - intros _. apply keeps__send_started.
Qed.

Lemma keeps_disconnect : keeps f (disconnect).
Proof.
  unfold disconnect.
  apply keeps_bind; [apply keeps_update; intros; apply f_running|]. intros _.
  apply keeps_bind; [apply keeps_get_self|]. intros j.
  apply keeps_bind.
  - destruct (_heartbeat_thread j); [apply keeps_do_effect|apply keeps_ret].
  - intros _. apply keeps_close_socket_quietly.
Qed.

End Frame.

(** ** Job id and timestamp on the wire *)

(** For a time that is not negative, [int(t * 1000)] is the number of
    whole milliseconds in [t] seconds. *)
Lemma int_of_Q_milliseconds (t : Q) :
  (0 <= t)%Q ->
  (inject_Z (int_of_Q (t * 1000)) <= t * 1000)%Q
  /\ (t * 1000 < inject_Z (int_of_Q (t * 1000) + 1))%Q.
Proof.
  intros Ht.
  assert (Hpos : (0 <= t * 1000)%Q).
  { apply Qmult_le_0_compat; [exact Ht|]. discriminate. }
  assert (E : int_of_Q (t * 1000) = Qfloor (t * 1000)).
  { unfold int_of_Q. destruct (t * 1000)%Q as [n d] eqn:Eq. cbn.
    apply Z.quot_div_nonneg; [|reflexivity].
    unfold Qle in Hpos. cbn in Hpos. lia. }
  rewrite E. split; [apply Qfloor_le|apply Qlt_floor].
Qed.

(** The job [run_job] constructs has the job id of the payload, or the
    one of the environment when the payload has none; and it has one. *)
Lemma read_job_job_id env hb w j :
  read_job env hb w = Constructed j ->
  truthy (job_id j) = true
  /\ exists d,
       json_loads env (sys_stdin_readline env) = Some (PyDict d)
       /\ (forall v, dict_get d "jobId" = Some v -> truthy v = true ->
                     job_id j = v)
       /\ (missing (dict_get d "jobId") ->
           job_id j = of_optional (os_environ_get env "DONKEYLABS_JOB_ID")).
Proof.
  unfold read_job.
  destruct (negb (truthy (PyStr (sys_stdin_readline env)))); [discriminate|].
  destruct (json_loads env (sys_stdin_readline env)) as [payload|];
    [|discriminate].
  destruct payload as [| | | | | |d| |]; try discriminate.
  unfold payload_get.
  set (id := match dict_get d "jobId" with Some v => Ret v | None => Ret PyNone end).
  assert (Hid : exists v1, id = Ret v1
                  /\ (forall v, dict_get d "jobId" = Some v -> v1 = v)
                  /\ (missing (dict_get d "jobId") -> truthy v1 = false)).
  { unfold id, missing. destruct (dict_get d "jobId") as [v|].
    - exists v. repeat split; congruence.
    - exists PyNone. repeat split; congruence. }
  destruct Hid as (v1 & -> & Hsome & Hmiss).
  destruct (dict_get d "name"), (dict_get d "data"), (dict_get d "socketPath");
    (match goal with
     | |- context [if (negb (truthy ?i) || _)%bool then _ else _] =>
         destruct (truthy i) eqn:Eid; cbn [negb orb]
     end; [|discriminate];
     match goal with
     | |- context [if negb ?b then _ else _] => destruct (negb b)
     end; [discriminate|];
     intros H; inversion H; cbn [__init__ job_id];
     split; [exact Eid|]; exists d; split; [reflexivity|]; split;
     [ intros v Hv Ht; rewrite (Hsome v Hv) in *; rewrite Ht; reflexivity
     | intros Hm; rewrite (Hmiss Hm); reflexivity ]).
Qed.

(** C9. What a send hands to the transport is the frame of the stamped
    message, and the stamped message has the object's job id under
    [jobId], the clock reading in whole milliseconds under [timestamp],
    and the [type] the caller gave; the events the module builds all
    have a [type]. The job id is the one given to the constructor: no
    method changes it; and [run_job] gives the constructor the job id
    of the handshake (the payload's, else the environment's) and
    constructs no job without one. *)
Theorem sent_events_carry_job_id_and_timestamp
    (env : Env) (message : dict) (st : State) :
  let r := _send_message env message st in
  let m := stamped env st message in
  let t := time_time env (clock_reads (world st)) in
  (exists more,
      trace (world (snd r)) = (trace (world st) ++ more)%list
      /\ forall fd bytes res,
           In (SocketSendall fd bytes res) more ->
           exists text,
             json_dumps (PyDict m) = Ret text /\ bytes = frame_of text)
  /\ dict_get m "jobId" = Some (job_id (self st))
  /\ dict_get m "timestamp" = Some (PyInt (int_of_Q (t * 1000)))
  /\ ((0 <= t)%Q ->
      (inject_Z (int_of_Q (t * 1000)) <= t * 1000)%Q
      /\ (t * 1000 < inject_Z (int_of_Q (t * 1000) + 1))%Q)
  /\ dict_get m "type" = dict_get message "type"
  /\ (forall percent msg data level text result error stack,
        dict_get (progress_message percent msg data) "type" = Some (PyStr "progress")
        /\ dict_get (log_message level text data) "type" = Some (PyStr "log")
        /\ dict_get (complete_message result) "type" = Some (PyStr "completed")
        /\ dict_get (fail_message error stack) "type" = Some (PyStr "failed")
        /\ _send_started env st
           = (let (_, st') := _send_message env [("type", PyStr "started")] st in
              (Ret tt, st')))
  /\ (forall id n d p hb ri mx, job_id (__init__ id n d p hb ri mx) = id)
  /\ job_id (self (snd r)) = job_id (self st)
  /\ (forall percent msg data level text result error stack rounds,
        keeps job_id (connect env) /\ keeps job_id (_reconnect_loop env)
        /\ keeps job_id (heartbeat_loop env rounds)
        /\ keeps job_id (progress env percent msg data)
        /\ keeps job_id (log env level text data)
        /\ keeps job_id (complete env result)
        /\ keeps job_id (fail env error stack)
        /\ keeps job_id disconnect)
  /\ (forall hb w j,
        read_job env hb w = Constructed j ->
        truthy (job_id j) = true
        /\ exists d,
             json_loads env (sys_stdin_readline env) = Some (PyDict d)
             /\ (forall v, dict_get d "jobId" = Some v -> truthy v = true ->
                           job_id j = v)
             /\ (missing (dict_get d "jobId") ->
                 job_id j
                 = of_optional (os_environ_get env "DONKEYLABS_JOB_ID"))).
Proof.
  cbv zeta.
  repeat match goal with |- _ /\ _ => split end.
  - send_cases env message st.
    + exists []. rewrite app_nil_r. split; [reflexivity|]. intros ? ? ? [].
    + eexists. split; [reflexivity|]. intros fd bytes res [Hin|[]].
      discriminate Hin.
    + eexists. split; [reflexivity|]. intros fd bytes res [Hin|[]].
      inversion Hin; subst. eauto.
    + eexists. split; [reflexivity|]. intros fd bytes res Hin.
      apply in_app_or in Hin. destruct Hin as [[Hin|[Hin|[]]]|Hin].
      * inversion Hin; subst. eauto.
      * discriminate Hin.
      * destruct (spawns (self st)); [destruct Hin as [Hin|[]]; discriminate Hin
                                     |destruct Hin].
  - apply stamped_job_id.
  - apply stamped_timestamp.
  - apply int_of_Q_milliseconds.
  - apply stamped_other; discriminate.
  - intros percent msg data level text result error stack.
    repeat match goal with |- _ /\ _ => split end.
    + unfold progress_message.
      destruct (truthy (of_optional msg)), (truthy (PyDict data)); reflexivity.
    + unfold log_message. destruct (truthy (PyDict data)); reflexivity.
    + destruct result; reflexivity.
    + unfold fail_message. destruct (truthy (of_optional stack)); reflexivity.
    + unfold _send_started, bind, ret.
      send_cases env [("type", PyStr "started")] st; reflexivity.
  - reflexivity.
  - apply (keeps__send_message job_id); reflexivity.
  - intros. repeat match goal with |- _ /\ _ => split end.
    + apply keeps_connect; reflexivity.
    + apply keeps__reconnect_loop; reflexivity.
    + apply keeps_heartbeat_loop; reflexivity.
    + apply keeps_progress; reflexivity.
    + apply keeps_log; reflexivity.
    + apply keeps_complete; reflexivity.
    + apply keeps_fail; reflexivity.
    + apply keeps_disconnect; reflexivity.
  - intros hb w j. apply read_job_job_id.
Qed.

(** ** The exit status of [run_job] *)

Lemma send_message_returns env message st :
  exists b m st', _send_message env message st = (Ret (b, m), st').
Proof. send_cases env message st; eauto. Qed.

Lemma complete_returns env result st :
  exists st', complete env result st = (Ret PyNone, st').
Proof.
  unfold complete, bind, ret.
  destruct (send_message_returns env (complete_message result) st)
    as (b & m & st' & ->). eauto.
Qed.

Lemma fail_returns env error stack st :
  exists st', fail env error stack st = (Ret PyNone, st').
Proof.
  unfold fail, bind, ret.
  destruct (send_message_returns env (fail_message error stack) st)
    as (b & m & st' & ->). eauto.
Qed.

Lemma close_socket_quietly_returns st :
  exists st', close_socket_quietly st = (Ret tt, st').
Proof. unfold close_socket_quietly. destruct (_socket (self st)); eauto. Qed.

Lemma disconnect_returns st : exists st', disconnect st = (Ret tt, st').
Proof.
  unfold disconnect, bind, update_self, get_self. cbn [self].
  destruct (_heartbeat_thread (set__running false (self st)));
    unfold do_effect, ret; apply close_socket_quietly_returns.
Qed.

Lemma truthy_unset o : unset o -> truthy (of_optional o) = false.
Proof. intros [-> | ->]; reflexivity. Qed.

Lemma payload_get_dict d k :
  exists v, payload_get (PyDict d) k = Ret v
            /\ (missing (dict_get d k) -> truthy v = false).
Proof.
  unfold payload_get, missing. destruct (dict_get d k) as [v|]; eauto.
Qed.

(** C8. [run_job] ends with status 0 when the handler returns and with
    status 1 when the handler raises; and it ends with status 1, with no
    job constructed and nothing done but a line on stderr (so no
    connection attempted), when there is no input line, when the line
    does not parse, and when the job id or the connection target is in
    neither the payload nor the environment. *)
Theorem run_job_exit_status
    (env : Env) (handler : M pyval) (hb : option Q) (w : World) :
  (forall j st1 v st2,
      read_job env hb w = Constructed j ->
      connect env (mkState j w) = (Ret tt, st1) ->
      handler st1 = (Ret v, st2) ->
      exit_status (ended (run_job env handler hb w)) = 0%Z)
  /\ (forall j st1 e st2,
        read_job env hb w = Constructed j ->
        connect env (mkState j w) = (Ret tt, st1) ->
        handler st1 = (Raise e, st2) ->
        isinstance e [Exception] = true ->
        exit_status (ended (run_job env handler hb w)) = 1%Z)
  /\ (sys_stdin_readline env = "" -> failed_fast w (run_job env handler hb w))
  /\ (json_loads env (sys_stdin_readline env) = None ->
      failed_fast w (run_job env handler hb w))
  /\ (forall d,
        json_loads env (sys_stdin_readline env) = Some (PyDict d) ->
        (missing (dict_get d "jobId")
         /\ unset (os_environ_get env "DONKEYLABS_JOB_ID"))
        \/ (missing (dict_get d "socketPath")
            /\ unset (os_environ_get env "DONKEYLABS_SOCKET_PATH")
            /\ unset (os_environ_get env "DONKEYLABS_TCP_PORT")) ->
        failed_fast w (run_job env handler hb w)).
Proof.
  assert (Hdie : forall line, failed_fast w (die line w)).
  { intros line. unfold failed_fast, die. cbn. eauto. }
  repeat match goal with |- _ /\ _ => split end.
  - intros j st1 v st2 Hread Hconn Hh. unfold run_job. rewrite Hread.
    unfold run_handler, try_finally, try_except, bind. rewrite Hconn, Hh.
    destruct (complete_returns env v st2) as [st3 ->]. unfold ret.
    destruct (disconnect_returns st3) as [st4 ->]. reflexivity.
  - intros j st1 e st2 Hread Hconn Hh He. unfold run_job. rewrite Hread.
    unfold run_handler, try_finally, try_except, bind. rewrite Hconn, Hh, He.
    destruct (fail_returns env (str_exn e) (Some (traceback_format_exc env e)) st2)
      as [st3 ->]. unfold raise.
    destruct (disconnect_returns st3) as [st4 ->]. reflexivity.
  - intros Hline. unfold run_job, read_job. rewrite Hline. cbn. apply Hdie.
  - intros Hparse. unfold run_job, read_job. rewrite Hparse.
    destruct (negb (truthy (PyStr (sys_stdin_readline env)))); apply Hdie.
  - intros d Hparse Hmiss. unfold run_job, read_job. rewrite Hparse.
    destruct (negb (truthy (PyStr (sys_stdin_readline env)))); [apply Hdie|].
    destruct (payload_get_dict d "jobId") as (v1 & -> & H1).
    destruct (payload_get_dict d "name") as (v2 & -> & _).
    destruct (payload_get_dict d "data") as (v3 & -> & _).
    destruct (payload_get_dict d "socketPath") as (v4 & -> & H4).
    destruct Hmiss as [[Hid Henv] | (Hpath & Hsock & Hport)].
    + rewrite (H1 Hid). cbn [negb]. rewrite (truthy_unset Henv).
      cbn [negb orb]. apply Hdie.
    + rewrite (H4 Hpath). cbn [negb].
      rewrite (truthy_unset Hsock), (truthy_unset Hport). cbn [negb andb].
      rewrite (truthy_unset Hsock). cbn [negb].
      rewrite orb_true_r. apply Hdie.
Qed.

(** A handler that returns: started and completed are sent, the link is
    closed, the status is 0. *)
Example run_job_handler_returns :
  let r := run_job responsive_env
             (ret (PyDict [("processed", PyBool true); ("steps", PyInt 2)]))
             None World0 in
  exit_status (ended r) = 0%Z
  /\ trace (after r)
     = [SocketCreate 0 AF_UNIX None;
        SocketConnect 0 (UnixPath "/tmp/x.sock") None;
        ThreadStart heartbeat_loop_target;
        SocketSendall 0
          (wire [("type", PyStr "started"); ("jobId", PyStr "j1");
                 ("timestamp", PyInt 1700000000123)]) None;
        SocketSendall 0
          (wire [("type", PyStr "completed");
                 ("result", PyDict [("processed", PyBool true);
                                    ("steps", PyInt 2)]);
                 ("jobId", PyStr "j1"); ("timestamp", PyInt 1700000000123)])
          None;
        ThreadJoin heartbeat_loop_target (2 # 1);
        SocketClose 0].
Proof. split; vm_compute; reflexivity. Qed.

(** A handler that raises: a failed event with the message and the
    stack is sent, the link is closed, the status is 1. *)
Example run_job_handler_raises :
  let r := run_job responsive_env (raise (Exn ValueError "boom")) None World0 in
  exit_status (ended r) = 1%Z
  /\ trace (after r)
     = [SocketCreate 0 AF_UNIX None;
        SocketConnect 0 (UnixPath "/tmp/x.sock") None;
        ThreadStart heartbeat_loop_target;
        SocketSendall 0
          (wire [("type", PyStr "started"); ("jobId", PyStr "j1");
                 ("timestamp", PyInt 1700000000123)]) None;
        SocketSendall 0
          (wire [("type", PyStr "failed"); ("error", PyStr "boom");
                 ("stack", PyStr "Traceback (most recent call last): boom");
                 ("jobId", PyStr "j1"); ("timestamp", PyInt 1700000000123)])
          None;
        ThreadJoin heartbeat_loop_target (2 # 1);
        SocketClose 0].
Proof. split; vm_compute; reflexivity. Qed.

(** No line on stdin: one line on stderr, no job, status 1. *)
Example run_job_without_input :
  run_job refusing_env (ret PyNone) None World0
  = mkRun (Raise (Exit 1)) None
      (mkWorld [Stderr "No payload received on stdin"] 0 0 0 0).
Proof. reflexivity. Qed.

(** The job id and the socket path come from the environment when the
    payload has neither. *)
Example read_job_environment_fallback :
  read_job
    {| time_time := fun _ => 0%Q;
       socket_socket := fun _ => None;
       socket_connect := fun _ _ => None;
       socket_sendall := fun _ _ => None;
       traceback_format_exc := str_exn;
       json_loads := fun _ => Some (PyDict [("name", PyStr "demo")]);
       os_environ_get := fun k =>
         if String.eqb k "DONKEYLABS_JOB_ID" then Some "j7"
         else if String.eqb k "DONKEYLABS_TCP_PORT" then Some "9000"
         else None;
       sys_stdin_readline := "{...}" |} None World0
  = Constructed
      (__init__ (PyStr "j7") (PyStr "demo") PyNone
                (PyStr "tcp://127.0.0.1:9000") None None None).
Proof. reflexivity. Qed.

(** ** The reconnection procedure *)

(** Whatever [_do_connect] raises is an [Exception]. *)
Lemma _do_connect_raises env st e st' :
  _do_connect env st = (Raise e, st') -> isinstance e [Exception] = true.
Proof.
  assert (Hconn : forall to s s', socket_connect_self env to s = (Raise e, s') ->
                                  isinstance e [Exception] = true).
  { intros to s s'.
    destruct (socket_connect_self_cases env to s)
      as [[_ ->]|[[_ ->]|(sock & answer & _ & _ & _ & ->)]];
      try (intros H; inversion H; reflexivity).
    destruct answer as [err|]; intros H; inversion H.
    apply errno_is_Exception. }
  assert (Hnew : forall fam s s', new_socket env fam s = (Raise e, s') ->
                                  isinstance e [Exception] = true).
  { intros fam s s'. unfold new_socket.
    destruct (socket_socket env (sockets_made (world s))) as [err|];
      intros H; inversion H. apply errno_is_Exception. }
  unfold _do_connect, bind, get_self. cbn [self].
  destruct (_socket_path (self st)); try (intros H; inversion H; reflexivity).
  destruct (prefix "tcp://" s).
  - destruct (rsplit_colon (drop_prefix 6 s)) as [[host port]|].
    2: { intros H; inversion H; reflexivity. }
    destruct (new_socket env AF_INET st) as [[sock|e0] st0] eqn:En.
    2: { intros H; inversion H; subst. eapply Hnew; eassumption. }
    unfold update_self.
    destruct (int_of_str port).
    + apply Hconn.
    + intros H; inversion H; reflexivity.
  - destruct (new_socket env AF_UNIX st) as [[sock|e0] st0] eqn:En.
    2: { intros H; inversion H; subst. eapply Hnew; eassumption. }
    unfold update_self. apply Hconn.
Qed.

Lemma attempt_connect_raises env st e st' :
  attempt_connect env st = (Raise e, st') -> isinstance e [Exception] = true.
Proof.
  unfold attempt_connect, bind.
  destruct (close_socket_quietly_returns st) as [st0 ->].
  apply _do_connect_raises.
Qed.

Lemma _send_started_returns env st :
  exists st', _send_started env st = (Ret tt, st').
Proof.
  unfold _send_started, bind, ret.
  destruct (send_message_returns env [("type", PyStr "started")] st)
    as (b & m & st' & ->). eauto.
Qed.

Lemma time_sleep_nonneg q : (0 <= q)%Q -> time_sleep q = do_effect (Sleep q).
Proof.
  intros Hq. unfold time_sleep.
  destruct (Qle_bool 0 q) eqn:E; [reflexivity|].
  apply Qle_bool_iff in Hq. congruence.
Qed.

Lemma attempt_then {A} env (rest : M A) st :
  (close_socket_quietly ;; _do_connect env ;; rest) st
  = (attempt_connect env ;; rest) st.
Proof.
  unfold attempt_connect, bind.
  destruct (close_socket_quietly st) as [[[]|e] st0]; reflexivity.
Qed.

(** The loop of the code and its reading by outcome agree, from any
    state and any attempt number. *)
Lemma reconnect_attempts_by_outcome env todo : forall attempt st,
  (0 <= _reconnect_interval (self st))%Q ->
  reconnect_attempts env todo attempt st
  = attempts_by_outcome env (_reconnect_interval (self st))
      (_max_reconnect_attempts (self st)) todo attempt st.
Proof.
  induction todo as [|todo IH]; intros attempt st Hq.
  - reflexivity.
  - cbn [reconnect_attempts attempts_by_outcome].
    unfold try_except at 1. rewrite attempt_then.
    assert (Hi : _reconnect_interval (self (snd (attempt_connect env st)))
                 = _reconnect_interval (self st)).
    { unfold attempt_connect. apply keeps_bind.
      - apply keeps_close_socket_quietly. reflexivity.
      - intros. apply keeps__do_connect. reflexivity. }
    assert (Hm : _max_reconnect_attempts (self (snd (attempt_connect env st)))
                 = _max_reconnect_attempts (self st)).
    { unfold attempt_connect. apply keeps_bind.
      - apply keeps_close_socket_quietly. reflexivity.
      - intros. apply keeps__do_connect. reflexivity. }
    unfold bind at 1.
    destruct (attempt_connect env st) as [[[]|e] st1] eqn:Ea; cbn [snd] in Hi, Hm.
    + unfold bind, update_self, print_stderr, do_effect. cbn [self world].
      match goal with
      | |- context [_send_started env ?s] =>
          destruct (_send_started_returns env s) as [st2 ->]
      end.
      reflexivity.
    + rewrite (@attempt_connect_raises env st e st1 Ea).
      unfold bind, get_self, print_stderr, do_effect. cbn [self world].
      rewrite Hi, Hm. rewrite (time_sleep_nonneg Hq).
      unfold do_effect. cbn [self world].
      rewrite IH by (cbn [self]; rewrite Hi; exact Hq).
      cbn [self]. rewrite Hi, Hm. reflexivity.
Qed.

(** *** Sleeps in the trace *)

Lemma sleeps_of_app l l' : sleeps_of (l ++ l') = (sleeps_of l ++ sleeps_of l')%list.
Proof. apply flat_map_app. Qed.

Lemma slept_emit e st j :
  reconnection_effect e = false \/ (forall q, e <> Sleep q) ->
  slept (mkState j (emit e (world st))) = slept st.
Proof.
  intros He. unfold slept, emit. cbn [world trace]. rewrite sleeps_of_app.
  destruct e; cbn; try apply app_nil_r.
  destruct He as [He|He]; [discriminate He|]. elim (He seconds). reflexivity.
Qed.

Lemma awake_ret {A} (a : A) : awake (ret a).
Proof. intros st. reflexivity. Qed.

Lemma awake_raise {A} e : awake (@raise A e).
Proof. intros st. reflexivity. Qed.

Lemma awake_get_self : awake get_self.
Proof. intros st. reflexivity. Qed.

Lemma awake_update_self g : awake (update_self g).
Proof. intros st. reflexivity. Qed.

Lemma awake_print_stderr line : awake (print_stderr line).
Proof. intros st. apply slept_emit. left. reflexivity. Qed.

Lemma awake_bind {A B} (m : M A) (k : A -> M B) :
  awake m -> (forall a, awake (k a)) -> awake (bind m k).
Proof.
  intros Hm Hk st. unfold bind. specialize (Hm st).
  destruct (m st) as [[a|e] st1]; cbn [snd] in *.
  - rewrite Hk. exact Hm.
  - exact Hm.
Qed.

Lemma awake_new_socket env fam : awake (new_socket env fam).
Proof.
  intros st. unfold new_socket, slept.
  destruct (socket_socket env (sockets_made (world st))); cbn;
    rewrite sleeps_of_app; apply app_nil_r.
Qed.

Lemma awake_socket_connect_self env to : awake (socket_connect_self env to).
Proof.
  intros st. unfold slept.
  destruct (socket_connect_self_cases env to st)
    as [[_ ->]|[[_ ->]|(sock & answer & _ & _ & _ & ->)]]; try reflexivity.
  cbn [snd world trace]. rewrite sleeps_of_app. apply app_nil_r.
Qed.

Lemma awake_close_socket_quietly : awake close_socket_quietly.
Proof.
  intros st. unfold close_socket_quietly.
  destruct (_socket (self st)); [|reflexivity].
  cbn [snd]. apply slept_emit. right. discriminate.
Qed.

Lemma awake__do_connect env : awake (_do_connect env).
Proof.
  unfold _do_connect. apply awake_bind; [apply awake_get_self|]. intros j.
  destruct (_socket_path j); try apply awake_raise.
  destruct (prefix "tcp://" s).
  - destruct (rsplit_colon (drop_prefix 6 s)) as [[host port]|];
      [|apply awake_raise].
    apply awake_bind; [apply awake_new_socket|]. intros sock.
    apply awake_bind; [apply awake_update_self|]. intros _.
    destruct (int_of_str port); [apply awake_socket_connect_self|apply awake_raise].
  - apply awake_bind; [apply awake_new_socket|]. intros sock.
    apply awake_bind; [apply awake_update_self|]. intros _.
    apply awake_socket_connect_self.
Qed.

Lemma awake_attempt_connect env : awake (attempt_connect env).
Proof.
  unfold attempt_connect.
  apply awake_bind; [apply awake_close_socket_quietly|].
  intros. apply awake__do_connect.
Qed.

Lemma awake__send_message env message : awake (_send_message env message).
Proof.
  intros st. unfold slept.
  destruct (send_message_trace env message st) as (more & -> & Hmore).
  rewrite sleeps_of_app.
  assert (E : sleeps_of more = []).
  { unfold no_reconnection_effect in Hmore.
    induction more as [|e more IH]; [reflexivity|].
    cbn in Hmore. apply andb_prop in Hmore. destruct Hmore as [He Hmore].
    change (sleeps_of (e :: more))
      with ((match e with Sleep q => [q] | _ => [] end) ++ sleeps_of more)%list.
    rewrite (IH Hmore). destruct e; try reflexivity. discriminate He. }
  rewrite E. apply app_nil_r.
Qed.

Lemma awake__send_started env : awake (_send_started env).
Proof.
  unfold _send_started. apply awake_bind; [apply awake__send_message|].
  intros. apply awake_ret.
Qed.

(** The procedure returns a boolean after [k] sleeps of [interval]
    seconds each, where [k] is the number of failed attempts: all [n] of
    them when it returns false, fewer when it returns true. *)
Lemma attempts_by_outcome_sleeps env interval mx n : forall attempt st,
  exists b st' k,
    attempts_by_outcome env interval mx n attempt st = (Ret b, st')
    /\ slept st' = (slept st ++ repeat interval k)%list
    /\ (b = false -> k = n /\ _connected (self st') = _connected (self st))
    /\ (b = true -> k < n).
Proof.
  induction n as [|n IH]; intros attempt st.
  - exists false, (mkState (self st) (emit (Stderr ("[DonkeylabsJob] Failed to reconnect after "
                    ++ str_of_Z mx ++ " attempts")) (world st))), 0.
    split; [reflexivity|]. split.
    + cbn [repeat]. rewrite app_nil_r. apply slept_emit. left. reflexivity.
    + split; [auto|discriminate].
  - cbn [attempts_by_outcome].
    pose proof (awake_attempt_connect env st) as Ha.
    pose proof (@keeps_bind _ _connected _ _ close_socket_quietly
                  (fun _ => _do_connect env)
                  (keeps_close_socket_quietly _connected (fun _ _ => eq_refl))
                  (fun _ => keeps__do_connect _connected (fun _ _ => eq_refl) env) st)
      as Hc.
    fold (attempt_connect env) in Hc.
    destruct (attempt_connect env st) as [[[]|e] st1]; cbn [snd] in Ha, Hc.
    + unfold bind, update_self, print_stderr, do_effect. cbn [self world].
      match goal with
      | |- context [_send_started env ?s] =>
          pose proof (awake__send_started env s) as Hs;
          destruct (_send_started_returns env s) as [st2 E]
      end.
      rewrite E in *. cbn [snd] in Hs.
      exists true, st2, 0. split; [reflexivity|]. split.
      * cbn [repeat]. rewrite app_nil_r. rewrite Hs, <- Ha.
        apply slept_emit. left. reflexivity.
      * split; [discriminate|intros; lia].
    + unfold bind at 1. unfold print_stderr at 1. unfold do_effect at 1.
      unfold bind at 1. unfold do_effect at 1. cbn [self world].
      match goal with
      | |- context [attempts_by_outcome env interval mx n (S attempt) ?s] =>
          destruct (IH (S attempt) s) as (b & st' & k & E & Hsl & Hf & Ht);
          assert (Hs : slept s = (slept st ++ [interval])%list)
      end.
      { unfold slept, emit. cbn [world trace]. rewrite !sleeps_of_app.
        cbn. rewrite app_nil_r. fold (slept st1). rewrite Ha. reflexivity. }
      rewrite E. exists b, st', (S k). split; [reflexivity|]. split.
      * rewrite Hsl, Hs, <- app_assoc. reflexivity.
      * split.
        -- intros Hb. destruct (Hf Hb) as [-> Hconn]. split; [reflexivity|].
           rewrite Hconn. cbn [self]. exact Hc.
        -- intros Hb. specialize (Ht Hb). lia.
Qed.

Lemma connect_starts_with__do_connect env st e st' :
  _do_connect env st = (Raise e, st') -> connect env st = (Raise e, st').
Proof. intros H. unfold connect, bind. rewrite H. reflexivity. Qed.

(** [_try_reconnect] agrees with its reading by outcome, and the count
    of sleeps carries over. *)
Lemma try_reconnect_by_outcome_and_sleeps env st :
  (0 <= _reconnect_interval (self st))%Q ->
  _connected (self st) = false ->
  _try_reconnect env st = try_reconnect_by_outcome env st
  /\ exists b st' failures,
       _try_reconnect env st = (Ret b, st')
       /\ slept st'
          = (slept st ++ repeat (_reconnect_interval (self st)) failures)%list
       /\ (b = false ->
           failures = Z.to_nat (_max_reconnect_attempts (self st))
           /\ _connected (self st') = false).
Proof.
  intros Hq Hc.
  assert (E : _try_reconnect env st = try_reconnect_by_outcome env st).
  { unfold _try_reconnect, try_reconnect_by_outcome, bind, get_self.
    rewrite Hc. unfold print_stderr, do_effect. cbn [self world].
    rewrite reconnect_attempts_by_outcome by exact Hq. reflexivity. }
  split; [exact E|]. rewrite E.
  unfold try_reconnect_by_outcome, bind, print_stderr, do_effect.
  match goal with
  | |- context [attempts_by_outcome env ?i ?mx ?n ?a ?s] =>
      destruct (attempts_by_outcome_sleeps env i mx n a s)
        as (b & st' & k & Es & Hsl & Hf & Ht);
      assert (Hs : slept s = slept st) by (apply slept_emit; left; reflexivity)
  end.
  exists b, st', k. rewrite Es. split; [reflexivity|]. split.
  - rewrite Hsl, Hs. reflexivity.
  - intros Hb. destruct (Hf Hb) as [Hk Hconn]. split; [exact Hk|].
    rewrite Hconn. exact Hc.
Qed.

(** ** After the attempts are used up *)

(** Against C2 as stated: after the attempts are used up the link is
    not detached for good; the next failing send starts a second
    reconnection thread. *)
Lemma reconnection_restarts_after_exhaustion :
  _max_reconnect_attempts (self st_lost) = 2%Z
  /\ fst (_try_reconnect refusing_env st_lost) = Ret false
  /\ length (slept st_exhausted) = 2
  /\ reconnect_starts (trace (world st_exhausted)) = 1
  /\ _reconnect_thread (self st_exhausted) = None
  /\ reconnect_starts (trace (world st_again)) = 2
  /\ _reconnect_thread (self st_again) = Some _reconnect_loop_target.
Proof. repeat split; vm_compute; reflexivity. Qed.

Lemma disconnected_link_down env st : disconnected st -> link_down env st.
Proof.
  unfold disconnected, link_down, sendall_answer.
  destruct (_socket (self st)) as [sock|]; [|auto].
  intros H bytes. destruct (state sock); congruence.
Qed.

(** A failed attempt leaves no connected socket behind. *)
Lemma attempt_connect_failed env st e st' :
  attempt_connect env st = (Raise e, st') -> disconnected st'.
Proof.
  assert (Hconn : forall to s s',
             disconnected s ->
             socket_connect_self env to s = (Raise e, s') -> disconnected s').
  { intros to s s' Hd.
    destruct (socket_connect_self_cases env to s)
      as [[_ ->]|[[_ ->]|(sock & answer & Es & _ & _ & ->)]];
      try (intros H; inversion H; subst; exact Hd).
    destruct answer as [err|]; intros H; inversion H; subst.
    unfold disconnected in *. cbn [self]. rewrite Es in *. exact Hd. }
  assert (Hnew : forall fam s s',
             disconnected s ->
             new_socket env fam s = (Raise e, s') -> disconnected s').
  { intros fam s s' Hd. unfold new_socket.
    destruct (socket_socket env (sockets_made (world s))) as [err|];
      intros H; inversion H; subst. exact Hd. }
  assert (Hmade : forall fam s sock s',
             new_socket env fam s = (Ret sock, s') -> state sock = SockNew).
  { intros fam s sock s'. unfold new_socket.
    destruct (socket_socket env (sockets_made (world s))) as [err|];
      intros H; inversion H; subst. reflexivity. }
  assert (Hdo : forall s, disconnected s ->
                          _do_connect env s = (Raise e, st') -> disconnected st').
  { intros s Hd. unfold _do_connect, bind, get_self. cbn [self].
    destruct (_socket_path (self s));
      try (intros H; inversion H; subst; exact Hd).
    destruct (prefix "tcp://" s0).
    - destruct (rsplit_colon (drop_prefix 6 s0)) as [[host port]|].
      2: { intros H; inversion H; subst; exact Hd. }
      destruct (new_socket env AF_INET s) as [[sock|e0] s1] eqn:En.
      2: { intros H; inversion H; subst. eapply Hnew; eassumption. }
      unfold update_self.
      assert (Hd1 : disconnected (mkState (set__socket (Some sock) (self s1)) (world s1))).
      { unfold disconnected. cbn. rewrite (Hmade _ _ _ _ En). discriminate. }
      destruct (int_of_str port).
      + apply Hconn. exact Hd1.
      + intros H; inversion H; subst. exact Hd1.
    - destruct (new_socket env AF_UNIX s) as [[sock|e0] s1] eqn:En.
      2: { intros H; inversion H; subst. eapply Hnew; eassumption. }
      unfold update_self. apply Hconn.
      unfold disconnected. cbn. rewrite (Hmade _ _ _ _ En). discriminate. }
  unfold attempt_connect, bind, close_socket_quietly.
  destruct (_socket (self st)) as [sock|] eqn:Es.
  - apply Hdo. unfold disconnected. cbn. discriminate.
  - apply Hdo. unfold disconnected. rewrite Es. exact I.
Qed.

(** When the procedure gives up after at least one attempt, or gives up
    on a link that had no connected socket, none is connected. *)
Lemma attempts_by_outcome_gives_up env interval mx n : forall attempt st st',
  attempts_by_outcome env interval mx n attempt st = (Ret false, st') ->
  0 < n \/ disconnected st ->
  disconnected st'.
Proof.
  induction n as [|n IH]; intros attempt st st' H Hn.
  - cbn in H. inversion H; subst.
    destruct Hn as [Hn|Hd]; [lia|exact Hd].
  - cbn [attempts_by_outcome] in H.
    destruct (attempt_connect env st) as [[[]|e] st1] eqn:Ea.
    + exfalso. revert H. unfold bind, update_self, print_stderr, do_effect.
      cbn [self world].
      match goal with
      | |- context [_send_started env ?s] =>
          destruct (_send_started_returns env s) as [st2 ->]
      end.
      discriminate.
    + unfold bind at 1 in H. unfold print_stderr at 1 in H.
      unfold do_effect at 1 in H. unfold bind at 1 in H.
      unfold do_effect at 1 in H. cbn [self world] in H.
      eapply IH; [exact H|]. right.
      pose proof (attempt_connect_failed _ _ Ea) as Hd.
      unfold disconnected in *. cbn [self]. exact Hd.
Qed.

Lemma reconnect_starts_app l l' :
  reconnect_starts (l ++ l') = reconnect_starts l + reconnect_starts l'.
Proof. unfold reconnect_starts. rewrite filter_app. apply length_app. Qed.

(** What [_reconnect_loop] leaves behind when [_try_reconnect] gave up. *)
Lemma reconnect_loop_gives_up env st :
  (0 <= _reconnect_interval (self st))%Q ->
  (0 < _max_reconnect_attempts (self st))%Z ->
  _connected (self st) = false ->
  fst (_try_reconnect env st) = Ret false ->
  exists st1,
    _try_reconnect env st = (Ret false, st1)
    /\ _reconnect_loop env st
       = (Ret tt,
          mkState (set__reconnect_thread None (self st1))
            (emit (Stderr "[DonkeylabsJob] Reconnection failed, job may be lost")
                  (world st1)))
    /\ disconnected st1
    /\ _connected (self st1) = false
    /\ _running (self st1) = _running (self st)
    /\ length (slept st1)
       = length (slept st) + Z.to_nat (_max_reconnect_attempts (self st)).
Proof.
  intros Hq Hn Hc Hfalse.
  destruct (@try_reconnect_by_outcome_and_sleeps env st Hq Hc)
    as (Espec & b & st1 & k & Etry & Hsl & Hf).
  rewrite Etry in Hfalse. cbn in Hfalse. inversion Hfalse; subst b.
  destruct (Hf eq_refl) as [-> Hconn].
  exists st1. split; [exact Etry|]. split.
  { unfold _reconnect_loop, bind. rewrite Etry. reflexivity. }
  split.
  { rewrite Espec in Etry. unfold try_reconnect_by_outcome, bind, print_stderr, do_effect in Etry.
    eapply attempts_by_outcome_gives_up; [exact Etry|]. left. lia. }
  split; [exact Hconn|]. split.
  { pose proof (keeps__try_reconnect _running (fun _ _ => eq_refl)
                  (fun _ _ => eq_refl) (fun _ _ => eq_refl) env st) as Hk.
    rewrite Etry in Hk. exact Hk. }
  rewrite Hsl, length_app, repeat_length. reflexivity.
Qed.

(** C2, amended. After [max_reconnect_attempts] reconnection failures
    in a row (at least one attempt, an interval that is not negative)
    the reconnection thread ends with the link marked not connected, no
    connected socket, and the thread slot empty. Every send that follows
    returns false without waiting (its trace has no connect, sleep or
    join), as long as nothing reconnects. The link is not detached for
    good: while the job is running, such a send that gets as far as the
    write starts a new reconnection thread. *)
Theorem after_exhaustion_sends_fail_and_restart (env : Env) (st : State) :
  (0 <= _reconnect_interval (self st))%Q ->
  (0 < _max_reconnect_attempts (self st))%Z ->
  _connected (self st) = false ->
  fst (_try_reconnect env st) = Ret false ->
  let st' := snd (_reconnect_loop env st) in
  fst (_reconnect_loop env st) = Ret tt
  /\ _reconnect_thread (self st') = None
  /\ _connected (self st') = false
  /\ disconnected st'
  /\ length (slept st')
     = length (slept st) + Z.to_nat (_max_reconnect_attempts (self st))
  /\ forall message,
       let r := _send_message env message st' in
       (exists m, fst r = Ret (false, m))
       /\ (exists more,
             trace (world (snd r)) = (trace (world st') ++ more)%list
             /\ no_reconnection_effect more)
       /\ (_running (self st) = true ->
           forall sock text,
             _socket (self st') = Some sock ->
             json_dumps (PyDict (stamped env st' message)) = Ret text ->
             _reconnect_thread (self (snd r)) = Some _reconnect_loop_target
             /\ reconnect_starts (trace (world (snd r)))
                = S (reconnect_starts (trace (world st')))).
Proof.
  intros Hq Hn Hc Hfalse.
  destruct (reconnect_loop_gives_up env st Hq Hn Hc Hfalse)
    as (st1 & Etry & Eloop & Hd & Hconn & Hrun & Hsl).
  rewrite Eloop. cbn [fst snd].
  set (st' := mkState (set__reconnect_thread None (self st1))
                (emit (Stderr "[DonkeylabsJob] Reconnection failed, job may be lost")
                      (world st1))).
  assert (Hd' : disconnected st') by exact Hd.
  split; [reflexivity|]. split; [reflexivity|]. split; [exact Hconn|].
  split; [exact Hd'|]. split.
  { rewrite <- Hsl. unfold st'. f_equal. apply slept_emit. left. reflexivity. }
  intros message. cbv zeta. split; [|split].
  - apply send_message_down. apply disconnected_link_down. exact Hd'.
  - apply send_message_trace.
  - intros Hrunning sock text Hsock Henc.
    pose proof (@disconnected_link_down env st' Hd') as Hdown.
    unfold link_down in Hdown. rewrite Hsock in Hdown.
    assert (Hsp : spawns (self st') = true).
    { unfold spawns, st'. cbn. rewrite Hrun, Hrunning. reflexivity. }
    send_cases env message st'; try congruence;
      try match goal with
        | Hs : _socket _ = Some ?s, Ha : sendall_answer _ ?s _ _ = None |- _ =>
            assert (s = sock) by congruence; subst s; elim (Hdown _ Ha)
        end.
    unfold self_after_failure. unfold world_after_send.
    cbn [trace]. rewrite Hsp. split; [reflexivity|].
    rewrite reconnect_starts_app. cbn. lia.
Qed.

(** C2, amended, in the scenario. *)
Lemma after_exhaustion_sends_fail_and_restart_witness :
  ((0 <= _reconnect_interval (self st_lost))%Q
   /\ (0 < _max_reconnect_attempts (self st_lost))%Z
   /\ _connected (self st_lost) = false
   /\ fst (_try_reconnect refusing_env st_lost) = Ret false)
  /\ _reconnect_thread (self (snd (_reconnect_loop refusing_env st_lost))) = None.
Proof.
  assert (H1 : (0 <= _reconnect_interval (self st_lost))%Q).
  { vm_compute. discriminate. }
  assert (H2 : (0 < _max_reconnect_attempts (self st_lost))%Z).
  { vm_compute. reflexivity. }
  assert (H3 : _connected (self st_lost) = false).
  { vm_compute. reflexivity. }
  assert (H4 : fst (_try_reconnect refusing_env st_lost) = Ret false).
  { vm_compute. reflexivity. }
  split; [auto|].
  exact (proj1 (proj2 (@after_exhaustion_sends_fail_and_restart
                         refusing_env st_lost H1 H2 H3 H4))).
Defined.

(** ** At most one reconnection sequence *)

Module InterleavingFacts.

Import Interleaving.

Lemma count_app p l l' : count p (l ++ l') = count p l + count p l'.
Proof. unfold count. rewrite filter_app. apply length_app. Qed.

Lemma count_one p t : count p [t] = Nat.b2n (p t).
Proof. unfold count. cbn. destruct (p t); reflexivity. Qed.

Lemma count_cons p t l : count p (t :: l) = Nat.b2n (p t) + count p l.
Proof. unfold count. cbn. destruct (p t); reflexivity. Qed.

Lemma count_set_nth p t' : forall l i t,
  nth_error l i = Some t ->
  count p (set_nth i t' l) + Nat.b2n (p t) = count p l + Nat.b2n (p t').
Proof.
  induction l as [|x rest IH]; intros i t H.
  - destruct i; discriminate H.
  - destruct i as [|i]; cbn in H.
    + inversion H; subst. cbn [set_nth]. rewrite !count_cons. lia.
    + cbn [set_nth]. rewrite !count_cons. specialize (IH i t H). lia.
Qed.

Lemma count_repeat_false p t n : p t = false -> count p (repeat t n) = 0.
Proof.
  intros H. induction n as [|n IH]; [reflexivity|].
  cbn [repeat]. rewrite count_cons, H, IH. reflexivity.
Qed.

(** A thread at either of the two steps is under the lock. *)
Lemma create_start_critical l :
  count at_create l + count at_start l <= count critical l.
Proof.
  induction l as [|t rest IH]; [reflexivity|].
  rewrite !count_cons.
  assert (Nat.b2n (at_create t) + Nat.b2n (at_start t) <= Nat.b2n (critical t)).
  { unfold at_create, at_start, critical.
    destruct (sending t) as [[]|]; cbn; lia. }
  lia.
Qed.

Lemma in_flight_is_reconnector l : count in_flight l <= count is_reconnector l.
Proof.
  induction l as [|t rest IH]; [reflexivity|].
  rewrite !count_cons.
  assert (Nat.b2n (in_flight t) <= Nat.b2n (is_reconnector t)).
  { destruct t as [pc|pc|]; try destruct pc; cbn; lia. }
  lia.
Qed.

(** The pool after a step, count by count. *)
Lemma step_counts l c c' :
  step l c = Some c' ->
  exists t m' t' started,
    nth_error (pool c) (who l) = Some t
    /\ thread_step l (mem c) t = Some (m', t', started)
    /\ mem c' = m'
    /\ forall p,
         count p (pool c') + Nat.b2n (p t)
         = count p (pool c) + Nat.b2n (p t')
           + (if started : bool then Nat.b2n (p (Reconnector RAcquire)) else 0).
Proof.
  unfold step. destruct (nth_error (pool c) (who l)) as [t|] eqn:Et; [|discriminate].
  destruct (thread_step l (mem c) t) as [[[m' t'] started]|] eqn:Es; [|discriminate].
  intros H. inversion H; subst c'. clear H.
  exists t, m', t', started.
  split; [reflexivity|]. split; [exact Es|]. split; [reflexivity|].
  intros p. cbn [pool].
  rewrite count_app. pose proof (count_set_nth p t' _ _ Et) as Hc.
  destruct started; [rewrite count_one|cbn]; lia.
Qed.

Lemma invariant_initial callers max_attempts :
  invariant (initial callers max_attempts).
Proof.
  unfold invariant, initial. cbn [pool mem reconnect_thread lock].
  rewrite !count_repeat_false by reflexivity. cbn.
  repeat split; intros; try lia; try congruence.
Qed.

Ltac step_cases H :=
  repeat (cbn in H;
          match type of H with
          | context [if ?b then _ else _] =>
              first [is_var b; destruct b | destruct b eqn:?]
          | context [match ?x with _ => _ end] => is_var x; destruct x
          end);
  cbn in H; try discriminate H.

(** Decide the premise of each implication of the invariant. *)
Ltac use_implications :=
  repeat match goal with
    | H : ?P -> ?Q |- _ =>
        lazymatch Q with False => fail | _ => idtac end;
        let Hd := fresh in
        assert (Hd : P \/ ~ P) by lia;
        destruct Hd as [Hd|Hd]; [specialize (H Hd)|clear H]
    | H : _ /\ _ |- _ => destruct H
    end.

Ltac close_case :=
  repeat match goal with
    | |- context [Nat.b2n ?b] => is_var b; destruct b
    | H : context [Nat.b2n ?b] |- _ => is_var b; destruct b
    | |- context [?b = true] => is_var b; destruct b
    | |- context [?b = false] => is_var b; destruct b
    end;
  cbn [Nat.b2n] in *; use_implications;
  repeat split; intros; solve [lia | congruence].

(** Every step keeps the invariant. *)
Lemma invariant_step l c c' :
  invariant c -> step l c = Some c' -> invariant c'.
Proof.
  intros (Hle & Hslot & Hlock & Hcreate & Hstart) Hstep.
  destruct (step_counts _ _ Hstep) as (t & m' & t' & started & _ & Hts & Hm & Hcount).
  pose proof (Hcount in_flight) as Cf.
  pose proof (Hcount critical) as Cc.
  pose proof (Hcount at_create) as Ca.
  pose proof (Hcount at_start) as Cs.
  pose proof (create_start_critical (pool c)) as Hcs.
  pose proof (create_start_critical (pool c')) as Hcs'.
  clear Hcount Hstep.
  unfold invariant. rewrite Hm. clear Hm.
  destruct c as [m ps]. cbn [mem pool] in *. destruct m. destruct l.
  destruct t as [[pc|]|pc|]; [destruct pc| |destruct pc as [| | | |? pc| | | |]; [| | | |destruct pc| | | |]|];
    step_cases Hts;
    inversion Hts; subst; clear Hts;
    cbn in *.
  all: close_case.
Qed.

Lemma invariant_run schedule : forall c c',
  invariant c -> run schedule c = Some c' -> invariant c'.
Proof.
  induction schedule as [|l rest IH]; intros c c' Hinv Hrun; cbn in Hrun.
  - inversion Hrun; subst. exact Hinv.
  - destruct (step l c) as [c1|] eqn:Es; [|discriminate].
    eapply IH; [|exact Hrun]. eapply invariant_step; eassumption.
Qed.

Lemma count_nth_error p : forall l i t,
  nth_error l i = Some t -> p t = true -> 1 <= count p l.
Proof.
  induction l as [|x rest IH]; intros i t H Hp.
  - destruct i; discriminate H.
  - rewrite count_cons. destruct i as [|i]; cbn in H.
    + inversion H; subst. rewrite Hp. cbn. lia.
    + specialize (IH i t H Hp). lia.
Qed.

(** Only the step [self._reconnect_thread.start()] starts a thread, and
    no step turns a calling thread into a reconnection thread or back. *)
Lemma thread_step_started l m t m' t' started :
  thread_step l m t = Some (m', t', started) ->
  is_reconnector t' = is_reconnector t
  /\ (started = true -> at_start t = true).
Proof.
  intros H. destruct m, l.
  destruct t as [[pc|]|pc|];
    [destruct pc| |destruct pc as [| | | |? pc| | | |];
                   [| | | |destruct pc| | | |]|];
    step_cases H; inversion H; subst; split; solve [reflexivity | discriminate].
Qed.

(** C3. From the job as constructed, under every schedule of any number
    of calling threads and every behaviour of the socket, at most one
    reconnection sequence is in flight at any time; and while one is in
    flight no step starts another, whatever failure a sender meets. *)
Theorem at_most_one_reconnection_in_flight
    (callers max_attempts : nat) (schedule : list label) (c : config) :
  run schedule (initial callers max_attempts) = Some c ->
  sequences_in_flight c <= 1
  /\ forall l c',
       step l c = Some c' ->
       sequences_in_flight c = 1 ->
       sequences_started c' = sequences_started c
       /\ sequences_in_flight c' <= 1.
Proof.
  intros Hrun.
  pose proof (invariant_run _ (invariant_initial callers max_attempts) Hrun)
    as Hinv.
  split; [exact (proj1 Hinv)|].
  intros l c' Hstep Hone.
  pose proof (invariant_step _ Hinv Hstep) as Hinv'.
  split; [|exact (proj1 Hinv')].
  destruct (step_counts _ _ Hstep)
    as (t & m' & t' & started & Hnth & Hts & _ & Hcount).
  destruct (thread_step_started _ _ _ Hts) as [Hsame Hstart].
  specialize (Hcount is_reconnector). rewrite Hsame in Hcount.
  unfold sequences_started, sequences_in_flight in *.
  destruct started; [|lia].
  exfalso.
  pose proof (count_nth_error at_start _ _ Hnth (Hstart eq_refl)) as Hat.
  destruct Hinv as (_ & _ & _ & _ & H5). destruct (H5 Hat) as [Hzero _]. lia.
Qed.

(** C3 on the schedule with two failures: one sequence in flight, one
    started. *)
Lemma at_most_one_reconnection_in_flight_witness :
  run two_failures (initial 2 2) = Some after_two_failures
  /\ sequences_in_flight after_two_failures <= 1
  /\ sequences_started after_two_failures = 1.
Proof.
  assert (H : run two_failures (initial 2 2) = Some after_two_failures).
  { vm_compute. reflexivity. }
  split; [exact H|]. split; [|reflexivity].
  exact (proj1 (@at_most_one_reconnection_in_flight 2 2 two_failures
                  after_two_failures H)).
Defined.

End InterleavingFacts.

(* ================================================================== *)
(** * Further properties *)
(* ================================================================== *)

Unset Implicit Arguments.

(** ** Connection strings and [_do_connect] *)

Lemma substring_0_length s : substring 0 (String.length s) s = s.
Proof. induction s as [|c s IH]; cbn; [reflexivity|]. rewrite IH. reflexivity. Qed.

Lemma drop_prefix_tcp rest : drop_prefix 6 ("tcp://" ++ rest) = rest.
Proof. unfold drop_prefix. cbn. rewrite Nat.sub_0_r. apply substring_0_length. Qed.

Lemma prefix_tcp rest : prefix "tcp://" ("tcp://" ++ rest) = true.
Proof. cbn. destruct rest; reflexivity. Qed.

Lemma rsplit_colon_none s : no_colon s = true -> rsplit_colon s = None.
Proof.
  induction s as [|c s IH]; cbn; [reflexivity|].
  intros H. apply andb_prop in H. destruct H as [Hc Hs].
  rewrite (IH Hs). destruct (Ascii.eqb c ":"); [discriminate Hc|reflexivity].
Qed.

Lemma rsplit_colon_some s host port :
  rsplit_colon s = Some (host, port) ->
  s = host ++ ":" ++ port /\ no_colon port = true.
Proof.
  revert host port. induction s as [|c s IH]; cbn; intros host port H.
  - discriminate.
  - destruct (rsplit_colon s) as [[h p]|] eqn:E.
    + inversion H; subst. destruct (IH h port eq_refl) as [-> Hp].
      split; [reflexivity|exact Hp].
    + destruct (Ascii.eqb c ":") eqn:Ec; [|discriminate].
      inversion H; subst. apply Ascii.eqb_eq in Ec. subst c.
      split; [reflexivity|].
      clear -E. induction port as [|c s IH]; [reflexivity|].
      cbn in *. destruct (rsplit_colon s) as [[h p]|]; [discriminate|].
      destruct (Ascii.eqb c ":"); [discriminate|]. cbn. apply IH. reflexivity.
Qed.

Lemma rsplit_colon_app host port :
  no_colon port = true ->
  rsplit_colon (host ++ ":" ++ port) = Some (host, port).
Proof.
  intros Hp. induction host as [|c host IH]; cbn.
  - rewrite (rsplit_colon_none _ Hp). reflexivity.
  - cbn in IH. rewrite IH. reflexivity.
Qed.

Lemma socket_connect_self_new env st f to :
  (match to with
   | TcpAddress _ port => (0 <= port <= 65535)%Z
   | UnixPath _ => True
   end) ->
  socket_connect_self env to (state_after_socket st f)
  = state_after_dial env st f to.
Proof.
  intros Hport.
  destruct (socket_connect_self_cases env to (state_after_socket st f))
    as [[Hn _]|[[(host & port & -> & Hbad) _]|(sock & answer & Hs & Hnew & _ & E)]].
  - discriminate Hn.
  - lia.
  - cbn in Hs. inversion Hs; subst sock. rewrite E.
    rewrite (Hnew eq_refl).
    unfold state_after_dial, world_after_dial, state_after_socket.
    cbn [self world trace clock_reads sockets_made connects sends fileno
         sock_family].
    destruct (socket_connect env (connects (world st)) to);
      rewrite <- app_assoc; reflexivity.
Qed.

Lemma new_socket_then env st f (A : Type) (k : M A) :
  socket_socket env (sockets_made (world st)) = None ->
  (sock <- new_socket env f ;; update_self (set__socket (Some sock)) ;; k) st
  = k (state_after_socket st f).
Proof.
  intros H. unfold bind, new_socket, update_self. rewrite H. reflexivity.
Qed.

(** X1. [_do_connect] reads the endpoint off the connection string at
    each call. When a socket can be made: for [tcp://host:port], with
    [port] a decimal number from 0 to 65535 after the last colon, it
    makes an [AF_INET] socket and connects it to [(host, port)]; for a
    string that does not start with [tcp://] it makes an [AF_UNIX]
    socket and connects it to the string as a path. It returns when the
    connection is made and raises the socket's [OSError] when not; the
    new socket replaces the old one in both cases. *)
Theorem do_connect_endpoint (env : Env) (st : State) :
  socket_socket env (sockets_made (world st)) = None ->
  (forall host port n,
      _socket_path (self st) = PyStr ("tcp://" ++ host ++ ":" ++ port) ->
      no_colon port = true ->
      int_of_str port = Some n ->
      (0 <= n <= 65535)%Z ->
      _do_connect env st = state_after_dial env st AF_INET (TcpAddress host n))
  /\ (forall path,
        _socket_path (self st) = PyStr path ->
        prefix "tcp://" path = false ->
        _do_connect env st = state_after_dial env st AF_UNIX (UnixPath path)).
Proof.
  intros Hsock. split.
  - intros host port n Hpath Hcolon Hint Hrange.
    unfold _do_connect. unfold bind at 1. unfold get_self at 1. rewrite Hpath.
    rewrite prefix_tcp, drop_prefix_tcp, (rsplit_colon_app host port Hcolon).
    rewrite new_socket_then by exact Hsock.
    rewrite Hint. apply socket_connect_self_new. exact Hrange.
  - intros path Hpath Hprefix.
    unfold _do_connect. unfold bind at 1. unfold get_self at 1.
    rewrite Hpath, Hprefix.
    rewrite new_socket_then by exact Hsock.
    apply socket_connect_self_new. exact I.
Qed.

(** X1 on the job of the scenario and on a job with a TCP target. *)
Lemma do_connect_endpoint_witness :
  socket_socket refusing_env (sockets_made (world (mkState job_j1 World0))) = None
  /\ _do_connect refusing_env (mkState job_j1 World0)
     = state_after_dial refusing_env (mkState job_j1 World0) AF_UNIX
         (UnixPath "/tmp/x.sock").
Proof.
  assert (H : socket_socket refusing_env
                (sockets_made (world (mkState job_j1 World0))) = None)
    by reflexivity.
  split; [exact H|].
  exact (proj2 (@do_connect_endpoint refusing_env (mkState job_j1 World0) H)
           "/tmp/x.sock" eq_refl eq_refl).
Defined.

Example do_connect_tcp_example :
  let st := mkState (__init__ (PyStr "j1") PyNone PyNone
                       (PyStr "tcp://127.0.0.1:9000") None None None) World0 in
  _do_connect responsive_env st
  = state_after_dial responsive_env st AF_INET (TcpAddress "127.0.0.1" 9000).
Proof. reflexivity. Qed.

(** X2. What [_do_connect] does with a connection string it cannot use,
    and when no socket can be made. Without a colon after [tcp://] it
    raises [ValueError] before anything is done. With a port that is not
    a number it raises [ValueError] after the new socket was made and
    stored: the object then holds a socket that was never connected,
    and no connection was asked for. With a port that is a number
    outside 0..65535 (and an ASCII host), [connect] converts the address
    first: a port that does not fit a C [int] raises [OverflowError] at
    once; otherwise the host is looked up, a failed lookup raises its
    [gaierror], and only then the port raises [OverflowError]; the
    socket is never asked to connect. When the socket cannot be made
    the [OSError] is raised and the object keeps the socket it had. A
    connection string that is not a string raises [AttributeError]. *)
Theorem do_connect_malformed (env : Env) (st : State) :
  (forall addr,
      _socket_path (self st) = PyStr ("tcp://" ++ addr) ->
      no_colon addr = true ->
      exists msg, _do_connect env st = (Raise (Exn ValueError msg), st))
  /\ (forall host port,
        _socket_path (self st) = PyStr ("tcp://" ++ host ++ ":" ++ port) ->
        no_colon port = true ->
        socket_socket env (sockets_made (world st)) = None ->
        (int_of_str port = None ->
         exists msg,
           _do_connect env st
           = (Raise (Exn ValueError msg), state_after_socket st AF_INET))
        /\ (forall n,
              int_of_str port = Some n ->
              (n < 0 \/ 65535 < n)%Z ->
              ascii_host host = true ->
              (fits_c_int n = false ->
               exists msg,
                 _do_connect env st
                 = (Raise (Exn OverflowError msg), state_after_socket st AF_INET))
              /\ (forall err,
                    fits_c_int n = true ->
                    lookup_error env (TcpAddress host n) (connects (world st))
                    = Some err ->
                    class_of_errno err = gaierror
                    /\ fst (_do_connect env st) = Raise (exn_of_errno err)
                    /\ _do_connect env st
                       = state_after_dial env st AF_INET (TcpAddress host n))
              /\ (fits_c_int n = true ->
                  lookup_error env (TcpAddress host n) (connects (world st))
                  = None ->
                  exists msg,
                    _do_connect env st
                    = (Raise (Exn OverflowError msg),
                       state_after_socket st AF_INET))))
  /\ (forall path err,
        _socket_path (self st) = PyStr path ->
        (prefix "tcp://" path = false
         \/ exists host port, rsplit_colon (drop_prefix 6 path) = Some (host, port)) ->
        socket_socket env (sockets_made (world st)) = Some err ->
        exists f,
          _do_connect env st
          = (Raise (exn_of_errno err),
             mkState (self st)
               (mkWorld (trace (world st)
                         ++ [SocketCreate (sockets_made (world st)) f (Some err)])%list
                        (clock_reads (world st)) (S (sockets_made (world st)))
                        (connects (world st)) (sends (world st)))))
  /\ (forall v,
        _socket_path (self st) = v ->
        (forall s, v <> PyStr s) ->
        exists msg, _do_connect env st = (Raise (Exn AttributeError msg), st)).
Proof.
  split; [|split; [|split]].
  - intros addr Hpath Hcolon. eexists.
    unfold _do_connect. unfold bind at 1. unfold get_self at 1. rewrite Hpath.
    rewrite prefix_tcp, drop_prefix_tcp, (rsplit_colon_none _ Hcolon). reflexivity.
  - intros host port Hpath Hcolon Hsock.
    assert (E : _do_connect env st
                = match int_of_str port with
                  | None => raise (Exn ValueError "invalid literal for int() with base 10")
                  | Some n => socket_connect_self env (TcpAddress host n)
                  end (state_after_socket st AF_INET)).
    { unfold _do_connect. unfold bind at 1. unfold get_self at 1. rewrite Hpath.
      rewrite prefix_tcp, drop_prefix_tcp, (rsplit_colon_app host port Hcolon).
      rewrite new_socket_then by exact Hsock. reflexivity. }
    rewrite E. split.
    + intros Hint. rewrite Hint. eexists. reflexivity.
    + intros n Hint Hrange _. rewrite Hint.
      assert (Eb : negb (Z.leb 0 n && Z.leb n 65535) = true).
      { destruct (Z.leb 0 n) eqn:E1; [|reflexivity].
        destruct (Z.leb n 65535) eqn:E2; [|reflexivity].
        apply Z.leb_le in E1. apply Z.leb_le in E2. lia. }
      unfold socket_connect_self, state_after_socket.
      cbn [self world _socket set__socket connects].
      split; [|split].
      * intros Hfit. rewrite Hfit. cbn [negb]. eexists. reflexivity.
      * intros err Hfit Hlook. rewrite Hfit, Hlook. cbn [negb].
        assert (Ec : class_of_errno err = gaierror
                     /\ socket_connect env (connects (world st)) (TcpAddress host n)
                        = Some err).
        { revert Hlook. unfold lookup_error.
          destruct (socket_connect env (connects (world st)) (TcpAddress host n))
            as [[]|]; intros H; inversion H; split; reflexivity. }
        destruct Ec as [Ec Ea]. split; [exact Ec|]. split; [reflexivity|].
        unfold state_after_dial, world_after_dial. rewrite Ea.
        cbn [world trace clock_reads sockets_made connects sends fileno].
        rewrite <- app_assoc. reflexivity.
      * intros Hfit Hlook. rewrite Hfit, Hlook, Eb. cbn [negb].
        eexists. reflexivity.
  - intros path err Hpath Hkind Hsock.
    unfold _do_connect. unfold bind at 1. unfold get_self at 1. rewrite Hpath.
    destruct (prefix "tcp://" path) eqn:Hp.
    + destruct Hkind as [Hk|(host & port & Hk)]; [discriminate Hk|].
      rewrite Hk. exists AF_INET. unfold bind, new_socket. rewrite Hsock.
      reflexivity.
    + exists AF_UNIX. unfold bind, new_socket. rewrite Hsock. reflexivity.
  - intros v Hv Hnot. eexists.
    unfold _do_connect. unfold bind at 1. unfold get_self at 1. rewrite Hv.
    destruct v as [| | | |s0| | | |]; try reflexivity.
    elim (Hnot s0). reflexivity.
Qed.

(** ** The kinds of effects, and [connect] *)

Lemma kind_eqb_eq a b : kind_eqb a b = true <-> a = b.
Proof. destruct a, b; cbn; split; congruence. Qed.

Lemma among_within ks ks' e :
  kinds_within ks ks' = true -> among ks e = true -> among ks' e = true.
Proof.
  unfold kinds_within, among. intros Hw He.
  apply existsb_exists in He. destruct He as (k & Hin & Hk).
  apply kind_eqb_eq in Hk. subst k.
  rewrite forallb_forall in Hw. exact (Hw _ Hin).
Qed.

Lemma emits_within ks ks' (A : Type) (m : M A) :
  kinds_within ks ks' = true -> emits ks m -> emits ks' m.
Proof.
  intros Hw Hm st. destruct (Hm st) as (more & E & Hall).
  exists more. split; [exact E|].
  rewrite forallb_forall in *. intros e He.
  apply (among_within ks ks' e Hw). exact (Hall e He).
Qed.

Lemma emits_nothing ks (A : Type) (m : M A) :
  (forall st, world (snd (m st)) = world st) -> emits ks m.
Proof.
  intros H st. exists []. rewrite H, app_nil_r. split; reflexivity.
Qed.

Lemma emits_ret ks (A : Type) (a : A) : emits ks (ret a).
Proof. apply emits_nothing. reflexivity. Qed.

Lemma emits_raise ks (A : Type) e : emits ks (@raise A e).
Proof. apply emits_nothing. reflexivity. Qed.

Lemma emits_get_self ks : emits ks get_self.
Proof. apply emits_nothing. reflexivity. Qed.

Lemma emits_update_self ks g : emits ks (update_self g).
Proof. apply emits_nothing. reflexivity. Qed.

Lemma emits_do_effect ks e : among ks e = true -> emits ks (do_effect e).
Proof.
  intros He st. exists [e]. split; [reflexivity|]. cbn. rewrite He. reflexivity.
Qed.

Lemma emits_bind ks (A B : Type) (m : M A) (k : A -> M B) :
  emits ks m -> (forall a, emits ks (k a)) -> emits ks (bind m k).
Proof.
  intros Hm Hk st. unfold bind. destruct (Hm st) as (more & E & Hall).
  destruct (m st) as [[a|e] st1]; cbn [snd] in *.
  - destruct (Hk a st1) as (more' & E' & Hall').
    exists (more ++ more')%list. rewrite E', E, app_assoc. split; [reflexivity|].
    rewrite forallb_app, Hall, Hall'. reflexivity.
  - exists more. auto.
Qed.

Lemma emits_try_except ks (A : Type) (m : M A) (h : exn -> M A) :
  emits ks m -> (forall e, emits ks (h e)) -> emits ks (try_except m h).
Proof.
  intros Hm Hh st. unfold try_except. destruct (Hm st) as (more & E & Hall).
  destruct (m st) as [[a|e] st1]; cbn [snd] in *.
  - exists more. auto.
  - destruct (Hh e st1) as (more' & E' & Hall').
    exists (more ++ more')%list. rewrite E', E, app_assoc. split; [reflexivity|].
    rewrite forallb_app, Hall, Hall'. reflexivity.
Qed.

Lemma emits_try_finally ks (A : Type) (m : M A) (final : M unit) :
  emits ks m -> emits ks final -> emits ks (try_finally m final).
Proof.
  intros Hm Hf st. unfold try_finally. destruct (Hm st) as (more & E & Hall).
  destruct (m st) as [r st1]. cbn [snd] in *.
  destruct (Hf st1) as (more' & E' & Hall').
  exists (more ++ more')%list.
  destruct (final st1) as [[u|e] st2]; cbn [snd] in *;
    rewrite E', E, app_assoc; (split; [reflexivity|]);
    rewrite forallb_app, Hall, Hall'; reflexivity.
Qed.

Lemma emits_time_sleep q : emits [KSleep] (time_sleep q).
Proof.
  unfold time_sleep. destruct (Qle_bool 0 q).
  - apply emits_do_effect. reflexivity.
  - apply emits_raise.
Qed.

Lemma emits_print_stderr line : emits [KStderr] (print_stderr line).
Proof. apply emits_do_effect. reflexivity. Qed.

Lemma emits_new_socket env f : emits [KCreate] (new_socket env f).
Proof.
  intros st. unfold new_socket.
  exists [SocketCreate (sockets_made (world st)) f
            (socket_socket env (sockets_made (world st)))].
  destruct (socket_socket env (sockets_made (world st))); split; reflexivity.
Qed.

Lemma emits_socket_connect_self env to : emits [KConnect] (socket_connect_self env to).
Proof.
  intros st.
  destruct (socket_connect_self_cases env to st)
    as [[_ ->]|[[_ ->]|(sock & answer & _ & _ & _ & ->)]].
  - exists []. rewrite app_nil_r. split; reflexivity.
  - exists []. rewrite app_nil_r. split; reflexivity.
  - exists [SocketConnect (fileno sock) to answer]. split; reflexivity.
Qed.

Lemma emits_close_socket_quietly : emits [KClose] close_socket_quietly.
Proof.
  intros st. unfold close_socket_quietly.
  destruct (_socket (self st)) as [sock|].
  - exists [SocketClose (fileno sock)]. split; reflexivity.
  - exists []. rewrite app_nil_r. split; reflexivity.
Qed.

Lemma emits__do_connect env : emits [KCreate; KConnect] (_do_connect env).
Proof.
  unfold _do_connect. apply emits_bind; [apply emits_get_self|]. intros j.
  destruct (_socket_path j); try apply emits_raise.
  destruct (prefix "tcp://" s).
  - destruct (rsplit_colon (drop_prefix 6 s)) as [[host port]|];
      [|apply emits_raise].
    apply emits_bind.
    { apply emits_within with (ks := [KCreate]); [reflexivity|apply emits_new_socket]. }
    intros sock. apply emits_bind; [apply emits_update_self|]. intros _.
    destruct (int_of_str port); [|apply emits_raise].
    apply emits_within with (ks := [KConnect]); [reflexivity|apply emits_socket_connect_self].
  - apply emits_bind.
    { apply emits_within with (ks := [KCreate]); [reflexivity|apply emits_new_socket]. }
    intros sock. apply emits_bind; [apply emits_update_self|]. intros _.
    apply emits_within with (ks := [KConnect]); [reflexivity|apply emits_socket_connect_self].
Qed.

Lemma emits__send_message env message :
  emits [KStderr; KSendall; KStart] (_send_message env message).
Proof.
  intros st. destruct (send_message_trace env message st) as (more & E & Hall).
  exists more. split; [exact E|].
  unfold no_reconnection_effect in Hall. rewrite forallb_forall in *.
  intros e He. specialize (Hall e He). destruct e; try reflexivity; discriminate Hall.
Qed.

Lemma emits__send_started env : emits [KStderr; KSendall; KStart] (_send_started env).
Proof.
  unfold _send_started. apply emits_bind; [apply emits__send_message|].
  intros. apply emits_ret.
Qed.

(** A connection made leaves a connected socket in the object. *)
Lemma do_connect_connected env st st1 :
  _do_connect env st = (Ret tt, st1) ->
  exists sock, _socket (self st1) = Some sock /\ state sock = SockConnected.
Proof.
  assert (Hconn : forall to s, socket_connect_self env to s = (Ret tt, st1) ->
            exists sock, _socket (self st1) = Some sock /\ state sock = SockConnected).
  { intros to s.
    destruct (socket_connect_self_cases env to s)
      as [[_ ->]|[[_ ->]|(sock & answer & _ & _ & _ & ->)]];
      try discriminate.
    destruct answer as [err|]; [discriminate|].
    intros H. inversion H; subst. cbn. eauto. }
  unfold _do_connect, bind, get_self. cbn [self].
  destruct (_socket_path (self st)); try discriminate.
  destruct (prefix "tcp://" s).
  - destruct (rsplit_colon (drop_prefix 6 s)) as [[host port]|]; [|discriminate].
    destruct (new_socket env AF_INET st) as [[sock|e0] s1]; [|discriminate].
    unfold update_self. destruct (int_of_str port); [|discriminate].
    apply Hconn.
  - destruct (new_socket env AF_UNIX st) as [[sock|e0] s1]; [|discriminate].
    unfold update_self. apply Hconn.
Qed.

(** X3. [connect] raises exactly when [_do_connect] raises: a started
    event that cannot be sent does not make it fail. When it raises,
    nothing but the connection attempt was done: no heartbeat thread was
    started, nothing was sent, and the job is as little running and
    connected as before. When it returns, the job is running, holds a
    connected socket and a heartbeat thread. *)
Theorem connect_outcome (env : Env) (st : State) :
  let st' := snd (connect env st) in
  fst (connect env st) = fst (_do_connect env st)
  /\ (forall e,
        fst (_do_connect env st) = Raise e ->
        connect env st = _do_connect env st
        /\ _running (self st') = _running (self st)
        /\ _connected (self st') = _connected (self st)
        /\ _heartbeat_thread (self st') = _heartbeat_thread (self st)
        /\ _reconnect_thread (self st') = _reconnect_thread (self st)
        /\ exists more,
             trace (world st') = (trace (world st) ++ more)%list
             /\ forallb (among [KCreate; KConnect]) more = true)
  /\ (fst (_do_connect env st) = Ret tt ->
      _running (self st') = true
      /\ _heartbeat_thread (self st') = Some heartbeat_loop_target
      /\ exists sock, _socket (self st') = Some sock /\ state sock = SockConnected).
Proof.
  cbv zeta.
  destruct (_do_connect env st) as [[[]|e] st1] eqn:Ed; cbn [fst].
  - assert (Ec : connect env st
               = (Ret tt,
                  snd (_send_message env [("type", PyStr "started")]
                         (mkState
                            (set__heartbeat_thread (Some heartbeat_loop_target)
                               (set__connected true (set__running true (self st1))))
                            (emit (ThreadStart heartbeat_loop_target) (world st1)))))).
    { unfold connect, _start_heartbeat, _send_started, bind, update_self, do_effect.
      rewrite Ed. cbn [self world].
      match goal with
      | |- context [_send_message env ?m ?s] =>
          destruct (send_message_returns env m s) as (b & m' & st2 & ->)
      end.
      reflexivity. }
    rewrite Ec. cbn [fst snd]. split; [reflexivity|]. split; [discriminate|].
    intros _. split; [|split].
    + rewrite (keeps__send_message _running (fun _ _ => eq_refl) (fun _ _ => eq_refl) env).
      reflexivity.
    + rewrite (keeps__send_message _heartbeat_thread (fun _ _ => eq_refl)
                 (fun _ _ => eq_refl) env).
      reflexivity.
    + destruct (do_connect_connected env st st1 Ed) as (sock & Hs & Hc).
      exists sock. split; [|exact Hc].
      rewrite (keeps__send_message _socket (fun _ _ => eq_refl) (fun _ _ => eq_refl) env).
      exact Hs.
  - assert (Ec : connect env st = (Raise e, st1)).
    { unfold connect, bind. rewrite Ed. reflexivity. }
    rewrite Ec. cbn [fst snd]. split; [reflexivity|]. split; [|discriminate].
    intros e' _. split; [reflexivity|].
    pose proof (keeps__do_connect _running (fun _ _ => eq_refl) env st) as H1.
    pose proof (keeps__do_connect _connected (fun _ _ => eq_refl) env st) as H2.
    pose proof (keeps__do_connect _heartbeat_thread (fun _ _ => eq_refl) env st) as H3.
    pose proof (keeps__do_connect _reconnect_thread (fun _ _ => eq_refl) env st) as H4.
    pose proof (emits__do_connect env st) as H5.
    rewrite Ed in *. cbn [snd] in *. auto.
Qed.

(** ** [disconnect] and the heartbeat *)

(** What [disconnect] does. *)
Lemma disconnect_spec st :
  exists st',
    disconnect st = (Ret tt, st')
    /\ _running (self st') = false
    /\ disconnected st'
    /\ _reconnect_thread (self st') = _reconnect_thread (self st)
    /\ trace (world st') = (trace (world st) ++ disconnect_effects (self st))%list.
Proof.
  unfold disconnect, bind, update_self, get_self, close_socket_quietly,
    disconnect_effects, disconnected.
  cbn [self world]. destruct st as [j w]. cbn [self world].
  destruct j as [id nm dt path hi ri mx sock hb rt run conn]. cbn.
  destruct hb, sock; cbn; eexists;
    (split; [reflexivity|]); cbn;
    repeat split; try discriminate; try (rewrite app_nil_r); try reflexivity;
    try (rewrite <- app_assoc; reflexivity).
Qed.


(** What one send hands to [sendall] is the frame of the stamped
    message. *)
Lemma send_message_frames env message st :
  exists more,
    trace (world (snd (_send_message env message st)))
    = (trace (world st) ++ more)%list
    /\ forall fd bytes res,
         In (SocketSendall fd bytes res) more ->
         exists text,
           json_dumps (PyDict (stamped env st message)) = Ret text
           /\ bytes = frame_of text.
Proof.
  send_cases env message st.
  - exists []. rewrite app_nil_r. split; [reflexivity|]. intros ? ? ? [].
  - eexists. split; [reflexivity|]. intros fd bytes res [Hin|[]].
    discriminate Hin.
  - eexists. split; [reflexivity|]. intros fd bytes res [Hin|[]].
    inversion Hin; subst. eauto.
  - eexists. split; [reflexivity|]. intros fd bytes res Hin.
    apply in_app_or in Hin. destruct Hin as [[Hin|[Hin|[]]]|Hin].
    + inversion Hin; subst. eauto.
    + discriminate Hin.
    + destruct (spawns (self st)); [destruct Hin as [Hin|[]]; discriminate Hin
                                   |destruct Hin].
Qed.

Lemma stamped_bare env st kind :
  stamped env st [("type", PyStr kind)]
  = bare_event kind (job_id (self st))
      (int_of_Q (time_time env (clock_reads (world st)) * 1000)).
Proof. reflexivity. Qed.

(** The heartbeat loop, round by round, while the job is running and
    the interval is not negative. *)
Lemma heartbeat_loop_rounds env rounds : forall st,
  (0 <= _heartbeat_interval (self st))%Q ->
  _running (self st) = true ->
  exists st' more,
    heartbeat_loop env rounds st = (Ret tt, st')
    /\ _running (self st') = true
    /\ _heartbeat_interval (self st') = _heartbeat_interval (self st)
    /\ job_id (self st') = job_id (self st)
    /\ trace (world st') = (trace (world st) ++ more)%list
    /\ sleeps_of more = repeat (_heartbeat_interval (self st)) rounds
    /\ forall fd bytes res,
         In (SocketSendall fd bytes res) more ->
         exists timestamp text,
           json_dumps (PyDict (bare_event "heartbeat" (job_id (self st)) timestamp))
           = Ret text
           /\ bytes = frame_of text.
Proof.
  induction rounds as [|rounds IH]; intros st Hq Hrun.
  - exists st, []. cbn. rewrite app_nil_r.
    split; [reflexivity|]. split; [exact Hrun|].
    do 4 (split; [reflexivity|]). intros ? ? ? [].
  - cbn [heartbeat_loop]. unfold bind at 1. unfold get_self at 1. rewrite Hrun.
    unfold bind at 1.
    pose proof (send_message_frames env [("type", PyStr "heartbeat")] st)
      as (more1 & Ht1 & Hf1).
    pose proof (send_message_trace env [("type", PyStr "heartbeat")] st)
      as (more1' & Ht1' & Hq1).
    assert (more1' = more1) by (rewrite Ht1 in Ht1'; eapply app_inv_head; eauto).
    subst more1'.
    pose proof (keeps__send_message _running (fun _ _ => eq_refl)
                  (fun _ _ => eq_refl) env [("type", PyStr "heartbeat")] st) as K1.
    pose proof (keeps__send_message _heartbeat_interval (fun _ _ => eq_refl)
                  (fun _ _ => eq_refl) env [("type", PyStr "heartbeat")] st) as K2.
    pose proof (keeps__send_message job_id (fun _ _ => eq_refl)
                  (fun _ _ => eq_refl) env [("type", PyStr "heartbeat")] st) as K3.
    destruct (send_message_returns env [("type", PyStr "heartbeat")] st)
      as (b & m & st1 & E1).
    rewrite E1 in *. cbn [snd] in *.
    unfold bind at 1. rewrite (time_sleep_nonneg Hq). unfold do_effect at 1.
    set (st2 := mkState (self st1) (emit (Sleep (_heartbeat_interval (self st))) (world st1))).
    destruct (IH st2) as (st' & more2 & E2 & R2 & I2 & J2 & T2 & S2 & F2).
    { cbn [st2 self]. rewrite K2. exact Hq. }
    { cbn [st2 self]. rewrite K1. exact Hrun. }
    rewrite E2. exists st', (more1 ++ Sleep (_heartbeat_interval (self st)) :: more2)%list.
    cbn [st2 self world emit trace] in *.
    split; [reflexivity|]. split; [exact R2|].
    split; [rewrite I2; exact K2|]. split; [rewrite J2; exact K3|].
    split; [rewrite T2, Ht1, <- !app_assoc; reflexivity|].
    split.
    + rewrite sleeps_of_app.
      assert (Es : sleeps_of more1 = []).
      { unfold no_reconnection_effect in Hq1. clear -Hq1.
        induction more1 as [|e l IHl]; [reflexivity|].
        cbn in Hq1. apply andb_prop in Hq1. destruct Hq1 as [He Hl].
        change (sleeps_of (e :: l))
          with ((match e with Sleep q => [q] | _ => [] end) ++ sleeps_of l)%list.
        rewrite (IHl Hl). destruct e; try reflexivity. discriminate He. }
      rewrite Es. cbn [app].
      change (sleeps_of (Sleep (_heartbeat_interval (self st)) :: more2))
        with (_heartbeat_interval (self st) :: sleeps_of more2).
      rewrite S2, K2. reflexivity.
    + intros fd bytes res Hin. apply in_app_or in Hin.
      destruct Hin as [Hin|[Hin|Hin]].
      * destruct (Hf1 fd bytes res Hin) as (text & Hj & Hb).
        rewrite stamped_bare in Hj. eauto.
      * discriminate Hin.
      * destruct (F2 fd bytes res Hin) as (ts & text & Hj & Hb).
        rewrite K3 in Hj. eauto.
Qed.

(** X5. While the job is running, a transport failure does not end the
    heartbeat loop: with an interval that is not negative, every round
    sends (or tries to send) one heartbeat event and then sleeps the
    interval, whatever the socket answers, and the job is still running
    after any number of rounds; what the loop hands to the socket is
    heartbeat events with the job id and nothing else. With a negative
    interval the first sleep raises [ValueError] and ends the loop. *)
Theorem heartbeat_loop_keeps_going (env : Env) (rounds : nat) (st : State) :
  _running (self st) = true ->
  ((0 <= _heartbeat_interval (self st))%Q ->
   exists st' more,
     heartbeat_loop env rounds st = (Ret tt, st')
     /\ _running (self st') = true
     /\ trace (world st') = (trace (world st) ++ more)%list
     /\ sleeps_of more = repeat (_heartbeat_interval (self st)) rounds
     /\ forall fd bytes res,
          In (SocketSendall fd bytes res) more ->
          exists timestamp text,
            json_dumps (PyDict (bare_event "heartbeat" (job_id (self st)) timestamp))
            = Ret text
            /\ bytes = frame_of text)
  /\ (~ (0 <= _heartbeat_interval (self st))%Q ->
      0 < rounds ->
      fst (heartbeat_loop env rounds st)
      = Raise (Exn ValueError "sleep length must be non-negative")).
Proof.
  intros Hrun. split.
  - intros Hq.
    destruct (heartbeat_loop_rounds env rounds st Hq Hrun)
      as (st' & more & E & R & _ & _ & T & S & F).
    exists st', more. auto.
  - intros Hneg Hpos. destruct rounds as [|rounds]; [lia|].
    cbn [heartbeat_loop]. unfold bind at 1. unfold get_self at 1. rewrite Hrun.
    unfold bind at 1.
    pose proof (keeps__send_message _heartbeat_interval (fun _ _ => eq_refl)
                  (fun _ _ => eq_refl) env [("type", PyStr "heartbeat")] st) as K2.
    destruct (send_message_returns env [("type", PyStr "heartbeat")] st)
      as (b & m & st1 & E1).
    rewrite E1 in *. cbn [snd] in *.
    unfold bind, time_sleep.
    destruct (Qle_bool 0 (_heartbeat_interval (self st))) eqn:Eq.
    + apply Qle_bool_iff in Eq. contradiction.
    + reflexivity.
Qed.

(** X5 on the job of the scenario, whose peer is gone. *)
Lemma heartbeat_loop_keeps_going_witness :
  _running (self st_lost) = true
  /\ exists st' more,
       heartbeat_loop refusing_env 3 st_lost = (Ret tt, st')
       /\ _running (self st') = true
       /\ trace (world st') = (trace (world st_lost) ++ more)%list
       /\ sleeps_of more = repeat (_heartbeat_interval (self st_lost)) 3
       /\ forall fd bytes res,
            In (SocketSendall fd bytes res) more ->
            exists timestamp text,
              json_dumps (PyDict (bare_event "heartbeat" (job_id (self st_lost)) timestamp))
              = Ret text
              /\ bytes = frame_of text.
Proof.
  assert (H : _running (self st_lost) = true) by reflexivity.
  split; [exact H|].
  apply (proj1 (heartbeat_loop_keeps_going refusing_env 3 st_lost H)).
  vm_compute. discriminate.
Defined.

(** ** The job [run_job] constructs *)

Lemma truthy_PyStr s : truthy (PyStr s) = true <-> s <> "".
Proof.
  cbn. destruct (String.eqb s "") eqn:E; cbn.
  - apply String.eqb_eq in E. split; congruence.
  - apply String.eqb_neq in E. split; auto.
Qed.

(** X6. The job [run_job] constructs. The connection target is the
    payload's [socketPath] when it has one; else the environment's
    [DONKEYLABS_SOCKET_PATH]; else [tcp://127.0.0.1:<port>] with the
    environment's [DONKEYLABS_TCP_PORT]. The name is the payload's, or
    ["unknown"]; the data is the payload's, or [None]. The heartbeat
    interval is the caller's (5 seconds by default), the reconnection
    settings are the defaults, and the job starts without a socket, not
    running and not connected. *)
Theorem read_job_descriptor (env : Env) (hb : option Q) (w : World) (j : Job) :
  read_job env hb w = Constructed j ->
  exists d,
    json_loads env (sys_stdin_readline env) = Some (PyDict d)
    /\ truthy (_socket_path j) = true
    /\ (forall v, dict_get d "socketPath" = Some v -> truthy v = true ->
                  _socket_path j = v)
    /\ (missing (dict_get d "socketPath") ->
        forall s, os_environ_get env "DONKEYLABS_SOCKET_PATH" = Some s ->
                  s <> "" -> _socket_path j = PyStr s)
    /\ (missing (dict_get d "socketPath") ->
        unset (os_environ_get env "DONKEYLABS_SOCKET_PATH") ->
        exists port,
          os_environ_get env "DONKEYLABS_TCP_PORT" = Some port
          /\ port <> ""
          /\ _socket_path j = PyStr ("tcp://127.0.0.1:" ++ port))
    /\ (forall v, dict_get d "name" = Some v -> truthy v = true -> name j = v)
    /\ (missing (dict_get d "name") -> name j = PyStr "unknown")
    /\ data j = match dict_get d "data" with Some v => v | None => PyNone end
    /\ _heartbeat_interval j = match hb with Some x => x | None => (5 # 1)%Q end
    /\ _reconnect_interval j = (2 # 1)%Q
    /\ _max_reconnect_attempts j = 30%Z
    /\ _socket j = None /\ _running j = false /\ _connected j = false
    /\ _heartbeat_thread j = None /\ _reconnect_thread j = None.
Proof.
  unfold read_job.
  destruct (negb (truthy (PyStr (sys_stdin_readline env)))); [discriminate|].
  destruct (json_loads env (sys_stdin_readline env)) as [payload|];
    [|discriminate].
  destruct payload as [| | | | | |d| |]; try discriminate.
  unfold payload_get.
  set (id := match dict_get d "jobId" with Some v => v | None => PyNone end).
  set (nm := match dict_get d "name" with Some v => v | None => PyNone end).
  set (dt := match dict_get d "data" with Some v => v | None => PyNone end).
  set (sp := match dict_get d "socketPath" with Some v => v | None => PyNone end).
  assert (Hnm : (forall v, dict_get d "name" = Some v -> nm = v)
                /\ (missing (dict_get d "name") -> truthy nm = false)).
  { unfold nm, missing. destruct (dict_get d "name"); split; intros;
      try congruence; auto. }
  assert (Hsp : (forall v, dict_get d "socketPath" = Some v -> sp = v)
                /\ (missing (dict_get d "socketPath") -> truthy sp = false)).
  { unfold sp, missing. destruct (dict_get d "socketPath"); split; intros;
      try congruence; auto. }
  replace (match dict_get d "jobId" with Some v => Ret v | None => Ret PyNone end)
    with (Ret id) by (unfold id; destruct (dict_get d "jobId"); reflexivity).
  replace (match dict_get d "name" with Some v => Ret v | None => Ret PyNone end)
    with (Ret nm) by (unfold nm; destruct (dict_get d "name"); reflexivity).
  replace (match dict_get d "data" with Some v => Ret v | None => Ret PyNone end)
    with (Ret dt) by (unfold dt; destruct (dict_get d "data"); reflexivity).
  replace (match dict_get d "socketPath" with Some v => Ret v | None => Ret PyNone end)
    with (Ret sp) by (unfold sp; destruct (dict_get d "socketPath"); reflexivity).
  cbv iota.
  clearbody id nm sp. destruct Hnm as [Hnm1 Hnm2]. destruct Hsp as [Hsp1 Hsp2].
  match goal with
  | |- context [if (negb (truthy ?i) || _)%bool then _ else _] =>
      destruct (truthy i) eqn:Eid; cbn [negb orb]; [|discriminate]
  end.
  set (envsp := os_environ_get env "DONKEYLABS_SOCKET_PATH") in *.
  set (envtp := os_environ_get env "DONKEYLABS_TCP_PORT") in *.
  assert (Hname : forall x, (if truthy nm then nm else PyStr "unknown") = x ->
            (forall v, dict_get d "name" = Some v -> truthy v = true -> x = v)
            /\ (missing (dict_get d "name") -> x = PyStr "unknown")).
  { intros x <-. split.
    - intros v Hv Ht. rewrite (Hnm1 v Hv), Ht. reflexivity.
    - intros Hm. rewrite (Hnm2 Hm). reflexivity. }
  destruct (truthy sp) eqn:Esp; cbn [negb].
  - (* the payload's socket path *)
    rewrite Esp. cbn [negb]. intros H. inversion H. clear H. cbn.
    exists d. split; [reflexivity|]. split; [exact Esp|].
    split; [intros v Hv _; exact (Hsp1 v Hv)|].
    split; [intros Hm; pose proof (Hsp2 Hm); congruence|].
    split; [intros Hm; pose proof (Hsp2 Hm); congruence|].
    destruct (Hname _ eq_refl) as [N1 N2].
    split; [exact N1|]. split; [exact N2|].
    unfold dt. repeat split; reflexivity.
  - (* the environment *)
    assert (Hno : forall v, dict_get d "socketPath" = Some v -> truthy v = true -> False).
    { intros v Hv Ht. rewrite <- (Hsp1 v Hv), Esp in Ht. discriminate. }
    destruct envsp as [s|] eqn:Es; cbn [of_optional].
    + destruct (truthy (PyStr s)) eqn:Ets.
      * (* DONKEYLABS_SOCKET_PATH *)
        rewrite andb_false_r. rewrite Ets. cbn [negb].
        intros H. inversion H. clear H. cbn.
        exists d. split; [reflexivity|]. split; [exact Ets|].
        split; [intros v Hv Ht; elim (Hno v Hv Ht)|].
        split; [intros _ s' Hs' _; congruence|].
        split.
        { intros _ [Hu|Hu]; [discriminate|].
          inversion Hu; subst. discriminate Ets. }
        destruct (Hname _ eq_refl) as [N1 N2].
        split; [exact N1|]. split; [exact N2|].
        unfold dt. repeat split; reflexivity.
      * (* an empty DONKEYLABS_SOCKET_PATH: the port *)
        cbn [negb]. rewrite andb_true_r.
        destruct envtp as [p|] eqn:Ep; cbn [of_optional].
        -- destruct (truthy (PyStr p)) eqn:Etp.
           ++ assert (Ht : truthy (PyStr ("tcp://127.0.0.1:" ++ p)) = true) by reflexivity.
              rewrite Ht. cbn [negb].
              intros H. inversion H. clear H. cbn [_socket_path __init__].
              exists d. split; [reflexivity|]. split; [exact Ht|].
              split; [intros v Hv Hv'; elim (Hno v Hv Hv')|].
              split.
              { intros _ s' Hs' Hne. inversion Hs'; subst.
                apply truthy_PyStr in Hne. congruence. }
              split.
              { intros _ _. exists p. split; [reflexivity|].
                split; [apply truthy_PyStr; exact Etp|reflexivity]. }
              destruct (Hname _ eq_refl) as [N1 N2].
              split; [exact N1|]. split; [exact N2|].
              unfold dt. cbn. repeat split; reflexivity.
           ++ rewrite ?Ets. cbn [negb andb orb]. discriminate.
        -- change (truthy PyNone) with false. cbn [negb andb orb].
           rewrite ?Ets. cbn [negb]. discriminate.
    + destruct envtp as [p|] eqn:Ep; cbn [of_optional].
      * destruct (truthy (PyStr p)) eqn:Etp; cbn [truthy negb andb].
        -- assert (Ht : truthy (PyStr ("tcp://127.0.0.1:" ++ p)) = true) by reflexivity.
           cbn [truthy] in Ht. rewrite Ht. cbn [negb].
           intros H. inversion H. clear H. cbn [_socket_path __init__].
           exists d. split; [reflexivity|]. split; [exact Ht|].
           split; [intros v Hv Hv'; elim (Hno v Hv Hv')|].
           split; [intros _ s' Hs' _; discriminate|].
           split.
           { intros _ _. exists p. split; [reflexivity|].
             split; [apply truthy_PyStr; exact Etp|reflexivity]. }
           destruct (Hname _ eq_refl) as [N1 N2].
           split; [exact N1|]. split; [exact N2|].
           unfold dt. cbn. repeat split; reflexivity.
        -- discriminate.
      * cbn. discriminate.
Qed.

(** X6 on the handshake of the scenario. *)
Lemma read_job_descriptor_witness :
  read_job responsive_env None World0
  = Constructed (__init__ (PyStr "j1") (PyStr "demo") (PyDict [("steps", PyInt 2)])
                   (PyStr "/tmp/x.sock") None None None)
  /\ exists d,
       json_loads responsive_env (sys_stdin_readline responsive_env)
       = Some (PyDict d).
Proof.
  assert (H : read_job responsive_env None World0
              = Constructed (__init__ (PyStr "j1") (PyStr "demo")
                               (PyDict [("steps", PyInt 2)])
                               (PyStr "/tmp/x.sock") None None None))
    by (vm_compute; reflexivity).
  split; [exact H|].
  destruct (read_job_descriptor responsive_env None World0 _ H) as (d & Hd & _).
  exists d. exact Hd.
Defined.

(** ** How [run_job] ends *)

Lemma emits_trans ks (A : Type) (m : M A) st more :
  emits ks m ->
  forallb (among ks) more = true ->
  forall st0, trace (world st) = (trace (world st0) ++ more)%list ->
  exists more',
    trace (world (snd (m st))) = (trace (world st0) ++ more')%list
    /\ forallb (among ks) more' = true.
Proof.
  intros Hm Hall st0 E. destruct (Hm st) as (more1 & E1 & H1).
  exists (more ++ more1)%list. rewrite E1, E, app_assoc. split; [reflexivity|].
  rewrite forallb_app, Hall, H1. reflexivity.
Qed.

Lemma emits_disconnect : emits [KJoin; KClose] disconnect.
Proof.
  intros st. destruct (disconnect_spec st) as (st' & E & _ & _ & _ & T).
  rewrite E. cbn [snd]. exists (disconnect_effects (self st)).
  split; [exact T|].
  unfold disconnect_effects.
  destruct (_heartbeat_thread (self st)), (_socket (self st)); reflexivity.
Qed.

Lemma emits_fail env error stack :
  emits [KStderr; KSendall; KStart] (fail env error stack).
Proof.
  unfold fail. apply emits_bind; [apply emits__send_message|].
  intros ?. apply emits_ret.
Qed.

(** What [run_handler] does, by how [connect] and the handler end. *)
Lemma run_handler_cases env handler st :
  (exists st1 v st2,
      connect env st = (Ret tt, st1) /\ handler st1 = (Ret v, st2)
      /\ run_handler env handler st
         = (Ret tt, snd (disconnect (snd (complete env v st2)))))
  \/ (exists st1 e st2,
        connect env st = (Ret tt, st1) /\ handler st1 = (Raise e, st2)
        /\ isinstance e [Exception] = true
        /\ run_handler env handler st
           = (Raise (Exit 1),
              snd (disconnect
                     (snd (fail env (str_exn e)
                             (Some (traceback_format_exc env e)) st2)))))
  \/ (exists st1 e st2,
        connect env st = (Ret tt, st1) /\ handler st1 = (Raise e, st2)
        /\ isinstance e [Exception] = false
        /\ run_handler env handler st = (Raise e, snd (disconnect st2)))
  \/ (exists e st1,
        connect env st = (Raise e, st1)
        /\ _do_connect env st = (Raise e, st1)
        /\ isinstance e [Exception] = true
        /\ run_handler env handler st
           = (Raise (Exit 1),
              snd (disconnect
                     (snd (fail env (str_exn e)
                             (Some (traceback_format_exc env e)) st1))))).
Proof.
  unfold run_handler, try_finally, try_except, bind.
  destruct (connect env st) as [[[]|e] st1] eqn:Ec.
  - destruct (handler st1) as [[v|e] st2] eqn:Eh.
    + left. exists st1, v, st2. split; [reflexivity|]. split; [exact Eh|].
      destruct (complete_returns env v st2) as [st3 E3]. rewrite E3. unfold ret.
      cbn [snd]. destruct (disconnect_returns st3) as [st4 E4]. rewrite E4.
      reflexivity.
    + destruct (isinstance e [Exception]) eqn:Ei.
      * right; left. exists st1, e, st2.
        split; [reflexivity|]. split; [exact Eh|]. split; [exact Ei|].
        destruct (fail_returns env (str_exn e) (Some (traceback_format_exc env e)) st2)
          as [st3 E3]. rewrite E3. unfold raise. cbn [snd].
        destruct (disconnect_returns st3) as [st4 E4]. rewrite E4. reflexivity.
      * right; right; left. exists st1, e, st2.
        split; [reflexivity|]. split; [exact Eh|]. split; [exact Ei|].
        unfold raise. destruct (disconnect_returns st2) as [st4 E4]. rewrite E4.
        reflexivity.
  - right; right; right. exists e, st1.
    assert (Ed : _do_connect env st = (Raise e, st1)).
    { revert Ec. unfold connect, bind.
      destruct (_do_connect env st) as [[[]|e0] s0] eqn:Ed.
      - unfold _start_heartbeat, _send_started, update_self, do_effect, bind.
        cbn [self world].
        match goal with
        | |- context [_send_message env ?m ?s] =>
            destruct (send_message_returns env m s) as (b & m' & st2 & ->)
        end.
        discriminate.
      - intros H. exact H. }
    split; [reflexivity|]. split; [exact Ed|].
    pose proof (_do_connect_raises env st Ed) as Hi.
    split; [exact Hi|]. rewrite Hi.
    destruct (fail_returns env (str_exn e) (Some (traceback_format_exc env e)) st1)
      as [st3 E3]. rewrite E3. unfold raise. cbn [snd].
    destruct (disconnect_returns st3) as [st4 E4]. rewrite E4. reflexivity.
Qed.

Lemma after_disconnect st :
  _running (self (snd (disconnect st))) = false
  /\ disconnected (snd (disconnect st)).
Proof.
  destruct (disconnect_spec st) as (st' & E & R & D & _). rewrite E. auto.
Qed.

(** X7. However [connect] and the handler end, [run_job] leaves the job
    not running and without a connected socket ([disconnect] always
    runs); no exception of class [Exception] leaves it; and it returns
    normally only when the connection was made and the handler
    returned. *)
Theorem run_handler_always_disconnects
    (env : Env) (handler : M pyval) (st : State) :
  let r := fst (run_handler env handler st) in
  let st' := snd (run_handler env handler st) in
  _running (self st') = false
  /\ disconnected st'
  /\ (forall e, r = Raise e -> isinstance e [Exception] = false)
  /\ (forall e, r = Raise e ->
        e = Exit 1
        \/ exists st1 st2,
             connect env st = (Ret tt, st1) /\ handler st1 = (Raise e, st2))
  /\ (r = Ret tt ->
      exists st1 v st2,
        connect env st = (Ret tt, st1) /\ handler st1 = (Ret v, st2)).
Proof.
  cbv zeta.
  destruct (run_handler_cases env handler st)
    as [(st1 & v & st2 & Ec & Eh & E)
       |[(st1 & e & st2 & Ec & Eh & Ei & E)
        |[(st1 & e & st2 & Ec & Eh & Ei & E)
         |(e & st1 & Ec & Ed & Ei & E)]]];
    rewrite E; cbn [fst snd];
    (split; [apply after_disconnect|]);
    (split; [apply after_disconnect|]).
  - split; [discriminate|]. split; [discriminate|]. intros _. eauto.
  - split; [intros e' H; inversion H; reflexivity|].
    split; [intros e' H; inversion H; auto|discriminate].
  - split; [intros e' H; inversion H; subst; exact Ei|].
    split; [intros e' H; inversion H; subst; eauto|discriminate].
  - split; [intros e' H; inversion H; reflexivity|].
    split; [intros e' H; inversion H; auto|discriminate].
Qed.

Lemma exit_status_byte n :
  (0 <= n <= 255)%Z -> exit_status (Raise (Exit n)) = n.
Proof.
  intros Hn. unfold exit_status.
  assert (E : fits_c_long n = true).
  { unfold fits_c_long. apply andb_true_intro. split.
    - apply Z.leb_le. lia.
    - apply Z.ltb_lt. lia. }
  rewrite E. apply Z.mod_small. lia.
Qed.

(** X8. A handler that ends with [sys.exit(n)], or with any exception
    that is not an [Exception], is not reported: [run_job] sends neither
    a completed nor a failed event, only disconnects, and passes the
    exception on, so that the status of a [sys.exit(n)] with [n] from 0
    to 255 is [n]. *)
Theorem handler_exit_passes_through
    (env : Env) (handler : M pyval) (st st1 st2 : State) (e : exn) :
  connect env st = (Ret tt, st1) ->
  handler st1 = (Raise e, st2) ->
  isinstance e [Exception] = false ->
  let st' := snd (run_handler env handler st) in
  fst (run_handler env handler st) = Raise e
  /\ trace (world st')
     = (trace (world st2) ++ disconnect_effects (self st2))%list
  /\ (forall n,
        e = Exit n ->
        (0 <= n <= 255)%Z ->
        exit_status (fst (run_handler env handler st)) = n).
Proof.
  intros Ec Eh Ei. cbv zeta.
  assert (E : run_handler env handler st = (Raise e, snd (disconnect st2))).
  { unfold run_handler, try_finally, try_except, bind.
    rewrite Ec, Eh, Ei. unfold raise.
    destruct (disconnect_returns st2) as [st4 E4]. rewrite E4. reflexivity. }
  rewrite E. cbn [fst snd]. split; [reflexivity|]. split.
  - destruct (disconnect_spec st2) as (st' & Ed & _ & _ & _ & T).
    rewrite Ed. exact T.
  - intros n -> Hn. apply exit_status_byte. exact Hn.
Qed.

(** X8 for a handler that calls [sys.exit(3)] after a progress event. *)
Lemma handler_exit_passes_through_witness :
  let st := mkState job_j1 World0 in
  exit_status (fst (run_handler responsive_env exiting_handler st)) = 3%Z
  /\ reconnect_starts
       (trace (world (snd (run_handler responsive_env exiting_handler st)))) = 0.
Proof.
  cbv zeta. split; [|vm_compute; reflexivity].
  pose proof
    (handler_exit_passes_through responsive_env exiting_handler
       (mkState job_j1 World0)
       (snd (connect responsive_env (mkState job_j1 World0)))
       (snd (exiting_handler
               (snd (connect responsive_env (mkState job_j1 World0)))))
       (Exit 3)) as P.
  cbv zeta in P.
  specialize (P ltac:(vm_compute; reflexivity) ltac:(vm_compute; reflexivity)
                eq_refl).
  exact (proj2 (proj2 P) 3%Z eq_refl ltac:(lia)).
Defined.

Lemma read_job_fresh env hb w j :
  read_job env hb w = Constructed j ->
  exists id nm dt sp, j = __init__ id nm dt sp hb None None.
Proof.
  unfold read_job.
  destruct (negb (truthy (PyStr (sys_stdin_readline env)))); [discriminate|].
  destruct (json_loads env (sys_stdin_readline env)) as [payload|];
    [|discriminate].
  destruct (payload_get payload "jobId"); [|discriminate].
  destruct (payload_get payload "name"); [|discriminate].
  destruct (payload_get payload "data"); [|discriminate].
  destruct (payload_get payload "socketPath"); [|discriminate].
  match goal with |- context [if ?b then Died _ else _] => destruct b end;
    [discriminate|].
  intros H. inversion H. eauto.
Qed.

Lemma emits_within_list ks ks' more :
  kinds_within ks ks' = true ->
  forallb (among ks) more = true -> forallb (among ks') more = true.
Proof.
  intros Hw Hall. rewrite forallb_forall in *. intros e He.
  apply (among_within ks ks' e Hw). exact (Hall e He).
Qed.

(** Kinds that exclude writes exclude accepted writes. *)
Lemma nothing_accepted_kinds ks more :
  forallb (among ks) more = true ->
  among ks (SocketSendall 0 "" None) = false ->
  nothing_accepted more.
Proof.
  intros Hall Hk fd bytes Hin.
  rewrite forallb_forall in Hall. specialize (Hall _ Hin).
  unfold among in *. cbn [kind_of] in *. congruence.
Qed.

Lemma nothing_accepted_app l1 l2 :
  nothing_accepted l1 -> nothing_accepted l2 -> nothing_accepted (l1 ++ l2)%list.
Proof.
  intros H1 H2 fd bytes Hin. apply in_app_or in Hin.
  destruct Hin as [Hin|Hin]; [exact (H1 _ _ Hin)|exact (H2 _ _ Hin)].
Qed.

(** A send on a link that is down, by a job that is not running. *)
Lemma send_message_idle env message st :
  link_down env st ->
  _running (self st) = false ->
  let st' := snd (_send_message env message st) in
  _running (self st') = false
  /\ _socket (self st') = _socket (self st)
  /\ _heartbeat_thread (self st') = _heartbeat_thread (self st)
  /\ _reconnect_thread (self st') = _reconnect_thread (self st)
  /\ (_connected (self st) = false -> _connected (self st') = false)
  /\ exists more,
       trace (world st') = (trace (world st) ++ more)%list
       /\ forallb (among [KStderr; KSendall]) more = true
       /\ nothing_accepted more.
Proof.
  intros Hdown Hrun. cbv zeta. unfold link_down in Hdown.
  send_cases env message st.
  - do 5 (split; [auto|]). exists []. rewrite app_nil_r.
    split; [reflexivity|]. split; [reflexivity|]. intros fd bytes [].
  - do 5 (split; [auto|]). eexists. split; [reflexivity|].
    split; [reflexivity|].
    intros fd bytes [Hin|[]]; discriminate.
  - match goal with
    | Hs : _socket (self st) = Some _, Ha : sendall_answer _ _ _ _ = None |- _ =>
        rewrite Hs in Hdown; elim (Hdown _ Ha)
    end.
  - unfold self_after_failure, spawns. rewrite Hrun. cbn [andb].
    destruct (self st); cbn in *.
    do 5 (split; [auto|]). eexists. split; [reflexivity|].
    split; [reflexivity|].
    intros fd bytes Hin. cbn in Hin.
    destruct Hin as [Hin|[Hin|[]]]; discriminate.
Qed.

(** X9. When the connection cannot be made, [run_job] never calls the
    handler. It tries to send a failed event on the socket that did not
    connect, which the transport refuses; nothing is accepted by the
    transport, no thread is started, the job is left not running and
    not connected, and the status is 1. *)
Theorem connect_failure_skips_the_handler
    (env : Env) (handler : M pyval) (hb : option Q) (w : World)
    (j : Job) (e : exn) :
  read_job env hb w = Constructed j ->
  fst (_do_connect env (mkState j w)) = Raise e ->
  let r := run_job env handler hb w in
  ended r = Raise (Exit 1)
  /\ (forall handler', run_job env handler' hb w = r)
  /\ (exists j', job r = Some j'
                 /\ _running j' = false /\ _connected j' = false
                 /\ _heartbeat_thread j' = None /\ _reconnect_thread j' = None)
  /\ exists more,
       trace (after r) = (trace w ++ more)%list
       /\ forallb (among [KCreate; KConnect; KStderr; KSendall; KClose]) more = true
       /\ nothing_accepted more.
Proof.
  intros Hread Hdo. cbv zeta.
  destruct (read_job_fresh env hb w j Hread) as (id & nm & dt & sp & Hj).
  assert (Hfresh : _socket j = None /\ _running j = false /\ _connected j = false
                   /\ _heartbeat_thread j = None /\ _reconnect_thread j = None).
  { rewrite Hj. cbn. auto. }
  destruct Hfresh as (Hs & Hr & Hc & Hh & Hrt).
  destruct (_do_connect env (mkState j w)) as [r1 st1] eqn:Ed.
  cbn [fst] in Hdo. subst r1.
  assert (Hrun : forall h,
             run_handler env h (mkState j w)
             = (Raise (Exit 1),
                snd (disconnect
                       (snd (fail env (str_exn e)
                               (Some (traceback_format_exc env e)) st1))))).
  { intros h. unfold run_handler, try_finally, try_except, bind.
    rewrite (connect_starts_with__do_connect env (mkState j w) Ed).
    rewrite (_do_connect_raises env (mkState j w) Ed).
    destruct (fail_returns env (str_exn e) (Some (traceback_format_exc env e)) st1)
      as [st3 E3]. rewrite E3. unfold raise. cbn [snd].
    destruct (disconnect_returns st3) as [st4 E4]. rewrite E4. reflexivity. }
  unfold run_job. rewrite Hread, (Hrun handler).
  split; [reflexivity|].
  split; [intros h'; rewrite (Hrun h'); reflexivity|].
  (* the state [_do_connect] leaves *)
  assert (Hdown : disconnected st1).
  { apply (attempt_connect_failed env (mkState j w) (e := e)).
    unfold attempt_connect, bind, close_socket_quietly. cbn [self].
    rewrite Hs. exact Ed. }
  pose proof (keeps__do_connect _running (fun _ _ => eq_refl) env (mkState j w)) as K1.
  pose proof (keeps__do_connect _connected (fun _ _ => eq_refl) env (mkState j w)) as K2.
  pose proof (keeps__do_connect _heartbeat_thread (fun _ _ => eq_refl) env (mkState j w)) as K3.
  pose proof (keeps__do_connect _reconnect_thread (fun _ _ => eq_refl) env (mkState j w)) as K4.
  destruct (emits__do_connect env (mkState j w)) as (more1 & T1 & A1).
  rewrite Ed in *. cbn [snd self world] in *.
  rewrite Hr in K1. rewrite Hc in K2. rewrite Hh in K3. rewrite Hrt in K4.
  (* the failed event *)
  set (st2 := snd (fail env (str_exn e) (Some (traceback_format_exc env e)) st1)).
  assert (Hfail : st2 = snd (_send_message env
                               (fail_message (str_exn e)
                                  (Some (traceback_format_exc env e))) st1)).
  { unfold st2, fail, bind, ret.
    match goal with
    | |- context [_send_message env ?m ?s] =>
        destruct (send_message_returns env m s) as (b & m' & s' & E)
    end.
    rewrite E. reflexivity. }
  destruct (send_message_idle env
              (fail_message (str_exn e) (Some (traceback_format_exc env e))) st1
              (disconnected_link_down env st1 Hdown) K1)
    as (F1 & F2 & F3 & F4 & F5 & more2 & T2 & A2 & N2).
  rewrite <- Hfail in *.
  (* the disconnection *)
  destruct (disconnect_spec st2) as (st3 & E3 & R3 & D3 & RT3 & T3).
  rewrite E3. cbn [snd job after]. split.
  - exists (self st3). split; [reflexivity|]. split; [exact R3|].
    assert (Kc : keeps _connected disconnect)
      by (apply keeps_disconnect; reflexivity).
    assert (Kh : keeps _heartbeat_thread disconnect)
      by (apply keeps_disconnect; reflexivity).
    specialize (Kc st2). specialize (Kh st2).
    rewrite E3 in Kc, Kh. cbn [snd] in Kc, Kh.
    rewrite Kc, Kh, RT3, F3, F4, K3, K4. auto.
  - exists (more1 ++ more2 ++ disconnect_effects (self st2))%list.
    rewrite T3, T2, T1, <- !app_assoc. split; [reflexivity|].
    assert (A3 : forallb (among [KClose]) (disconnect_effects (self st2)) = true).
    { unfold disconnect_effects. rewrite F3, K3.
      destruct (_socket (self st2)); reflexivity. }
    split.
    + rewrite !forallb_app.
      rewrite (emits_within_list [KCreate; KConnect]
                 [KCreate; KConnect; KStderr; KSendall; KClose] more1 eq_refl A1).
      rewrite (emits_within_list [KStderr; KSendall]
                 [KCreate; KConnect; KStderr; KSendall; KClose] more2 eq_refl A2).
      rewrite (emits_within_list [KClose]
                 [KCreate; KConnect; KStderr; KSendall; KClose] _ eq_refl A3). reflexivity.
    + apply nothing_accepted_app;
        [apply (nothing_accepted_kinds [KCreate; KConnect]); [exact A1|reflexivity]|].
      apply nothing_accepted_app; [exact N2|].
      apply (nothing_accepted_kinds [KClose]); [exact A3|reflexivity].
Qed.

(** X9 when the peer refuses the connection. *)
Lemma connect_failure_skips_the_handler_witness :
  ended (run_job unreachable_env exiting_handler None World0) = Raise (Exit 1)
  /\ run_job unreachable_env (ret PyNone) None World0
     = run_job unreachable_env exiting_handler None World0.
Proof.
  pose proof
    (connect_failure_skips_the_handler unreachable_env exiting_handler None World0
       (__init__ (PyStr "j1") (PyStr "demo") (PyDict [("steps", PyInt 2)])
          (PyStr "/tmp/x.sock") None None None)
       (exn_of_errno ECONNREFUSED)) as P.
  cbv zeta in P.
  specialize (P ltac:(vm_compute; reflexivity) ltac:(vm_compute; reflexivity)).
  split; [exact (proj1 P)|exact (proj1 (proj2 P) (ret PyNone))].
Defined.

(** ** Frames as lines *)

Lemma printable_app a b : printable (a ++ b) = (printable a && printable b)%bool.
Proof.
  induction a as [|c a IH]; [reflexivity|].
  cbn. rewrite IH, andb_assoc. reflexivity.
Qed.

Lemma printable_wrap a b x :
  printable a = true -> printable b = true -> printable x = true ->
  printable (a ++ x ++ b) = true.
Proof. intros Ha Hb Hx. rewrite !printable_app, Ha, Hb, Hx. reflexivity. Qed.

Lemma printable_escape_char c : printable (escape_char c) = true.
Proof. destruct c as [[] [] [] [] [] [] [] []]; vm_compute; reflexivity. Qed.

Lemma printable_escape s : printable (escape s) = true.
Proof.
  induction s as [|c s IH]; [reflexivity|].
  cbn [escape]. rewrite printable_app, printable_escape_char, IH. reflexivity.
Qed.

Lemma printable_quote s : printable (quote s) = true.
Proof.
  unfold quote. rewrite !printable_app, printable_escape. reflexivity.
Qed.

Lemma printable_digits d : printable (NilEmpty.string_of_uint d) = true.
Proof.
  induction d; cbn [NilEmpty.string_of_uint printable];
    rewrite ?IHd; reflexivity.
Qed.

Lemma printable_uint d : printable (NilZero.string_of_uint d) = true.
Proof.
  destruct d; try reflexivity; unfold NilZero.string_of_uint;
    apply printable_digits.
Qed.

Lemma printable_int z : printable (NilZero.string_of_int (Z.to_int z)) = true.
Proof.
  destruct (Z.to_int z) as [d|d]; cbn [NilZero.string_of_int printable];
    rewrite printable_uint; reflexivity.
Qed.

Lemma printable_concat sep parts :
  printable sep = true ->
  forallb printable parts = true ->
  printable (String.concat sep parts) = true.
Proof.
  intros Hsep. induction parts as [|p rest IH]; [reflexivity|].
  cbn [forallb]. intros H. apply andb_prop in H. destruct H as [Hp Hrest].
  cbn [String.concat]. destruct rest as [|q rest']; [exact Hp|].
  rewrite !printable_app, Hp, Hsep, (IH Hrest). reflexivity.
Qed.

(** The encoder writes printable ASCII only ([ensure_ascii] is on). *)
Lemma json_dumps_printable v : forall text,
  floats_printable v = true -> json_dumps v = Ret text -> printable text = true.
Proof.
  induction v as [|b|z|t|s|items IH|entries IH| |] using pyval_nested_ind;
    intros text Hf H.
  - inversion H. reflexivity.
  - destruct b; inversion H; reflexivity.
  - inversion H. apply printable_int.
  - inversion H; subst. exact Hf.
  - inversion H. apply printable_quote.
  - rewrite json_dumps_list in H.
    destruct (dumps_items items) as [parts|e] eqn:E; [|discriminate].
    inversion H; subst. clear H.
    apply (printable_wrap "[" "]"); [reflexivity|reflexivity|].
    apply printable_concat; [reflexivity|].
    cbn [floats_printable] in Hf.
    revert parts E. induction IH as [|x rest Hx _ IHrest]; intros parts E.
    + inversion E. reflexivity.
    + cbn [dumps_items] in E. cbn [forallb] in Hf.
      apply andb_prop in Hf. destruct Hf as [Hfx Hfrest].
      destruct (json_dumps x) as [sx|] eqn:Ex; [|discriminate].
      destruct (dumps_items rest) as [srest|] eqn:Er; [|discriminate].
      inversion E; subst. cbn [forallb].
      rewrite (Hx sx Hfx eq_refl), (IHrest Hfrest srest eq_refl). reflexivity.
  - rewrite json_dumps_dict in H.
    destruct (dumps_entries entries) as [parts|e] eqn:E; [|discriminate].
    inversion H; subst. clear H.
    apply (printable_wrap "{" "}"); [reflexivity|reflexivity|].
    apply printable_concat; [reflexivity|].
    cbn [floats_printable] in Hf.
    revert parts E. induction IH as [|[k x] rest Hx _ IHrest]; intros parts E.
    + inversion E. reflexivity.
    + cbn [dumps_entries] in E. cbn [forallb snd] in Hf. cbn [snd] in Hx.
      apply andb_prop in Hf. destruct Hf as [Hfx Hfrest].
      destruct (json_dumps x) as [sx|] eqn:Ex; [|discriminate].
      destruct (dumps_entries rest) as [srest|] eqn:Er; [|discriminate].
      assert (Hp : printable (quote k ++ ": " ++ sx) = true)
        by (rewrite !printable_app, printable_quote, (Hx sx Hfx eq_refl);
            reflexivity).
      inversion E; subst.
      change ((printable (quote k ++ ": " ++ sx)
               && forallb printable srest)%bool = true).
      rewrite Hp, (IHrest Hfrest srest eq_refl). reflexivity.
  - discriminate.
  - discriminate.
Qed.

Lemma floats_printable_dict_set d k v :
  forallb (fun kv => floats_printable (snd kv)) d = true ->
  floats_printable v = true ->
  forallb (fun kv => floats_printable (snd kv)) (dict_set d k v) = true.
Proof.
  intros Hd Hv. induction d as [|[k' v'] rest IH]; cbn.
  - rewrite Hv. reflexivity.
  - cbn in Hd. apply andb_prop in Hd. destruct Hd as [H1 H2].
    destruct (String.eqb k' k); cbn.
    + rewrite Hv, H2. reflexivity.
    + rewrite H1, (IH H2). reflexivity.
Qed.

(** X10. What [_send_message] hands to the socket is one line: the
    JSON text of the stamped message, in printable ASCII (so without a
    newline inside, and byte for character under UTF-8), followed by
    one newline. *)
Theorem frames_are_lines (env : Env) (message : dict) (st : State) :
  floats_printable (PyDict message) = true ->
  floats_printable (job_id (self st)) = true ->
  exists more,
    trace (world (snd (_send_message env message st)))
    = (trace (world st) ++ more)%list
    /\ forall fd bytes answer,
         In (SocketSendall fd bytes answer) more ->
         exists text,
           json_dumps (PyDict (stamped env st message)) = Ret text
           /\ bytes = text ++ newline
           /\ printable text = true.
Proof.
  intros Hm Hid.
  destruct (send_message_frames env message st) as (more & T & F).
  exists more. split; [exact T|].
  intros fd bytes answer Hin.
  destruct (F fd bytes answer Hin) as (text & Hd & Hb).
  exists text. split; [exact Hd|]. split; [exact Hb|].
  apply (json_dumps_printable (PyDict (stamped env st message))); [|exact Hd].
  unfold stamped. cbn [floats_printable].
  apply floats_printable_dict_set; [|reflexivity].
  apply floats_printable_dict_set; [exact Hm|exact Hid].
Qed.

(** X10 for a progress event with a fraction and a message of two
    lines in a language that is not ASCII. *)
Lemma frames_are_lines_witness :
  exists more,
    trace (world (snd (_send_message responsive_env
                         [("type", PyStr "progress"); ("percent", PyFloat "12.5");
                          ("message",
                           PyStr (String (ascii_of_nat 233)
                                    (String (ascii_of_nat 10) "fin")))]
                         st_connected)))
    = (trace (world st_connected) ++ more)%list
    /\ Forall (fun e => match e with
                        | SocketSendall _ bytes _ =>
                            exists text, bytes = text ++ newline
                                         /\ printable text = true
                        | _ => True
                        end) more.
Proof.
  destruct (frames_are_lines responsive_env
              [("type", PyStr "progress"); ("percent", PyFloat "12.5");
               ("message",
                PyStr (String (ascii_of_nat 233)
                         (String (ascii_of_nat 10) "fin")))]
              st_connected)
    as (more & T & F); [vm_compute; reflexivity|vm_compute; reflexivity|].
  exists more. split; [exact T|].
  apply Forall_forall. intros e Hin. destruct e; try exact I.
  destruct (F _ _ _ Hin) as (text & _ & Hb & Hp). eauto.
Defined.

(** ** The two locks *)

Module LockFacts.

Import Interleaving InterleavingFacts Locks.

(** A thread stands still exactly when it waits for a lock or has
    nothing left to run. *)
Lemma thread_step_none l m t :
  thread_step l m t = None <-> waiting m t = true \/ finished t = true.
Proof.
  destruct m, l.
  destruct t as [[pc|]|pc|];
    [destruct pc| |destruct pc as [| | | |? pc| | | |];
                   [| | | |destruct pc| | | |]|];
    cbn;
    repeat match goal with
      | |- context [if ?b then _ else _] => destruct b
      | |- context [match ?x with _ => _ end] => is_var x; destruct x
      end;
    cbn; split;
    solve [ discriminate | auto
          | intros [H|H]; discriminate H ].
Qed.

Lemma count_positive p : forall l,
  1 <= count p l -> exists i t, nth_error l i = Some t /\ p t = true.
Proof.
  induction l as [|x rest IH]; [cbn; lia|].
  rewrite count_cons. destruct (p x) eqn:Hx.
  - intros _. exists 0, x. auto.
  - cbn. intros H. destruct (IH H) as (i & t & Hn & Ht).
    exists (S i), t. auto.
Qed.

(** Every step keeps [self._reconnect_lock] held exactly while one
    thread is inside [_try_reconnect]'s block. *)
Lemma reconnect_lock_step l c c' :
  count holds_reconnect_lock (pool c) = Nat.b2n (reconnect_lock (mem c)) ->
  step l c = Some c' ->
  count holds_reconnect_lock (pool c') = Nat.b2n (reconnect_lock (mem c')).
Proof.
  intros Hinv Hstep.
  destruct (step_counts _ _ Hstep)
    as (t & m' & t' & started & _ & Hts & Hm & Hcount).
  specialize (Hcount holds_reconnect_lock). rewrite Hm. clear Hm Hstep.
  assert (Hnew : (if started then Nat.b2n (holds_reconnect_lock (Reconnector RAcquire))
                  else 0) = 0) by (destruct started; reflexivity).
  rewrite Hnew in Hcount. clear Hnew.
  destruct c as [m ps]. cbn [mem pool] in *. destruct m. destruct l.
  destruct t as [[pc|]|pc|];
    [destruct pc| |destruct pc as [| | | |? pc| | | |];
                   [| | | |destruct pc| | | |]|];
    step_cases Hts; inversion Hts; subst; clear Hts; cbn in *;
    repeat match goal with
      | H : context [Nat.b2n ?b] |- _ => is_var b; destruct b
      | |- context [Nat.b2n ?b] => is_var b; destruct b
      end;
    cbn in *; lia.
Qed.

Lemma reconnect_lock_run schedule : forall c c',
  count holds_reconnect_lock (pool c) = Nat.b2n (reconnect_lock (mem c)) ->
  run schedule c = Some c' ->
  count holds_reconnect_lock (pool c') = Nat.b2n (reconnect_lock (mem c')).
Proof.
  induction schedule as [|l rest IH]; intros c c' Hinv Hrun; cbn in Hrun.
  - inversion Hrun; subst. exact Hinv.
  - destruct (step l c) as [c1|] eqn:Es; [|discriminate].
    eapply IH; [|exact Hrun]. eapply reconnect_lock_step; eassumption.
Qed.

Lemma runs_unless_waiting c i t :
  nth_error (pool c) i = Some t ->
  waiting (mem c) t = false -> finished t = false -> can_run c i.
Proof.
  intros Hn Hw Hf l Hl. unfold step. rewrite Hl, Hn.
  destruct (thread_step l (mem c) t) as [[[m' t'] started]|] eqn:E; [eauto|].
  apply thread_step_none in E. destruct E; congruence.
Qed.

Lemma critical_runs c i t :
  nth_error (pool c) i = Some t -> critical t = true -> can_run c i.
Proof.
  intros Hn Hc. apply (runs_unless_waiting c i t Hn).
  - unfold critical in Hc. unfold waiting.
    destruct t as [[pc|]|pc|]; try discriminate Hc.
    + cbn in *. destruct pc; try discriminate Hc; reflexivity.
    + destruct pc; try discriminate Hc. cbn in *.
      destruct pc; try discriminate Hc; reflexivity.
  - unfold critical in Hc.
    destruct t as [[pc|]|pc|]; try discriminate Hc; try reflexivity.
    destruct pc; try discriminate Hc; reflexivity.
Qed.

(** X11. Under every schedule, [self._lock] is held exactly while one
    thread is inside the [with self._lock:] block of [_send_message]
    (so two frames are never written at once, and the lock is released
    also when an exception leaves the block), and
    [self._reconnect_lock] exactly while one thread is inside the block
    of [_try_reconnect]. A thread stands still only at the head of a
    block whose lock is held, or when it has ended; and whenever a
    thread waits for a lock, some thread can run: the two locks never
    deadlock. *)
Theorem locks_exclude_and_never_deadlock
    (callers max_attempts : nat) (schedule : list label) (c : config) :
  run schedule (initial callers max_attempts) = Some c ->
  count critical (pool c) = Nat.b2n (lock (mem c))
  /\ count holds_reconnect_lock (pool c) = Nat.b2n (reconnect_lock (mem c))
  /\ (forall l t,
        thread_step l (mem c) t = None
        <-> waiting (mem c) t = true \/ finished t = true)
  /\ (forall i t,
        nth_error (pool c) i = Some t ->
        waiting (mem c) t = true ->
        exists j, j <> i /\ can_run c j).
Proof.
  intros Hrun.
  pose proof (invariant_run _ (invariant_initial callers max_attempts) Hrun)
    as (_ & _ & Hlock & _).
  assert (Hrl : count holds_reconnect_lock (pool c)
                = Nat.b2n (reconnect_lock (mem c))).
  { apply (reconnect_lock_run schedule (initial callers max_attempts) c);
      [|exact Hrun].
    unfold initial. cbn [pool mem reconnect_lock].
    rewrite count_repeat_false by reflexivity. reflexivity. }
  split; [exact Hlock|]. split; [exact Hrl|].
  split; [intros l t; apply thread_step_none|].
  assert (Hsend : lock (mem c) = true -> exists j, can_run c j).
  { intros Hl. rewrite Hl in Hlock.
    destruct (count_positive critical (pool c)) as (j & t' & Hn & Hc);
      [rewrite Hlock; cbn; lia|].
    exists j. exact (critical_runs c j t' Hn Hc). }
  assert (Hsome : forall i t, nth_error (pool c) i = Some t ->
                              waiting (mem c) t = true ->
                              exists j, can_run c j).
  { intros i t Hn Hw.
    assert (Hcases : lock (mem c) = true
                     \/ (t = Reconnector RAcquire /\ reconnect_lock (mem c) = true)).
    { unfold waiting in Hw. destruct t as [[pc|]|pc|]; cbn in Hw;
        try discriminate Hw.
      - destruct pc; try discriminate Hw. auto.
      - destruct pc; try discriminate Hw; auto.
        destruct pc; try discriminate Hw. auto. }
    destruct Hcases as [Hl|[-> Hr]]; [exact (Hsend Hl)|].
    rewrite Hr in Hrl.
    destruct (count_positive holds_reconnect_lock (pool c)) as (j & t' & Hn' & Hh);
      [rewrite Hrl; cbn; lia|].
    destruct (waiting (mem c) t') eqn:Hw'.
    - apply Hsend. unfold waiting in Hw'.
      destruct t' as [[pc|]|pc|]; try discriminate Hh.
      destruct pc; try discriminate Hh; cbn in Hw'; try discriminate Hw'.
      destruct pc; try discriminate Hw'. exact Hw'.
    - exists j. apply (runs_unless_waiting c j t' Hn' Hw').
      destruct t' as [[pc|]|pc|]; try discriminate Hh.
      destruct pc; try discriminate Hh; reflexivity. }
  intros i t Hn Hw. destruct (Hsome i t Hn Hw) as (j & Hj).
  exists j. split; [|exact Hj].
  intros ->.
  destruct (Hj (mkLabel i Sent ConnectOk CallSend) eq_refl) as (c' & Hs).
  unfold step in Hs. cbn [who] in Hs. rewrite Hn in Hs.
  assert (E : thread_step (mkLabel i Sent ConnectOk CallSend) (mem c) t = None)
    by (apply thread_step_none; auto).
  rewrite E in Hs. discriminate Hs.
Qed.

(** X11 on the schedule with two failures, continued until the
    heartbeat thread waits for [self._lock], which the reconnection
    thread holds while it sends its started event. *)
Lemma locks_exclude_and_never_deadlock_witness :
  exists c,
    run (two_failures
         ++ [mkLabel 2 Sent ConnectOk CallSend; mkLabel 2 Sent ConnectOk CallSend;
             mkLabel 2 Sent ConnectOk CallSend; mkLabel 2 Sent ConnectOk CallSend;
             mkLabel 2 Sent ConnectOk CallSend;
             mkLabel 1 Sent ConnectOk CallSend; mkLabel 1 Sent ConnectOk CallSend;
             mkLabel 1 Sent ConnectOk CallSend])%list
        (initial 2 2) = Some c
    /\ nth_error (pool c) 1 = Some (Caller (Some SAcquire))
    /\ waiting (mem c) (Caller (Some SAcquire)) = true
    /\ exists j, j <> 1 /\ can_run c j.
Proof.
  eexists. split; [vm_compute; reflexivity|].
  split; [reflexivity|]. split; [reflexivity|].
  refine (proj2 (proj2 (proj2
    (locks_exclude_and_never_deadlock 2 2
       (two_failures
        ++ [mkLabel 2 Sent ConnectOk CallSend; mkLabel 2 Sent ConnectOk CallSend;
            mkLabel 2 Sent ConnectOk CallSend; mkLabel 2 Sent ConnectOk CallSend;
            mkLabel 2 Sent ConnectOk CallSend;
            mkLabel 1 Sent ConnectOk CallSend; mkLabel 1 Sent ConnectOk CallSend;
            mkLabel 1 Sent ConnectOk CallSend])%list _ _)))
    1 (Caller (Some SAcquire)) _ _); vm_compute; reflexivity.
Defined.

End LockFacts.

(** ** The end of the reconnection thread *)

Lemma keeps_attempt_connect (T : Type) (f : Job -> T) env :
  (forall v j, f (set__socket v j) = f j) -> keeps f (attempt_connect env).
Proof.
  intros Hf. unfold attempt_connect. apply keeps_bind.
  - apply keeps_close_socket_quietly. exact Hf.
  - intros. apply keeps__do_connect. exact Hf.
Qed.

(** How the attempts end: with an answer, or, when the interval is
    negative, with the [ValueError] of [time.sleep] after the first
    attempt failed. *)
Lemma reconnect_attempts_ends env todo attempt st :
  ((exists b st', reconnect_attempts env todo attempt st = (Ret b, st'))
   /\ ((0 <= _reconnect_interval (self st))%Q \/ todo = 0
       \/ exists st1, attempt_connect env st = (Ret tt, st1)))
  \/ (~ (0 <= _reconnect_interval (self st))%Q
      /\ 0 < todo
      /\ exists e st1 line,
           attempt_connect env st = (Raise e, st1)
           /\ reconnect_attempts env todo attempt st
              = (Raise (Exn ValueError "sleep length must be non-negative"),
                 mkState (self st1) (emit (Stderr line) (world st1)))).
Proof.
  destruct (Qle_bool 0 (_reconnect_interval (self st))) eqn:Eq.
  - left. apply Qle_bool_iff in Eq.
    rewrite (reconnect_attempts_by_outcome env todo attempt st Eq).
    destruct (attempts_by_outcome_sleeps env (_reconnect_interval (self st))
                (_max_reconnect_attempts (self st)) todo attempt st)
      as (b & st' & k & Es & _). split; eauto.
  - assert (Hneg : ~ (0 <= _reconnect_interval (self st))%Q).
    { intros H. apply Qle_bool_iff in H. congruence. }
    destruct todo as [|todo].
    + left. split; [|auto]. cbn [reconnect_attempts].
      unfold bind, get_self, print_stderr, do_effect, ret. eauto.
    + pose proof (keeps_attempt_connect Q _reconnect_interval env
                    (fun _ _ => eq_refl) st) as Hi.
      destruct (attempt_connect env st) as [[[]|e] st1] eqn:Ea; cbn [snd] in Hi.
      * left. split; [|eauto]. cbn [reconnect_attempts]. unfold try_except at 1.
        rewrite attempt_then. unfold bind at 1. rewrite Ea.
        unfold bind, update_self, print_stderr, do_effect. cbn [self world].
        match goal with
        | |- context [_send_started env ?s] =>
            destruct (_send_started_returns env s) as [st2 ->]
        end.
        unfold ret. eauto.
      * right. split; [exact Hneg|]. split; [lia|].
        exists e, st1. eexists. split; [reflexivity|].
        cbn [reconnect_attempts]. unfold try_except at 1.
        rewrite attempt_then. unfold bind at 1. rewrite Ea.
        rewrite (attempt_connect_raises env st Ea).
        unfold bind, get_self, print_stderr, do_effect. cbn [self world].
        unfold time_sleep. rewrite Hi, Eq. unfold raise. reflexivity.
Qed.

(** X12. How the reconnection thread ends, for a reconnect interval
    within the range of [time.sleep] or negative. With an interval that
    is not negative [_reconnect_loop] returns, and whenever it returns
    it has emptied [self._reconnect_thread]. With a negative interval
    the first failed attempt is followed by the [ValueError] of
    [time.sleep], and that is the one way the thread raises: nothing
    was slept, no socket is connected, and [self._reconnect_thread] is
    left as it was, so that a job whose slot was filled starts no
    reconnection thread again. *)
Theorem reconnect_loop_ends (env : Env) (st : State) :
  (_reconnect_interval (self st) <= sleep_limit)%Q ->
  let r := fst (_reconnect_loop env st) in
  let st' := snd (_reconnect_loop env st) in
  ((0 <= _reconnect_interval (self st))%Q -> r = Ret tt)
  /\ (r = Ret tt -> _reconnect_thread (self st') = None)
  /\ (forall e, r = Raise e ->
        e = Exn ValueError "sleep length must be non-negative"
        /\ ~ (0 <= _reconnect_interval (self st))%Q
        /\ _reconnect_thread (self st') = _reconnect_thread (self st)
        /\ _running (self st') = _running (self st)
        /\ slept st' = slept st
        /\ disconnected st'
        /\ (is_some (_reconnect_thread (self st)) = true ->
            spawns (self st') = false))
  /\ (~ (0 <= _reconnect_interval (self st))%Q ->
      _connected (self st) = false ->
      (0 < _max_reconnect_attempts (self st))%Z ->
      (exists e, fst (attempt_connect env (attempting st)) = Raise e) ->
      r = Raise (Exn ValueError "sleep length must be non-negative")).
Proof.
  intros _. cbv zeta.
  assert (Etry : _connected (self st) = false ->
                 _try_reconnect env st
                 = reconnect_attempts env
                     (Z.to_nat (_max_reconnect_attempts (self st))) 0
                     (attempting st)).
  { intros Hc. unfold _try_reconnect, bind, get_self. rewrite Hc. reflexivity. }
  assert (Eloop : forall b st1,
             _try_reconnect env st = (Ret b, st1) ->
             fst (_reconnect_loop env st) = Ret tt
             /\ _reconnect_thread (self (snd (_reconnect_loop env st))) = None).
  { intros b st1 E. unfold _reconnect_loop, bind. rewrite E.
    destruct b; cbn; auto. }
  destruct (_connected (self st)) eqn:Hc.
  { (* already connected *)
    assert (E : _try_reconnect env st = (Ret true, st)).
    { unfold _try_reconnect, bind, get_self. rewrite Hc. reflexivity. }
    destruct (Eloop _ _ E) as [E1 E2]. rewrite E1.
    split; [reflexivity|]. split; [intros _; exact E2|].
    split; discriminate. }
  specialize (Etry eq_refl).
  destruct (reconnect_attempts_ends env
              (Z.to_nat (_max_reconnect_attempts (self st))) 0 (attempting st))
    as [[(b & st1 & E) Hwhy]|(Hneg & Htodo & e & st1 & line & Ea & E)].
  - rewrite <- Etry in E. destruct (Eloop _ _ E) as [E1 E2]. rewrite E1.
    split; [reflexivity|]. split; [intros _; exact E2|].
    split; [discriminate|]. intros Hneg _ Hmax [e He]. exfalso.
    destruct Hwhy as [Hq|[Hz|[st2 Hok]]].
    + exact (Hneg Hq).
    + lia.
    + rewrite Hok in He. discriminate He.
  - rewrite <- Etry in E.
    assert (El : _reconnect_loop env st
                 = (Raise (Exn ValueError "sleep length must be non-negative"),
                    mkState (self st1) (emit (Stderr line) (world st1)))).
    { unfold _reconnect_loop, bind. rewrite E. reflexivity. }
    rewrite El. cbn [fst snd self].
    split; [intros Hq; elim (Hneg Hq)|]. split; [discriminate|].
    split; [|intros; reflexivity].
    intros e' He'. inversion He'; subst e'. clear He'.
    split; [reflexivity|]. split; [exact Hneg|].
    pose proof (keeps_attempt_connect _ _reconnect_thread env
                  (fun _ _ => eq_refl) (attempting st)) as K1.
    pose proof (keeps_attempt_connect _ _running env
                  (fun _ _ => eq_refl) (attempting st)) as K2.
    pose proof (awake_attempt_connect env (attempting st)) as K3.
    rewrite Ea in K1, K2, K3. cbn [snd attempting self] in K1, K2, K3.
    split; [exact K1|]. split; [exact K2|]. split.
    { rewrite (@slept_emit (Stderr line) st1 (self st1) (or_introl eq_refl)).
      rewrite K3. apply slept_emit. left. reflexivity. }
    split.
    { pose proof (attempt_connect_failed env (attempting st) Ea) as D.
      unfold disconnected in *. exact D. }
    intros Hslot. unfold spawns. rewrite K1.
    destruct (_reconnect_thread (self st)); [|discriminate Hslot].
    cbn. apply andb_false_r.
Qed.

(** X12 on a job with an interval of minus one second, whose peer
    refuses the connection. *)
Lemma reconnect_loop_ends_witness :
  (_reconnect_interval (self st_hasty) <= sleep_limit)%Q
  /\ fst (_reconnect_loop unreachable_env st_hasty)
     = Raise (Exn ValueError "sleep length must be non-negative")
  /\ _reconnect_thread (self (snd (_reconnect_loop unreachable_env st_hasty)))
     = Some _reconnect_loop_target.
Proof.
  assert (H : (_reconnect_interval (self st_hasty) <= sleep_limit)%Q).
  { vm_compute. discriminate. }
  split; [exact H|].
  assert (R : fst (_reconnect_loop unreachable_env st_hasty)
              = Raise (Exn ValueError "sleep length must be non-negative")).
  { apply (proj2 (proj2 (proj2 (reconnect_loop_ends unreachable_env st_hasty H)))).
    - intros Hq. vm_compute in Hq. apply Hq. reflexivity.
    - reflexivity.
    - reflexivity.
    - eexists. vm_compute. reflexivity. }
  split; [exact R|].
  destruct (proj1 (proj2 (proj2 (reconnect_loop_ends unreachable_env st_hasty H)))
              _ R) as (_ & _ & Hslot & _).
  rewrite Hslot. reflexivity.
Defined.

(** ** Reporting methods, and the start of [run_job] again *)

Lemma reports_send env message : reports (_send_message env message ;; ret PyNone).
Proof.
  intros st. unfold bind, ret.
  send_cases env message st.
  - exists st, []. rewrite app_nil_r. cbn. repeat split; auto.
  - eexists _, _. split; [reflexivity|]. cbn [world self trace world_after_send].
    split; [reflexivity|]. cbn. repeat split; auto.
  - eexists _, _. split; [reflexivity|]. cbn [world self trace world_after_send].
    split; [reflexivity|]. cbn. repeat split; auto.
  - eexists _, _. split; [reflexivity|]. cbn [world self trace world_after_send].
    split; [reflexivity|].
    unfold self_after_failure. destruct (spawns (self st)); destruct (self st);
      cbn; repeat split; auto.
Qed.


(** X14. A line on stdin that parses to something other than an object
    (a list, a string, a number, [null]) is not reported as a missing
    job id: [payload.get] raises [AttributeError], which nothing
    catches. No job is constructed, nothing is written or connected,
    and the status is 1. *)
Theorem payload_must_be_an_object
    (env : Env) (handler : M pyval) (hb : option Q) (w : World) (v : pyval) :
  sys_stdin_readline env <> "" ->
  json_loads env (sys_stdin_readline env) = Some v ->
  (forall d, v <> PyDict d) ->
  exists msg,
    run_job env handler hb w = mkRun (Raise (Exn AttributeError msg)) None w
    /\ exit_status (ended (run_job env handler hb w)) = 1%Z.
Proof.
  intros Hline Hparse Hv.
  assert (E : negb (truthy (PyStr (sys_stdin_readline env))) = false).
  { apply negb_false_iff. apply truthy_PyStr. exact Hline. }
  unfold run_job, read_job. rewrite E, Hparse.
  destruct v as [| | | | | |d0| |]; try (eexists; split; reflexivity).
  elim (Hv d0). reflexivity.
Qed.

(** X14 for the line [[1]]. *)
Lemma payload_must_be_an_object_witness :
  exists msg,
    run_job list_env exiting_handler None World0
    = mkRun (Raise (Exn AttributeError msg)) None World0.
Proof.
  destruct (payload_must_be_an_object list_env exiting_handler None World0
              (PyList [PyInt 1]))
    as (msg & E & _); [discriminate|reflexivity|discriminate|].
  exists msg. exact E.
Defined.

(** X15. The fallback to [DONKEYLABS_TCP_PORT] and [_do_connect] fit
    together. When the payload has no socket path, the environment has
    no [DONKEYLABS_SOCKET_PATH], and [DONKEYLABS_TCP_PORT] is a decimal
    number from 0 to 65535, the job [run_job] constructs connects an
    [AF_INET] socket to [("127.0.0.1", port)]. *)
Theorem tcp_port_fallback_dials_localhost
    (env : Env) (hb : option Q) (w : World) (j : Job) (d : dict)
    (port : string) (n : Z) :
  read_job env hb w = Constructed j ->
  json_loads env (sys_stdin_readline env) = Some (PyDict d) ->
  missing (dict_get d "socketPath") ->
  unset (os_environ_get env "DONKEYLABS_SOCKET_PATH") ->
  os_environ_get env "DONKEYLABS_TCP_PORT" = Some port ->
  no_colon port = true ->
  int_of_str port = Some n ->
  (0 <= n <= 65535)%Z ->
  socket_socket env (sockets_made w) = None ->
  _socket_path j = PyStr ("tcp://127.0.0.1:" ++ port)
  /\ _do_connect env (mkState j w)
     = state_after_dial env (mkState j w) AF_INET (TcpAddress "127.0.0.1" n).
Proof.
  intros Hread Hparse Hmiss Hunset Hport Hcolon Hint Hrange Hsock.
  assert (Hpath : _socket_path j = PyStr ("tcp://127.0.0.1:" ++ port)).
  { revert Hread. unfold read_job.
    destruct (negb (truthy (PyStr (sys_stdin_readline env)))); [discriminate|].
    rewrite Hparse.
    destruct (payload_get_dict d "jobId") as (id & -> & _).
    destruct (payload_get_dict d "name") as (nm & -> & _).
    destruct (payload_get_dict d "data") as (dt & -> & _).
    destruct (payload_get_dict d "socketPath") as (sp & -> & Hsp).
    rewrite (Hsp Hmiss), Hport. cbn [negb of_optional].
    rewrite (truthy_unset Hunset). cbn [negb].
    assert (Hp : truthy (PyStr port) = true).
    { apply truthy_PyStr. intros ->. discriminate Hint. }
    rewrite Hp. cbn [andb].
    match goal with
    | |- context [if ?b then Died _ else _] => destruct b
    end; [discriminate|].
    intros H. inversion H. reflexivity. }
  split; [exact Hpath|].
  unfold _do_connect. unfold bind at 1. unfold get_self at 1. cbn [self].
  rewrite Hpath.
  change ("tcp://127.0.0.1:" ++ port) with ("tcp://" ++ "127.0.0.1" ++ ":" ++ port).
  rewrite prefix_tcp, drop_prefix_tcp, (rsplit_colon_app "127.0.0.1" port Hcolon).
  rewrite new_socket_then by exact Hsock.
  rewrite Hint. apply socket_connect_self_new. exact Hrange.
Qed.

(** X15 with [DONKEYLABS_TCP_PORT=9000]. *)
Lemma tcp_port_fallback_dials_localhost_witness :
  exists j,
    read_job tcp_env None World0 = Constructed j
    /\ _do_connect tcp_env (mkState j World0)
       = state_after_dial tcp_env (mkState j World0) AF_INET
           (TcpAddress "127.0.0.1" 9000).
Proof.
  eexists. split; [vm_compute; reflexivity|].
  refine (proj2 (tcp_port_fallback_dials_localhost tcp_env None World0 _
                   [("jobId", PyStr "j1")] "9000" 9000%Z
                   _ _ _ _ _ _ _ _ _)).
  - vm_compute. reflexivity.
  - reflexivity.
  - exact I.
  - left. reflexivity.
  - reflexivity.
  - reflexivity.
  - reflexivity.
  - lia.
  - reflexivity.
Defined.

(** ** The announcement of [connect], and the example handler *)

Lemma writes_app l l' :
  length (filter is_write (l ++ l'))
  = length (filter is_write l) + length (filter is_write l').
Proof. rewrite filter_app. apply length_app. Qed.

Lemma sleeps_of_kinds ks more :
  forallb (among ks) more = true ->
  among ks (Sleep 0) = false ->
  sleeps_of more = [].
Proof.
  intros Hall Hk. induction more as [|e l IH]; [reflexivity|].
  cbn [forallb] in Hall. apply andb_prop in Hall. destruct Hall as [He Hl].
  change (sleeps_of (e :: l))
    with ((match e with Sleep q => [q] | _ => [] end) ++ sleeps_of l)%list.
  rewrite (IH Hl). destruct e; try reflexivity.
  unfold among in *. cbn [kind_of] in *. congruence.
Qed.

(** X16. When the connection is made, [connect] starts the heartbeat
    thread and then announces the job: what it hands to the socket
    after that is the frame of a started event with the job's id and a
    timestamp, once if the id can be encoded, and nothing else. *)
Theorem connect_announces_the_job (env : Env) (st st1 : State) :
  _do_connect env st = (Ret tt, st1) ->
  exists more,
    trace (world (snd (connect env st)))
    = (trace (world st1) ++ ThreadStart heartbeat_loop_target :: more)%list
    /\ forallb (among [KStderr; KSendall; KStart]) more = true
    /\ (forall fd bytes answer,
          In (SocketSendall fd bytes answer) more ->
          exists timestamp text,
            json_dumps (PyDict (bare_event "started" (job_id (self st)) timestamp))
            = Ret text
            /\ bytes = frame_of text)
    /\ (encodable (job_id (self st)) = true ->
        length (filter is_write more) = 1).
Proof.
  intros Ed.
  set (s2 := mkState
               (set__heartbeat_thread (Some heartbeat_loop_target)
                  (set__connected true (set__running true (self st1))))
               (emit (ThreadStart heartbeat_loop_target) (world st1))).
  assert (Ec : snd (connect env st)
               = snd (_send_message env [("type", PyStr "started")] s2)).
  { unfold connect, _start_heartbeat, _send_started, bind, update_self, do_effect.
    rewrite Ed. cbn [self world]. fold s2.
    destruct (send_message_returns env [("type", PyStr "started")] s2)
      as (b & m' & st2 & E).
    rewrite E. reflexivity. }
  rewrite Ec.
  assert (Hid : job_id (self s2) = job_id (self st)).
  { pose proof (keeps__do_connect job_id (fun _ _ => eq_refl) env st) as K.
    rewrite Ed in K. exact K. }
  destruct (do_connect_connected env st st1 Ed) as (sock & Hs & Hc).
  assert (Hs2 : _socket (self s2) = Some sock) by exact Hs.
  destruct (send_message_frames env [("type", PyStr "started")] s2)
    as (more & T & F).
  destruct (emits__send_message env [("type", PyStr "started")] s2)
    as (more' & T' & A).
  assert (more' = more) by (rewrite T in T'; eapply app_inv_head; eauto).
  subst more'.
  exists more. split.
  { rewrite T. unfold s2, emit. cbn [world trace].
    rewrite <- app_assoc. reflexivity. }
  split; [exact A|]. split.
  { intros fd bytes answer Hin.
    destruct (F fd bytes answer Hin) as (text & Hj & Hb).
    rewrite stamped_bare, Hid in Hj. eauto. }
  intros Henc.
  assert (Hj : exists text,
             json_dumps (PyDict (stamped env s2 [("type", PyStr "started")]))
             = Ret text).
  { apply json_dumps_encodable. rewrite stamped_bare, Hid.
    cbn. rewrite Henc. reflexivity. }
  destruct Hj as (text & Hj).
  revert T. send_cases env [("type", PyStr "started")] s2;
    cbn [world trace world_after_send]; intros T.
  - congruence.
  - congruence.
  - apply app_inv_head in T. subst more. reflexivity.
  - apply app_inv_head in T. subst more.
    destruct (spawns (self s2)); reflexivity.
Qed.

(** X16 on the job of the scenario. *)
Lemma connect_announces_the_job_witness :
  exists more,
    trace (world st_connected)
    = ([SocketCreate 0 AF_UNIX None;
        SocketConnect 0 (UnixPath "/tmp/x.sock") None]
       ++ ThreadStart heartbeat_loop_target :: more)%list
    /\ length (filter is_write more) = 1.
Proof.
  destruct (connect_announces_the_job refusing_env (mkState job_j1 World0)
              (snd (_do_connect refusing_env (mkState job_j1 World0))))
    as (more & T & _ & _ & N); [vm_compute; reflexivity|].
  exists more. split; [exact T|]. apply N. reflexivity.
Defined.

Lemma half_second : (0 <= 1 # 2)%Q.
Proof. discriminate. Qed.

(** The loop of the example: one progress event and half a second per
    step. *)
Lemma example_steps_run env percent_text py_str total_steps n todo :
  forall i st,
  exists st' more,
    example_steps env percent_text py_str total_steps n todo i st
    = (Ret tt, st')
    /\ trace (world st') = (trace (world st) ++ more)%list
    /\ sleeps_of more = repeat (1 # 2)%Q todo
    /\ forallb (among [KStderr; KSendall; KStart; KSleep]) more = true
    /\ length (filter is_write more) <= todo.
Proof.
  induction todo as [|todo IH]; intros i st.
  - exists st, []. rewrite app_nil_r. cbn. auto.
  - cbn [example_steps]. unfold bind at 1.
    destruct (reports_send env
                (progress_message (PyFloat (percent_text i n))
                   (Some ("Processing step " ++ str_of_Z (i + 1) ++ " of "
                          ++ format_value py_str total_steps)) []) st)
      as (st1 & more1 & E1 & T1 & A1 & W1 & _).
    unfold progress. rewrite E1.
    unfold bind at 1. rewrite (time_sleep_nonneg half_second).
    unfold do_effect at 1.
    destruct (IH (i + 1)%Z (mkState (self st1) (emit (Sleep (1 # 2)) (world st1))))
      as (st' & more2 & E2 & T2 & S2 & A2 & W2).
    rewrite E2. exists st', (more1 ++ Sleep (1 # 2) :: more2)%list.
    split; [reflexivity|]. split.
    { rewrite T2. unfold emit. cbn [world trace]. rewrite T1, <- !app_assoc.
      reflexivity. }
    split.
    { rewrite sleeps_of_app.
      rewrite (sleeps_of_kinds [KStderr; KSendall; KStart] more1 A1 eq_refl).
      change (sleeps_of (Sleep (1 # 2) :: more2))
        with ((1 # 2)%Q :: sleeps_of more2).
      rewrite S2. reflexivity. }
    split.
    { rewrite forallb_app.
      rewrite (emits_within_list [KStderr; KSendall; KStart]
                 [KStderr; KSendall; KStart; KSleep] more1 eq_refl A1).
      cbn [forallb andb]. rewrite A2. reflexivity. }
    rewrite writes_app. cbn [filter is_write]. lia.
Qed.

(** X17. The example handler. With a dictionary for the job's data
    whose [steps] is an integer [n] (5 when the key is absent) it logs
    the data, reports progress once per step with half a second of
    sleep after each, reports 100 percent and returns
    [{processed: True, steps: n}]: [n] sleeps, at most [n + 2] frames,
    no socket opened or closed, whatever the link does. With a
    [steps] that is not an integer it raises [TypeError], and with
    data that is not a dictionary [AttributeError], in both cases
    after the log event and without sleeping. *)
Theorem example_handler_runs
    (env : Env) (percent_text : Z -> Z -> string) (py_str : pyval -> string)
    (st : State) :
  let h := example_handler env percent_text py_str in
  (forall d n,
      data (self st) = PyDict d ->
      dict_get d "steps" = Some (PyInt n)
      \/ (dict_get d "steps" = None /\ n = 5%Z) ->
      exists st' more,
        h st = (Ret (PyDict [("processed", PyBool true); ("steps", PyInt n)]), st')
        /\ trace (world st') = (trace (world st) ++ more)%list
        /\ sleeps_of more = repeat (1 # 2)%Q (Z.to_nat n)
        /\ forallb (among [KStderr; KSendall; KStart; KSleep]) more = true
        /\ length (filter is_write more) <= Z.to_nat n + 2)
  /\ (forall d v,
        data (self st) = PyDict d ->
        dict_get d "steps" = Some v ->
        as_int v = None ->
        fst (h st) = Raise (Exn TypeError "object cannot be interpreted as an integer")
        /\ slept (snd (h st)) = slept st)
  /\ ((forall d, data (self st) <> PyDict d) ->
      fst (h st) = Raise (Exn AttributeError "object has no attribute 'get'")
      /\ slept (snd (h st)) = slept st).
Proof.
  cbv zeta.
  destruct (reports_send env
              (log_message "info"
                 ("Starting job with data: " ++ py_str (data (self st))) []) st)
    as (st1 & more1 & E1 & T1 & A1 & W1 & _).
  assert (Hdata : data (self st1) = data (self st)).
  { pose proof (keeps__send_message data (fun _ _ => eq_refl) (fun _ _ => eq_refl)
                  env (log_message "info"
                         ("Starting job with data: " ++ py_str (data (self st))) [])
                  st) as K.
    revert E1. unfold bind.
    destruct (_send_message env _ st) as [[[b m]|e] s]; cbn [snd] in K;
      intros E1; inversion E1; subst. exact K. }
  assert (Hsl : slept st1 = slept st).
  { unfold slept. rewrite T1, sleeps_of_app.
    rewrite (sleeps_of_kinds [KStderr; KSendall; KStart] more1 A1 eq_refl).
    apply app_nil_r. }
  assert (Eh : example_handler env percent_text py_str st
               = match data (self st) with
                 | PyDict d =>
                     let total_steps :=
                       match dict_get d "steps" with Some v => v | None => PyInt 5 end in
                     match as_int total_steps with
                     | Some n =>
                         (example_steps env percent_text py_str total_steps n
                            (Z.to_nat n) 0 ;;
                          progress env (PyInt 100) (Some "Complete!") [] ;;
                          ret (PyDict [("processed", PyBool true);
                                       ("steps", total_steps)])) st1
                     | None =>
                         (Raise (Exn TypeError "object cannot be interpreted as an integer"),
                          st1)
                     end
                 | _ => (Raise (Exn AttributeError "object has no attribute 'get'"), st1)
                 end).
  { unfold example_handler. unfold bind at 1. unfold get_self at 1.
    cbn [self]. unfold bind at 1. unfold info, log. rewrite E1.
    unfold bind at 1. unfold get_self at 1. rewrite Hdata.
    destruct (data (self st)) as [| | | | | |d0| |]; try reflexivity.
    cbv zeta.
    destruct (as_int match dict_get d0 "steps" with
                     | Some v => v
                     | None => PyInt 5
                     end); reflexivity. }
  rewrite Eh. split; [|split].
  - intros d n Hd Hsteps. rewrite Hd. cbv zeta.
    assert (Et : match dict_get d "steps" with Some v => v | None => PyInt 5 end
                 = PyInt n).
    { destruct Hsteps as [->|[-> ->]]; reflexivity. }
    rewrite Et. cbn [as_int]. unfold bind at 1.
    destruct (example_steps_run env percent_text py_str (PyInt n) n
                (Z.to_nat n) 0%Z st1)
      as (st2 & more2 & E2 & T2 & S2 & A2 & W2).
    rewrite E2. unfold bind at 1.
    destruct (reports_send env
                (progress_message (PyInt 100) (Some "Complete!") []) st2)
      as (st3 & more3 & E3 & T3 & A3 & W3 & _).
    unfold progress. rewrite E3. unfold ret.
    exists st3, (more1 ++ more2 ++ more3)%list.
    split; [reflexivity|]. split.
    { rewrite T3, T2, T1, <- !app_assoc. reflexivity. }
    split.
    { rewrite !sleeps_of_app.
      rewrite (sleeps_of_kinds [KStderr; KSendall; KStart] more1 A1 eq_refl).
      rewrite (sleeps_of_kinds [KStderr; KSendall; KStart] more3 A3 eq_refl).
      rewrite S2, app_nil_r. reflexivity. }
    split.
    { rewrite !forallb_app.
      rewrite (emits_within_list [KStderr; KSendall; KStart]
                 [KStderr; KSendall; KStart; KSleep] more1 eq_refl A1).
      rewrite (emits_within_list [KStderr; KSendall; KStart]
                 [KStderr; KSendall; KStart; KSleep] more3 eq_refl A3).
      rewrite A2. reflexivity. }
    rewrite !writes_app. lia.
  - intros d v Hd Hv Hint. rewrite Hd. cbv zeta. rewrite Hv, Hint.
    split; [reflexivity|exact Hsl].
  - intros Hnot. destruct (data (self st)) as [| | | | | |d0| |] eqn:Hd;
      try (split; [reflexivity|exact Hsl]).
    elim (Hnot d0). reflexivity.
Qed.

(** [run_job(example_handler)] on the handshake of the scenario, a job
    with two steps. *)
Example run_job_example_handler :
  let r := run_job responsive_env
             (example_handler responsive_env two_step_text (fun _ => "{'steps': 2}"))
             None World0 in
  exit_status (ended r) = 0%Z
  /\ sleeps_of (trace (after r)) = [(1 # 2)%Q; (1 # 2)%Q]
  /\ length (filter is_write (trace (after r))) = 6
  /\ nth_error (rev (filter is_write (trace (after r)))) 0
     = Some (SocketSendall 0
               (wire [("type", PyStr "completed");
                      ("result", PyDict [("processed", PyBool true);
                                         ("steps", PyInt 2)]);
                      ("jobId", PyStr "j1"); ("timestamp", PyInt 1700000000123)])
               None).
Proof. cbv zeta. repeat split; vm_compute; reflexivity. Qed.

(** ** The reconnection procedure, step by step *)

(** The steps of the specification are the steps of the code. *)
Lemma close_stale_handle_is_close st :
  close_stale_handle st = close_socket_quietly st.
Proof. reflexivity. Qed.

Lemma emit_event_is_send env kind st :
  emit_event env kind st = (_send_message env [("type", PyStr kind)] ;; ret tt) st.
Proof.
  unfold bind, ret, emit_event.
  pose proof (stamped_bare env st kind) as Hb.
  send_cases env [("type", PyStr kind)] st.
  - match goal with H : _socket (self st) = None |- _ => rewrite H end.
    reflexivity.
  - match goal with
    | Hs : _socket (self st) = Some _, Hj : json_dumps _ = Raise _ |- _ =>
        rewrite Hs; rewrite Hb in Hj; cbv zeta; rewrite Hj
    end.
    reflexivity.
  - match goal with
    | Hs : _socket (self st) = Some _, Hj : json_dumps _ = Ret _,
      Ha : sendall_answer _ _ _ _ = None |- _ =>
        rewrite Hs; rewrite Hb in Hj; cbv zeta; rewrite Hj, Ha
    end.
    reflexivity.
  - match goal with
    | Hs : _socket (self st) = Some _, Hj : json_dumps _ = Ret _,
      Ha : sendall_answer _ _ _ _ = Some _ |- _ =>
        rewrite Hs; rewrite Hb in Hj; cbv zeta; rewrite Hj, Ha
    end.
    reflexivity.
Qed.

Lemma procedure_attempts_is_loop env interval mx n : forall attempt st,
  procedure_attempts env interval mx n attempt st
  = attempts_by_outcome env interval mx n attempt st.
Proof.
  induction n as [|n IH]; intros attempt st.
  - reflexivity.
  - cbn [procedure_attempts attempts_by_outcome].
    change (close_stale_handle ;; _do_connect env) with (attempt_connect env).
    destruct (attempt_connect env st) as [[[]|e] st1].
    + unfold bind, mark_connected, update_self, print_stderr, do_effect.
      cbn beta iota. rewrite emit_event_is_send. reflexivity.
    + unfold bind, print_stderr, do_effect. cbn beta iota.
      apply IH.
Qed.

(** *** What each step adds to the trace *)

Lemma kinds_not_in ks l e :
  forallb (among ks) l = true -> In e l -> among ks e = false -> False.
Proof.
  intros Hall Hin He. rewrite forallb_forall in Hall.
  rewrite (Hall e Hin) in He. discriminate He.
Qed.

Lemma writes_none_kinds ks l :
  forallb (among ks) l = true ->
  among ks (SocketSendall 0 "" None) = false ->
  length (filter is_write l) = 0.
Proof.
  intros Hall Hk. induction l as [|e l IH]; [reflexivity|].
  cbn [forallb] in Hall. apply andb_prop in Hall. destruct Hall as [He Hl].
  cbn [filter]. destruct e; cbn [is_write]; try exact (IH Hl).
  unfold among in *. cbn [kind_of] in *. congruence.
Qed.

(** [connect] on a socket just made. *)
Lemma socket_connect_self_fresh env to st sock :
  _socket (self st) = Some sock ->
  exists more,
    trace (world (snd (socket_connect_self env to st)))
    = (trace (world st) ++ more)%list
    /\ forallb (among [KConnect]) more = true
    /\ (exists sock',
          _socket (self (snd (socket_connect_self env to st))) = Some sock'
          /\ fileno sock' = fileno sock
          /\ (fst (socket_connect_self env to st) = Ret tt ->
              state sock' = SockConnected)).
Proof.
  intros Hs.
  destruct (socket_connect_self_cases env to st)
    as [[Hn _]|[[_ E]|(sock1 & answer & Hs1 & _ & _ & E)]].
  - congruence.
  - rewrite E. exists []. rewrite app_nil_r. split; [reflexivity|].
    split; [reflexivity|]. exists sock. cbn [fst snd].
    split; [exact Hs|]. split; [reflexivity|discriminate].
  - rewrite E. rewrite Hs in Hs1. inversion Hs1; subst sock1.
    exists [SocketConnect (fileno sock) to answer]. cbn [fst snd self world trace].
    split; [reflexivity|]. split; [reflexivity|].
    destruct answer as [err|].
    + exists sock. split; [exact Hs|]. split; [reflexivity|discriminate].
    + eexists. split; [reflexivity|]. split; reflexivity.
Qed.

(** The sockets [_do_connect] makes: at most one, which it leaves in
    the object, connected when it returns. *)

Lemma do_connect_sockets env st : made_sockets st (_do_connect env st).
Proof.
  assert (Hnone : forall (e : exn), made_sockets st (@raise unit e st)).
  { intros e. exists []. rewrite app_nil_r. split; [reflexivity|].
    split; [reflexivity|]. split; [intros fd f []|discriminate]. }
  (* after the socket was made and stored *)
  assert (Hmade : forall fam (k : M unit),
             (k = raise (Exn ValueError "invalid literal for int() with base 10")
              \/ exists to, k = socket_connect_self env to) ->
             made_sockets st
               ((sock <- new_socket env fam ;;
                 update_self (set__socket (Some sock)) ;; k) st)).
  { intros fam k Hk.
    destruct (socket_socket env (sockets_made (world st))) as [err|] eqn:Es.
    - assert (E : (sock <- new_socket env fam ;;
                   update_self (set__socket (Some sock)) ;; k) st
                  = (Raise (exn_of_errno err),
                     mkState (self st)
                       (mkWorld (trace (world st)
                                 ++ [SocketCreate (sockets_made (world st)) fam
                                       (Some err)])%list
                          (clock_reads (world st)) (S (sockets_made (world st)))
                          (connects (world st)) (sends (world st))))).
      { unfold bind, new_socket. rewrite Es. reflexivity. }
      rewrite E. eexists. cbn [fst snd world trace]. split; [reflexivity|].
      split; [reflexivity|]. split; [|discriminate].
      intros fd f [H|[]]. discriminate H.
    - rewrite (new_socket_then env st fam unit k Es).
      set (sock := Socket (sockets_made (world st)) fam SockNew).
      assert (Hsock : _socket (self (state_after_socket st fam)) = Some sock)
        by reflexivity.
      assert (Htr : trace (world (state_after_socket st fam))
                    = (trace (world st)
                       ++ [SocketCreate (sockets_made (world st)) fam None])%list)
        by reflexivity.
      destruct Hk as [->|[to ->]].
      + exists [SocketCreate (sockets_made (world st)) fam None].
        cbn [fst snd raise]. split; [exact Htr|]. split; [reflexivity|].
        split; [|discriminate].
        intros fd f [H|[]]. inversion H; subst. exists sock. split; reflexivity.
      + destruct (socket_connect_self_fresh env to (state_after_socket st fam)
                    sock Hsock)
          as (more & T & A & sock' & Hs' & Hf & Hc).
        exists (SocketCreate (sockets_made (world st)) fam None :: more).
        split.
        { rewrite T, Htr, <- app_assoc. reflexivity. }
        split.
        { cbn [forallb]. rewrite (emits_within_list [KConnect] [KCreate; KConnect]
                                    more eq_refl A). reflexivity. }
        split.
        * intros fd f [H|H].
          -- inversion H; subst. exists sock'. split; [exact Hs'|exact Hf].
          -- exfalso.
             exact (kinds_not_in [KConnect] more _ A H eq_refl).
        * intros Hr. exists sock', fam. split; [exact Hs'|].
          split; [exact (Hc Hr)|]. left. rewrite Hf. reflexivity. }
  unfold _do_connect, bind at 1, get_self at 1. cbn [self].
  destruct (_socket_path (self st)) as [| | | |path| | | |]; try apply Hnone.
  destruct (prefix "tcp://" path).
  - destruct (rsplit_colon (drop_prefix 6 path)) as [[host port]|];
      [|apply Hnone].
    destruct (int_of_str port) as [n|]; apply Hmade; eauto.
  - apply Hmade. eauto.
Qed.

(** One attempt: the stale handle is closed first, then [_do_connect]
    runs. *)
Lemma attempt_connect_trace env st :
  exists more,
    trace (world (snd (attempt_connect env st)))
    = (trace (world st) ++ stale_handle (self st) ++ more)%list
    /\ forallb (among [KCreate; KConnect]) more = true
    /\ (forall fd f,
          In (SocketCreate fd f None) more ->
          exists sock,
            _socket (self (snd (attempt_connect env st))) = Some sock
            /\ fileno sock = fd)
    /\ (fst (attempt_connect env st) = Ret tt ->
        exists sock f,
          _socket (self (snd (attempt_connect env st))) = Some sock
          /\ state sock = SockConnected
          /\ In (SocketCreate (fileno sock) f None) more).
Proof.
  destruct (close_socket_quietly st) as [[[]|e] s0] eqn:Ec.
  2: { destruct (close_socket_quietly_returns st) as [s' E]. congruence. }
  assert (Ea : attempt_connect env st = _do_connect env s0).
  { unfold attempt_connect, bind. rewrite Ec. reflexivity. }
  assert (T0 : trace (world s0) = (trace (world st) ++ stale_handle (self st))%list).
  { revert Ec. unfold close_socket_quietly, stale_handle.
    destruct (_socket (self st)); intros H; inversion H; subst.
    - reflexivity.
    - rewrite app_nil_r. reflexivity. }
  rewrite Ea.
  destruct (do_connect_sockets env s0) as (more & T & A & C & R).
  exists more. rewrite T, T0, <- app_assoc. auto.
Qed.

(** The started event after a connection was made. *)
Lemma send_started_facts env st sock :
  _socket (self st) = Some sock ->
  _connected (self st) = true ->
  exists st' more,
    _send_started env st = (Ret tt, st')
    /\ trace (world st') = (trace (world st) ++ more)%list
    /\ forallb (among [KStderr; KSendall; KStart]) more = true
    /\ _socket (self st') = Some sock
    /\ announces (job_id (self st)) sock more
    /\ (_connected (self st') = false <-> refused_write more).
Proof.
  intros Hs Hc.
  assert (E : _send_started env st = emit_event env "started" st).
  { rewrite emit_event_is_send. reflexivity. }
  rewrite E. unfold emit_event. rewrite Hs. cbv zeta.
  destruct (json_dumps
              (PyDict (bare_event "started" (job_id (self st))
                         (int_of_Q (time_time env (clock_reads (world st)) * 1000)))))
    as [text|e] eqn:Ej.
  - destruct (sendall_answer env sock (sends (world st)) (frame_of text))
      as [err|] eqn:Ea.
    + eexists _, _. split; [reflexivity|].
      cbn [world self trace world_after_send]. split; [reflexivity|].
      split; [destruct (spawns (self st)); reflexivity|].
      split.
      { unfold self_after_failure. destruct (spawns (self st)); exact Hs. }
      split; [split|].
      * intros fd bytes answer Hin. apply in_app_or in Hin.
        destruct Hin as [[H|[H|[]]]|H].
        -- inversion H; subst. split; [reflexivity|]. eauto.
        -- discriminate H.
        -- destruct (spawns (self st)); [destruct H as [H|[]]; discriminate H
                                        |destruct H].
      * intros _. rewrite writes_app.
        destruct (spawns (self st)); reflexivity.
      * split.
        -- intros _. exists (fileno sock), (frame_of text), err. left. reflexivity.
        -- intros _. unfold self_after_failure.
           destruct (spawns (self st)); reflexivity.
    + eexists _, _. split; [reflexivity|].
      cbn [world self trace world_after_send]. split; [reflexivity|].
      split; [reflexivity|]. split; [exact Hs|].
      split; [split|].
      * intros fd bytes answer [H|[]]. inversion H; subst.
        split; [reflexivity|]. eauto.
      * intros _. reflexivity.
      * split.
        -- intros H. congruence.
        -- intros (fd & bytes & err & [H|[]]). discriminate H.
  - eexists _, _. split; [reflexivity|].
    cbn [world self trace world_after_send]. split; [reflexivity|].
    split; [reflexivity|]. split; [exact Hs|].
    split; [split|].
    + intros fd bytes answer [H|[]]. discriminate H.
    + intros Henc. exfalso.
      destruct (json_dumps_encodable
                  (PyDict (bare_event "started" (job_id (self st))
                             (int_of_Q (time_time env (clock_reads (world st)) * 1000)))))
        as [text Ht].
      { cbn. rewrite Henc. reflexivity. }
      congruence.
    + split.
      * intros H. congruence.
      * intros (fd & bytes & err & [H|[]]). discriminate H.
Qed.

Lemma in_stale_handle j sock :
  _socket j = Some sock -> In (SocketClose (fileno sock)) (stale_handle j).
Proof. intros H. unfold stale_handle. rewrite H. left. reflexivity. Qed.

Lemma stale_handle_kinds j : forallb (among [KClose]) (stale_handle j) = true.
Proof. unfold stale_handle. destruct (_socket j); reflexivity. Qed.

(** The loop, attempt by attempt. *)
Lemma attempts_by_outcome_result env interval mx n : forall attempt st,
  procedure_result interval n st (attempts_by_outcome env interval mx n attempt st).
Proof.
  induction n as [|n IH]; intros attempt st.
  - eexists false, _, 0, _. cbn [attempts_by_outcome]. unfold bind, print_stderr,
      do_effect, ret.
    split; [reflexivity|]. cbn [world self trace emit].
    split; [reflexivity|]. split; [reflexivity|].
    split; [intros H; inversion H|]. split; [reflexivity|].
    split; [intros fd f [H|[]]; discriminate H|].
    split; [|discriminate].
    intros _. split; [reflexivity|]. split; [reflexivity|].
    intros fd bytes answer [H|[]]. discriminate H.
  - cbn [attempts_by_outcome].
    destruct (attempt_connect_trace env st) as (more_d & T & A & C & R).
    pose proof (keeps_attempt_connect _ _connected env (fun _ _ => eq_refl) st) as Kc.
    pose proof (keeps_attempt_connect _ job_id env (fun _ _ => eq_refl) st) as Kj.
    pose proof (stale_handle_kinds (self st)) as As.
    assert (Apre : forallb (among [KClose; KCreate; KConnect])
                     (stale_handle (self st) ++ more_d) = true).
    { rewrite forallb_app.
      rewrite (emits_within_list [KClose] [KClose; KCreate; KConnect] _ eq_refl As).
      rewrite (emits_within_list [KCreate; KConnect] [KClose; KCreate; KConnect]
                 _ eq_refl A). reflexivity. }
    destruct (attempt_connect env st) as [[[]|e] st1] eqn:Ea;
      cbn [fst snd] in T, C, R, Kc, Kj.
    + (* the attempt succeeds *)
      destruct (R eq_refl) as (sock & f & Hs & Hconn & Hmade).
      unfold bind at 1. unfold update_self at 1.
      unfold bind at 1. unfold print_stderr, do_effect at 1. cbn [self world].
      set (line := "[DonkeylabsJob] Reconnected after "
                   ++ str_of_nat (attempt + 1) ++ " attempts").
      set (s2 := mkState (set__connected true (self st1))
                   (emit (Stderr line) (world st1))).
      destruct (send_started_facts env s2 sock Hs eq_refl)
        as (st' & more_s & Es & Ts & As' & Hs' & Hann & Href).
      unfold bind at 1. rewrite Es. unfold ret.
      exists true, st', 0,
        (stale_handle (self st) ++ more_d ++ Stderr line :: more_s)%list.
      split; [reflexivity|].
      split.
      { rewrite Ts. cbn [s2 world emit trace]. rewrite T, <- !app_assoc.
        reflexivity. }
      split.
      { rewrite !sleeps_of_app.
        rewrite (sleeps_of_kinds [KClose] _ As eq_refl).
        rewrite (sleeps_of_kinds [KCreate; KConnect] _ A eq_refl).
        change (sleeps_of (Stderr line :: more_s)) with (sleeps_of more_s).
        rewrite (sleeps_of_kinds [KStderr; KSendall; KStart] _ As' eq_refl).
        reflexivity. }
      split.
      { intros _ sock0 H0. apply in_or_app. left. exact (in_stale_handle _ _ H0). }
      split; [intros H; inversion H|].
      split.
      { intros fd f' Hin. left.
        apply in_app_or in Hin. destruct Hin as [Hin|Hin].
        { exfalso. exact (kinds_not_in [KClose] _ _ As Hin eq_refl). }
        apply in_app_or in Hin. destruct Hin as [Hin|[Hin|Hin]].
        - destruct (C fd f' Hin) as (sock1 & Hs1 & Hf1).
          exists sock. split; [exact Hs'|]. congruence.
        - discriminate Hin.
        - exfalso.
          exact (kinds_not_in [KStderr; KSendall; KStart] _ _ As' Hin eq_refl). }
      split; [discriminate|].
      intros _. split; [lia|].
      exists sock, f. split; [exact Hs'|]. split; [exact Hconn|].
      split; [apply in_or_app; right; apply in_or_app; left; exact Hmade|].
      change (job_id (self s2)) with (job_id (self st1)) in Hann.
      rewrite Kj in Hann. destruct Hann as [Hfr Hone].
      split; [split|].
      * intros fd bytes answer Hin.
        apply in_app_or in Hin. destruct Hin as [Hin|Hin].
        { exfalso. exact (kinds_not_in [KClose] _ _ As Hin eq_refl). }
        apply in_app_or in Hin. destruct Hin as [Hin|[Hin|Hin]].
        -- exfalso. exact (kinds_not_in [KCreate; KConnect] _ _ A Hin eq_refl).
        -- discriminate Hin.
        -- exact (Hfr fd bytes answer Hin).
      * intros Henc. rewrite !writes_app.
        rewrite (writes_none_kinds [KClose] _ As eq_refl).
        rewrite (writes_none_kinds [KCreate; KConnect] _ A eq_refl).
        change (length (filter is_write (Stderr line :: more_s)))
          with (length (filter is_write more_s)).
        rewrite (Hone Henc). reflexivity.
      * rewrite Href. unfold refused_write. split.
        -- intros (fd & bytes & err & Hin). exists fd, bytes, err.
           apply in_or_app. right. apply in_or_app. right. right. exact Hin.
        -- intros (fd & bytes & err & Hin). exists fd, bytes, err.
           apply in_app_or in Hin. destruct Hin as [Hin|Hin].
           { exfalso. exact (kinds_not_in [KClose] _ _ As Hin eq_refl). }
           apply in_app_or in Hin. destruct Hin as [Hin|[Hin|Hin]].
           ++ exfalso. exact (kinds_not_in [KCreate; KConnect] _ _ A Hin eq_refl).
           ++ discriminate Hin.
           ++ exact Hin.
    + (* the attempt fails *)
      unfold bind at 1. unfold print_stderr, do_effect at 1.
      unfold bind at 1. unfold do_effect at 1. cbn [self world].
      set (line := "[DonkeylabsJob] Reconnect attempt "
                   ++ str_of_nat (attempt + 1) ++ "/" ++ str_of_Z mx
                   ++ " failed: " ++ str_exn e).
      set (s2 := mkState (self st1)
                   (emit (Sleep interval) (emit (Stderr line) (world st1)))).
      destruct (IH (S attempt) s2)
        as (ok & st' & failures & more' & E' & T' & S' & Hclose' & Hzero' & Hleak'
            & Hfalse' & Htrue').
      rewrite E'.
      exists ok, st', (S failures),
        (stale_handle (self st) ++ more_d ++ [Stderr line; Sleep interval] ++ more')%list.
      split; [reflexivity|].
      split.
      { rewrite T'. cbn [s2 world emit trace]. rewrite T, <- !app_assoc.
        reflexivity. }
      split.
      { rewrite !sleeps_of_app.
        rewrite (sleeps_of_kinds [KClose] _ As eq_refl).
        rewrite (sleeps_of_kinds [KCreate; KConnect] _ A eq_refl).
        rewrite S'. reflexivity. }
      split.
      { intros _ sock0 H0. apply in_or_app. left. exact (in_stale_handle _ _ H0). }
      split; [intros H; inversion H|].
      split.
      { intros fd f' Hin.
        apply in_app_or in Hin. destruct Hin as [Hin|Hin].
        { exfalso. exact (kinds_not_in [KClose] _ _ As Hin eq_refl). }
        apply in_app_or in Hin. destruct Hin as [Hin|Hin].
        - destruct (C fd f' Hin) as (sock1 & Hs1 & Hf1).
          destruct n as [|n'].
          + left. exists sock1. rewrite (Hzero' eq_refl). split; [exact Hs1|exact Hf1].
          + right. apply in_or_app. right. apply in_or_app. right.
            apply in_or_app. right. rewrite <- Hf1.
            apply (Hclose' ltac:(lia) sock1). exact Hs1.
        - apply in_app_or in Hin. destruct Hin as [[Hin|[Hin|[]]]|Hin];
            try discriminate Hin.
          destruct (Hleak' fd f' Hin) as [Hheld|Hclosed]; [left; exact Hheld|].
          right. apply in_or_app. right. apply in_or_app. right.
          apply in_or_app. right. exact Hclosed. }
      assert (Hwrites : forall fd bytes answer,
                 In (SocketSendall fd bytes answer)
                    (stale_handle (self st) ++ more_d
                     ++ [Stderr line; Sleep interval] ++ more') ->
                 In (SocketSendall fd bytes answer) more').
      { intros fd bytes answer Hin.
        apply in_app_or in Hin. destruct Hin as [Hin|Hin].
        { exfalso. exact (kinds_not_in [KClose] _ _ As Hin eq_refl). }
        apply in_app_or in Hin. destruct Hin as [Hin|Hin].
        { exfalso. exact (kinds_not_in [KCreate; KConnect] _ _ A Hin eq_refl). }
        apply in_app_or in Hin. destruct Hin as [[Hin|[Hin|[]]]|Hin];
          try discriminate Hin. exact Hin. }
      split.
      * intros Hok. destruct (Hfalse' Hok) as (Hf & Hc' & Hw).
        split; [lia|]. split; [rewrite Hc'; exact Kc|].
        intros fd bytes answer Hin. exact (Hw _ _ _ (Hwrites _ _ _ Hin)).
      * intros Hok.
        destruct (Htrue' Hok) as (Hf & sock & f & Hs & Hconn & Hmade & Hann & Href).
        split; [lia|]. exists sock, f.
        split; [exact Hs|]. split; [exact Hconn|].
        split.
        { apply in_or_app. right. apply in_or_app. right.
          apply in_or_app. right. exact Hmade. }
        change (job_id (self s2)) with (job_id (self st1)) in Hann.
        rewrite Kj in Hann. destruct Hann as [Hfr Hone].
        split; [split|].
        -- intros fd bytes answer Hin. exact (Hfr _ _ _ (Hwrites _ _ _ Hin)).
        -- intros Henc. rewrite !writes_app.
           rewrite (writes_none_kinds [KClose] _ As eq_refl).
           rewrite (writes_none_kinds [KCreate; KConnect] _ A eq_refl).
           cbn [filter is_write length]. rewrite (Hone Henc). reflexivity.
        -- rewrite Href. unfold refused_write. split.
           ++ intros (fd & bytes & err & Hin). exists fd, bytes, err.
              apply in_or_app. right. apply in_or_app. right.
              apply in_or_app. right. exact Hin.
           ++ intros (fd & bytes & err & Hin). exists fd, bytes, err.
              exact (Hwrites _ _ _ Hin).
Qed.

(** [connect] makes its connection with [_do_connect] and with nothing
    else. *)
Lemma connect_runs_do_connect env s :
  fst (connect env s) = fst (_do_connect env s)
  /\ exists more,
       trace (world (snd (connect env s)))
       = (trace (world (snd (_do_connect env s))) ++ more)%list
       /\ forallb (among [KStderr; KSendall; KStart]) more = true.
Proof.
  destruct (_do_connect env s) as [[[]|e] s1] eqn:Ed.
  - set (s2 := mkState
                 (set__heartbeat_thread (Some heartbeat_loop_target)
                    (set__connected true (set__running true (self s1))))
                 (emit (ThreadStart heartbeat_loop_target) (world s1))).
    assert (Ec : connect env s
                 = (Ret tt, snd (_send_message env [("type", PyStr "started")] s2))).
    { unfold connect, _start_heartbeat, _send_started, bind, update_self, do_effect.
      rewrite Ed. cbn [self world]. fold s2.
      destruct (send_message_returns env [("type", PyStr "started")] s2)
        as (b & m' & st2 & E).
      rewrite E. reflexivity. }
    rewrite Ec. cbn [fst snd]. split; [reflexivity|].
    destruct (emits__send_message env [("type", PyStr "started")] s2)
      as (more & T & A).
    exists (ThreadStart heartbeat_loop_target :: more). split.
    + rewrite T. unfold s2, emit. cbn [world trace]. rewrite <- app_assoc.
      reflexivity.
    + cbn [forallb]. rewrite A. reflexivity.
  - rewrite (connect_starts_with__do_connect env s Ed). cbn [fst snd].
    split; [reflexivity|]. exists []. rewrite app_nil_r. split; reflexivity.
Qed.

(** C4. With a reconnect interval [time.sleep] takes (not negative, not
    beyond its range), the reconnection procedure of the code is the
    procedure of the specification, step for step: after a line on
    stderr, up to [max_reconnect_attempts] attempts in sequence; each
    closes the stale handle if any and runs [_do_connect], with which
    [connect] makes its connection too; the first success marks the
    link connected, emits a fresh started event on the new socket and
    returns true; each failure is followed by a sleep of
    [reconnect_interval] seconds; after as many failures as there are
    attempts false is returned, with nothing written. The procedure
    closes every socket it made but the one it leaves in the object.
    It returns true also when the transport refuses the started event;
    the link is then marked not connected again. The defaults are 30
    attempts and 2 seconds. (When the link is already marked connected
    no attempt is made and true is returned.) *)
Theorem try_reconnect_follows_the_procedure (env : Env) (st : State) :
  (0 <= _reconnect_interval (self st))%Q ->
  (_reconnect_interval (self st) <= sleep_limit)%Q ->
  (_connected (self st) = false ->
   _try_reconnect env st = reconnection_procedure env st
   /\ procedure_result (_reconnect_interval (self st))
        (Z.to_nat (_max_reconnect_attempts (self st))) (attempting st)
        (_try_reconnect env st))
  /\ (_connected (self st) = true -> _try_reconnect env st = (Ret true, st))
  /\ (forall s,
        fst (connect env s) = fst (_do_connect env s)
        /\ exists more,
             trace (world (snd (connect env s)))
             = (trace (world (snd (_do_connect env s))) ++ more)%list
             /\ forallb (among [KStderr; KSendall; KStart]) more = true)
  /\ (forall id nm d path hb,
        _max_reconnect_attempts (__init__ id nm d path hb None None) = 30%Z
        /\ _reconnect_interval (__init__ id nm d path hb None None) = (2 # 1)%Q).
Proof.
  intros Hq _.
  split; [|split; [|split]].
  - intros Hc.
    assert (E : _try_reconnect env st
                = attempts_by_outcome env (_reconnect_interval (self st))
                    (_max_reconnect_attempts (self st))
                    (Z.to_nat (_max_reconnect_attempts (self st))) 0
                    (attempting st)).
    { destruct (@try_reconnect_by_outcome_and_sleeps env st Hq Hc) as [-> _].
      reflexivity. }
    split.
    + rewrite E. unfold reconnection_procedure, bind, print_stderr, do_effect.
      rewrite procedure_attempts_is_loop. reflexivity.
    + rewrite E. apply attempts_by_outcome_result.
  - intros Hc. unfold _try_reconnect, bind, get_self. rewrite Hc. reflexivity.
  - intros s. apply connect_runs_do_connect.
  - intros. split; reflexivity.
Qed.

(** C4 in the scenario, after the connection was lost: two attempts,
    two sleeps, and failure. *)
Lemma try_reconnect_follows_the_procedure_witness :
  (0 <= _reconnect_interval (self st_lost))%Q
  /\ (_reconnect_interval (self st_lost) <= sleep_limit)%Q
  /\ _try_reconnect refusing_env st_lost = reconnection_procedure refusing_env st_lost
  /\ fst (_try_reconnect refusing_env st_lost) = Ret false.
Proof.
  assert (H1 : (0 <= _reconnect_interval (self st_lost))%Q).
  { vm_compute. discriminate. }
  assert (H2 : (_reconnect_interval (self st_lost) <= sleep_limit)%Q).
  { vm_compute. discriminate. }
  split; [exact H1|]. split; [exact H2|].
  split; [|vm_compute; reflexivity].
  exact (proj1 (proj1 (try_reconnect_follows_the_procedure refusing_env st_lost
                         H1 H2) eq_refl)).
Defined.

(** The procedure returns true when the connection is made, also when
    the transport then refuses the started event: the link is marked
    not connected again, and the answer is still true. *)
Example reconnect_succeeds_started_refused :
  let r := _try_reconnect deaf_env (mkState job_j1 World0) in
  fst r = Ret true
  /\ _connected (self (snd r)) = false
  /\ trace (world (snd r))
     = [Stderr "[DonkeylabsJob] Attempting to reconnect...";
        SocketCreate 0 AF_UNIX None;
        SocketConnect 0 (UnixPath "/tmp/x.sock") None;
        Stderr "[DonkeylabsJob] Reconnected after 1 attempts";
        SocketSendall 0
          (wire [("type", PyStr "started"); ("jobId", PyStr "j1");
                 ("timestamp", PyInt 1700000000123)]) (Some EPIPE);
        Stderr "[DonkeylabsJob] Connection lost: [Errno 32] Broken pipe"].
Proof. cbv zeta. repeat split; vm_compute; reflexivity. Qed.

(** ** Sends after [disconnect] *)




(** [disconnect] does not stop a reconnection thread that was started
    before it: the thread makes a new connection, announces the job on
    it, and the sends after that are accepted, by a job that is not
    running. *)
Example reconnection_outlives_disconnect :
  let st := snd (_reconnect_loop returning_env st_disconnected_early) in
  _reconnect_thread (self st_disconnected_early) = Some _reconnect_loop_target
  /\ _running (self st) = false
  /\ _connected (self st) = true
  /\ fst (send_each returning_env [progress_message (PyInt 60) None []] st)
     = Ret [true].
Proof. cbv zeta. repeat split; vm_compute; reflexivity. Qed.
